(** * Streaming speech-recognition client: wire protocol and session model

    A shallow embedding of [src/im/voiceinput/asr_client.cpp],
    [src/im/voiceinput/volcenginerecognizer.h] and
    [src/im/voiceinput/volcenginerecognizer.cpp].

    A [std::string] is a [string] (a list of 8-bit characters); the integer
    fields of the frame header are [Z] with the C++ bit operations written
    out.  Third-party libraries the code calls (boost iostreams' gzip
    filters, OpenSSL's HMAC, boost beast's base64, nlohmann's [dump]) are
    variables of the sections that use them. *)

From Stdlib Require Import ZArith List String Ascii Bool Lia DecimalString.
Import ListNotations.

Open Scope string_scope.
Open Scope Z_scope.

(** ** Byte strings *)

(** The value of a [char] seen as an unsigned byte. *)
Definition byte_val (c : ascii) : Z := Z.of_N (N_of_ascii c).

(** [push_back] of an [int] expression: the value is truncated to 8 bits. *)
Definition chr (z : Z) : ascii := ascii_of_N (Z.to_N (z mod 256)).

Definition str1 (z : Z) : string := String (chr z) EmptyString.

(** [s.size()] *)
Definition size (s : string) : Z := Z.of_nat (String.length s).

(** [s.empty()] *)
Definition empty (s : string) : bool :=
  match s with EmptyString => true | _ => false end.

(** [boost::endian::native_to_big<uint32_t>(n)] followed by appending the four
    bytes of the object representation: the value is first converted to
    [uint32_t], then laid out most significant byte first. *)
Definition be32 (n : Z) : string :=
  let v := n mod 2 ^ 32 in
  str1 (Z.shiftr v 24) ++ str1 (Z.shiftr v 16) ++ str1 (Z.shiftr v 8) ++ str1 v.

(** ** Outcomes of a call

    A member function either returns, leaves by an exception nobody in the
    modelled code catches, or runs into undefined behaviour. *)

Inductive exception : Type :=
| out_of_range          (* std::string::substr with pos > size() *)
| gzip_error            (* boost::iostreams gzip/zlib failure *)
| json_type_error.      (* nlohmann type_error.316 from dump *)

Inductive undefined : Type :=
| out_of_bounds_read    (* reading past the end of a string's storage *)
| null_dereference.     (* operator-> on an empty shared_ptr / unique_ptr *)

Inductive outcome (A : Type) : Type :=
| Ok (a : A)
| Throws (e : exception)
| Undefined (u : undefined).

Arguments Ok {A} a.
Arguments Throws {A} e.
Arguments Undefined {A} u.

Definition bind {A B} (m : outcome A) (k : A -> outcome B) : outcome B :=
  match m with
  | Ok a => k a
  | Throws e => Throws e
  | Undefined u => Undefined u
  end.

Notation "x <- m ;; k" := (bind m (fun x => k))
  (at level 61, m at next level, right associativity).
Notation "' p <- m ;; k" := (bind m (fun x => let p := x in k))
  (at level 61, p pattern, m at next level, right associativity).

(** ** Wire constants ([asr_client.h]) *)

Inductive MessageType : Type :=
| FULL_CLIENT_REQUEST
| AUDIO_ONLY_CLIENT_REQUEST
| FULL_SERVER_RESPONSE
| SERVER_ACK
| ERROR_MESSAGE_FROM_SERVER.

Definition MessageType_val (t : MessageType) : Z :=
  match t with
  | FULL_CLIENT_REQUEST => 1 (* 0b0001 *)
  | AUDIO_ONLY_CLIENT_REQUEST => 2 (* 0b0010 *)
  | FULL_SERVER_RESPONSE => 9 (* 0b1001 *)
  | SERVER_ACK => 11 (* 0b1011 *)
  | ERROR_MESSAGE_FROM_SERVER => 15 (* 0b1111 *)
  end.

Inductive MessageTypeFlag : Type :=
| NO_SEQUENCE_NUMBER
| POSITIVE_SEQUENCE_CLIENT_ASSGIN
| NEGATIVE_SEQUENCE_SERVER_ASSGIN
| NEGATIVE_SEQUENCE_CLIENT_ASSIGN.

Definition MessageTypeFlag_val (f : MessageTypeFlag) : Z :=
  match f with
  | NO_SEQUENCE_NUMBER => 0 (* 0b0000 *)
  | POSITIVE_SEQUENCE_CLIENT_ASSGIN => 1 (* 0b0001 *)
  | NEGATIVE_SEQUENCE_SERVER_ASSGIN => 2 (* 0b0010 *)
  | NEGATIVE_SEQUENCE_CLIENT_ASSIGN => 3 (* 0b0011 *)
  end.

Inductive MessageSerial : Type := NO_SERIAL | JSON | CUSTOM_SERIAL.

Definition MessageSerial_val (s : MessageSerial) : Z :=
  match s with NO_SERIAL => 0 (* 0b0000 *) | JSON => 1 (* 0b0001 *) | CUSTOM_SERIAL => 15 (* 0b1111 *) end.

Inductive MessageCompress : Type := NO_COMPRESS | GZIP | CUSTOM_COMPRESS.

Definition MessageCompress_val (c : MessageCompress) : Z :=
  match c with NO_COMPRESS => 0 (* 0b0000 *) | GZIP => 1 (* 0b0001 *) | CUSTOM_COMPRESS => 15 (* 0b1111 *) end.

Inductive AuthType : Type := TOKEN | SIGNATURE.

(** Members of [AsrClient] with a default initialiser and no setter. *)
Definition _protocol_version : Z := 1. (* 0b0001 *)
Definition _header_size : Z := 4.
Definition _message_serial : MessageSerial := JSON.
Definition _message_compress : MessageCompress := GZIP.
Definition _reserved : Z := 0.

(** ** JSON values and [json::parse]

    The part of nlohmann::json the client relies on: the value type, the
    strict RFC 8259 parser behind [json::parse] (an exception is [None]), and
    the accessors [contains], [operator[]], [is_number_integer], the
    comparisons with an integer and the conversion to [std::string]. *)

Module Json.

Local Set Warnings "-register-all".

Inductive value : Type :=
| null
| boolean (b : bool)
| number_integer (n : Z)          (* int64_t: a literal with a minus sign *)
| number_unsigned (n : Z)         (* uint64_t: a literal without one *)
| number_float (lexeme : string)  (* double; only its spelling is kept *)
| jstring (s : string)
| array (elements : list value)
| object (members : list (string * value)).

(** *** Lexer

    One character at a time, as a state machine, so that scanning is
    structurally recursive on the input. *)

Inductive token : Type :=
| begin_array | end_array | begin_object | end_object
| name_separator | value_separator
| literal (v : value)             (* true, false, null and the numbers *)
| value_string (s : string).

Inductive number_state : Type :=
| st_minus | st_zero | st_any1 | st_decimal1 | st_decimal2
| st_exponent | st_sign | st_any2.

Record num : Type := mk_num {
  neg : bool;            (* a leading minus *)
  mant : Z;              (* the digits of the integer and fraction parts *)
  frac_len : Z;          (* how many of them follow the decimal point *)
  is_float : bool;       (* a decimal point or an exponent was seen *)
  exp_neg : bool;
  exp_val : Z;
  lexeme_rev : list ascii
}.

Inductive string_state : Type :=
| s_plain
| s_escape                                   (* after a backslash *)
| s_hex (hi : option Z) (k : nat) (acc : Z)  (* in \uXXXX, k digits read *)
| s_low_backslash (hi : Z)                   (* high surrogate read: expect \ *)
| s_low_u (hi : Z)                           (* ... then u *)
| s_utf8 (ranges : list (Z * Z)).            (* continuation bytes expected *)

Inductive lex_state : Type :=
| l_start
| l_literal (rest : list ascii) (v : value)
| l_number (st : number_state) (n : num)
| l_string (acc_rev : list ascii) (st : string_state)
| l_end.          (* a NUL where a token starts reads as end of input *)

Definition string_of_rev (l : list ascii) : string :=
  string_of_list_ascii (List.rev l).

Definition is_digit (v : Z) : bool := (0x30 <=? v) && (v <=? 0x39).

Definition hex_digit (v : Z) : option Z :=
  if (0x30 <=? v) && (v <=? 0x39) then Some (v - 0x30)
  else if (0x41 <=? v) && (v <=? 0x46) then Some (v - 0x37)
  else if (0x61 <=? v) && (v <=? 0x66) then Some (v - 0x57)
  else None.

(** The UTF-8 encoding [scan_string] appends for an escaped code point. *)
Definition utf8_encode (cp : Z) : list ascii :=
  if cp <? 0x80 then [chr cp]
  else if cp <=? 0x7FF then
    [chr (Z.lor 0xC0 (Z.shiftr cp 6)); chr (Z.lor 0x80 (Z.land cp 0x3F))]
  else if cp <=? 0xFFFF then
    [chr (Z.lor 0xE0 (Z.shiftr cp 12));
     chr (Z.lor 0x80 (Z.land (Z.shiftr cp 6) 0x3F));
     chr (Z.lor 0x80 (Z.land cp 0x3F))]
  else
    [chr (Z.lor 0xF0 (Z.shiftr cp 18));
     chr (Z.lor 0x80 (Z.land (Z.shiftr cp 12) 0x3F));
     chr (Z.lor 0x80 (Z.land (Z.shiftr cp 6) 0x3F));
     chr (Z.lor 0x80 (Z.land cp 0x3F))].

(** The largest finite double is [2^1024 - 2^971]; a decimal at or above the
    midpoint [2^1024 - 2^970] is read by [strtod] as infinity, which the
    parser rejects (out_of_range.406). *)
Definition overflows_double (n : num) : bool :=
  let e := (if exp_neg n then - exp_val n else exp_val n) - frac_len n in
  let bound := 2 ^ 1024 - 2 ^ 970 in
  if 0 <=? e then bound <=? mant n * 10 ^ e
  else bound * 10 ^ (- e) <=? mant n.

(** End of [scan_number]: [strtoull] for a literal without sign, [strtoll]
    for one with a sign, [strtod] when those report a range error or the
    literal has a fraction or an exponent. *)
Definition finish_number (n : num) : option token :=
  let as_float :=
    if overflows_double n then None
    else Some (literal (number_float (string_of_rev (lexeme_rev n)))) in
  if is_float n then as_float
  else if neg n then
    if mant n <=? 2 ^ 63 then Some (literal (number_integer (- mant n)))
    else as_float
  else
    if mant n <? 2 ^ 64 then Some (literal (number_unsigned (mant n)))
    else as_float.

Definition push (c : ascii) (n : num) : num :=
  mk_num (neg n) (mant n) (frac_len n) (is_float n) (exp_neg n) (exp_val n)
         (c :: lexeme_rev n).

Definition push_int (c : ascii) (n : num) : num :=
  mk_num (neg n) (mant n * 10 + (byte_val c - 0x30)) (frac_len n) (is_float n)
         (exp_neg n) (exp_val n) (c :: lexeme_rev n).

Definition push_frac (c : ascii) (n : num) : num :=
  mk_num (neg n) (mant n * 10 + (byte_val c - 0x30)) (frac_len n + 1) true
         (exp_neg n) (exp_val n) (c :: lexeme_rev n).

Definition push_exp (c : ascii) (n : num) : num :=
  mk_num (neg n) (mant n) (frac_len n) true (exp_neg n)
         (exp_val n * 10 + (byte_val c - 0x30)) (c :: lexeme_rev n).

Definition mark_float (c : ascii) (n : num) : num :=
  mk_num (neg n) (mant n) (frac_len n) true (exp_neg n) (exp_val n)
         (c :: lexeme_rev n).

Definition mark_exp_sign (c : ascii) (n : num) : num :=
  mk_num (neg n) (mant n) (frac_len n) true (byte_val c =? 0x2D) (exp_val n)
         (c :: lexeme_rev n).

Inductive number_step_result : Type :=
| num_continue (st : number_state) (n : num)
| num_done
| num_error.

(** The transition table of [scan_number]. *)
Definition number_step (st : number_state) (n : num) (c : ascii)
  : number_step_result :=
  let v := byte_val c in
  let is_e := (v =? 0x65) || (v =? 0x45) in
  let is_dot := v =? 0x2E in
  match st with
  | st_minus =>
      if v =? 0x30 then num_continue st_zero (push_int c n)
      else if is_digit v then num_continue st_any1 (push_int c n)
      else num_error
  | st_zero =>
      if is_dot then num_continue st_decimal1 (mark_float c n)
      else if is_e then num_continue st_exponent (mark_float c n)
      else num_done
  | st_any1 =>
      if is_digit v then num_continue st_any1 (push_int c n)
      else if is_dot then num_continue st_decimal1 (mark_float c n)
      else if is_e then num_continue st_exponent (mark_float c n)
      else num_done
  | st_decimal1 =>
      if is_digit v then num_continue st_decimal2 (push_frac c n)
      else num_error
  | st_decimal2 =>
      if is_digit v then num_continue st_decimal2 (push_frac c n)
      else if is_e then num_continue st_exponent (mark_float c n)
      else num_done
  | st_exponent =>
      if (v =? 0x2B) || (v =? 0x2D) then num_continue st_sign (mark_exp_sign c n)
      else if is_digit v then num_continue st_any2 (push_exp c n)
      else num_error
  | st_sign =>
      if is_digit v then num_continue st_any2 (push_exp c n)
      else num_error
  | st_any2 =>
      if is_digit v then num_continue st_any2 (push_exp c n)
      else num_done
  end.

Definition number_accepting (st : number_state) : bool :=
  match st with
  | st_zero | st_any1 | st_decimal2 | st_any2 => true
  | _ => false
  end.

(** The first byte of a multi-byte UTF-8 sequence fixes the ranges its
    continuation bytes must lie in ([scan_string]'s case table). *)
Definition utf8_ranges (v : Z) : option (list (Z * Z)) :=
  if (0xC2 <=? v) && (v <=? 0xDF) then Some [(0x80, 0xBF)]
  else if v =? 0xE0 then Some [(0xA0, 0xBF); (0x80, 0xBF)]
  else if ((0xE1 <=? v) && (v <=? 0xEC)) || (v =? 0xEE) || (v =? 0xEF) then
    Some [(0x80, 0xBF); (0x80, 0xBF)]
  else if v =? 0xED then Some [(0x80, 0x9F); (0x80, 0xBF)]
  else if v =? 0xF0 then Some [(0x90, 0xBF); (0x80, 0xBF); (0x80, 0xBF)]
  else if (0xF1 <=? v) && (v <=? 0xF3) then
    Some [(0x80, 0xBF); (0x80, 0xBF); (0x80, 0xBF)]
  else if v =? 0xF4 then Some [(0x80, 0x8F); (0x80, 0xBF); (0x80, 0xBF)]
  else None.

Inductive string_step_result : Type :=
| str_continue (acc_rev : list ascii) (st : string_state)
| str_done (s : string)
| str_error.

(** One character of [scan_string], after the opening quote. *)
Definition string_step (acc : list ascii) (st : string_state) (c : ascii)
  : string_step_result :=
  let v := byte_val c in
  match st with
  | s_plain =>
      if v =? 0x22 then str_done (string_of_rev acc)
      else if v =? 0x5C then str_continue acc s_escape
      else if v <? 0x20 then str_error
      else if v <=? 0x7F then str_continue (c :: acc) s_plain
      else match utf8_ranges v with
           | Some rs => str_continue (c :: acc) (s_utf8 rs)
           | None => str_error
           end
  | s_utf8 rs =>
      match rs with
      | [] => str_error
      | (lo, hi) :: rs' =>
          if (lo <=? v) && (v <=? hi) then
            str_continue (c :: acc)
                         (match rs' with [] => s_plain | _ => s_utf8 rs' end)
          else str_error
      end
  | s_escape =>
      if v =? 0x22 then str_continue (chr 0x22 :: acc) s_plain
      else if v =? 0x5C then str_continue (chr 0x5C :: acc) s_plain
      else if v =? 0x2F then str_continue (chr 0x2F :: acc) s_plain
      else if v =? 0x62 then str_continue (chr 0x08 :: acc) s_plain
      else if v =? 0x66 then str_continue (chr 0x0C :: acc) s_plain
      else if v =? 0x6E then str_continue (chr 0x0A :: acc) s_plain
      else if v =? 0x72 then str_continue (chr 0x0D :: acc) s_plain
      else if v =? 0x74 then str_continue (chr 0x09 :: acc) s_plain
      else if v =? 0x75 then str_continue acc (s_hex None 0 0)
      else str_error
  | s_hex hi k a =>
      match hex_digit v with
      | None => str_error
      | Some d =>
          let cp := a * 16 + d in
          match k with
          | 3%nat =>
              match hi with
              | None =>
                  if (0xD800 <=? cp) && (cp <=? 0xDBFF) then
                    str_continue acc (s_low_backslash cp)
                  else if (0xDC00 <=? cp) && (cp <=? 0xDFFF) then str_error
                  else str_continue ((List.rev (utf8_encode cp) ++ acc)%list) s_plain
              | Some h =>
                  if (0xDC00 <=? cp) && (cp <=? 0xDFFF) then
                    let full := Z.shiftl h 10 + cp - 0x35FDC00 in
                    str_continue ((List.rev (utf8_encode full) ++ acc)%list) s_plain
                  else str_error
              end
          | _ => str_continue acc (s_hex hi (S k) cp)
          end
      end
  | s_low_backslash h =>
      if v =? 0x5C then str_continue acc (s_low_u h) else str_error
  | s_low_u h =>
      if v =? 0x75 then str_continue acc (s_hex (Some h) 0 0) else str_error
  end.

Definition new_num (negative : bool) (c : ascii) : num :=
  mk_num negative (if negative then 0 else byte_val c - 0x30) 0 false false 0 [c].

(** [scan()] where a token starts. *)
Definition start (c : ascii) : option (lex_state * list token) :=
  let v := byte_val c in
  if (v =? 0x20) || (v =? 0x09) || (v =? 0x0A) || (v =? 0x0D) then
    Some (l_start, [])
  else if v =? 0x00 then Some (l_end, [])
  else if v =? 0x5B then Some (l_start, [begin_array])
  else if v =? 0x5D then Some (l_start, [end_array])
  else if v =? 0x7B then Some (l_start, [begin_object])
  else if v =? 0x7D then Some (l_start, [end_object])
  else if v =? 0x3A then Some (l_start, [name_separator])
  else if v =? 0x2C then Some (l_start, [value_separator])
  else if v =? 0x74 then
    Some (l_literal (list_ascii_of_string "rue") (boolean true), [])
  else if v =? 0x66 then
    Some (l_literal (list_ascii_of_string "alse") (boolean false), [])
  else if v =? 0x6E then
    Some (l_literal (list_ascii_of_string "ull") null, [])
  else if v =? 0x22 then Some (l_string [] s_plain, [])
  else if v =? 0x2D then Some (l_number st_minus (new_num true c), [])
  else if v =? 0x30 then Some (l_number st_zero (new_num false c), [])
  else if is_digit v then Some (l_number st_any1 (new_num false c), [])
  else None.

Definition lex_step (st : lex_state) (c : ascii)
  : option (lex_state * list token) :=
  match st with
  | l_end => Some (l_end, [])
  | l_start => start c
  | l_literal rest v =>
      match rest with
      | [] => None
      | x :: rest' =>
          if byte_val c =? byte_val x then
            match rest' with
            | [] => Some (l_start, [literal v])
            | _ => Some (l_literal rest' v, [])
            end
          else None
      end
  | l_number nst n =>
      match number_step nst n c with
      | num_continue nst' n' => Some (l_number nst' n', [])
      | num_error => None
      | num_done =>
          match finish_number n, start c with
          | Some t, Some (st', out) => Some (st', t :: out)
          | _, _ => None
          end
      end
  | l_string acc sst =>
      match string_step acc sst c with
      | str_continue acc' sst' => Some (l_string acc' sst', [])
      | str_done s => Some (l_start, [value_string s])
      | str_error => None
      end
  end.

Definition lex_finish (st : lex_state) : option (list token) :=
  match st with
  | l_start | l_end => Some []
  | l_number nst n =>
      if number_accepting nst then
        match finish_number n with Some t => Some [t] | None => None end
      else None
  | l_literal _ _ | l_string _ _ => None
  end.

Fixpoint lex_from (st : lex_state) (s : string) : option (list token) :=
  match s with
  | EmptyString => lex_finish st
  | String c r =>
      match lex_step st c with
      | None => None
      | Some (st', out) =>
          match lex_from st' r with
          | None => None
          | Some rest => Some (out ++ rest)%list
          end
      end
  end.

(** [skip_bom]: a leading 0xEF must start a complete byte order mark. *)
Definition skip_bom (s : string) : option string :=
  match s with
  | String c0 r0 =>
      if byte_val c0 =? 0xEF then
        match r0 with
        | String c1 (String c2 r) =>
            if (byte_val c1 =? 0xBB) && (byte_val c2 =? 0xBF) then Some r
            else None
        | _ => None
        end
      else Some s
  | EmptyString => Some s
  end.

Definition lex (s : string) : option (list token) :=
  match skip_bom s with
  | Some r => lex_from l_start r
  | None => None
  end.

(** *** Parser

    [sax_parse_internal] keeps a stack of the containers being filled
    instead of recursing; so does this function, which is structurally
    recursive on the tokens. *)

Inductive frame : Type :=
| in_array (rev_elements : list value)
| in_object (rev_members : list (string * value)) (key : string).

Fixpoint parse_value (toks : list token) (stack : list frame) {struct toks}
  : option value :=
  match toks with
  | begin_object :: end_object :: rest => parse_after (object []) rest stack
  | begin_object :: value_string k :: name_separator :: rest =>
      parse_value rest (in_object [] k :: stack)
  | begin_array :: end_array :: rest => parse_after (array []) rest stack
  | begin_array :: rest => parse_value rest (in_array [] :: stack)
  | literal v :: rest => parse_after v rest stack
  | value_string s :: rest => parse_after (jstring s) rest stack
  | _ => None
  end
with parse_after (v : value) (toks : list token) (stack : list frame)
  {struct toks} : option value :=
  match stack with
  | [] => match toks with [] => Some v | _ => None end
  | in_array es :: stack' =>
      match toks with
      | value_separator :: rest => parse_value rest (in_array (v :: es) :: stack')
      | end_array :: rest => parse_after (array (List.rev (v :: es))) rest stack'
      | _ => None
      end
  | in_object ms k :: stack' =>
      match toks with
      | value_separator :: value_string k' :: name_separator :: rest =>
          parse_value rest (in_object ((k, v) :: ms) k' :: stack')
      | end_object :: rest =>
          parse_after (object (List.rev ((k, v) :: ms))) rest stack'
      | _ => None
      end
  end.

(** [json::parse(text)]; [None] when it throws a [json::exception]. *)
Definition parse (text : string) : option value :=
  match lex text with
  | Some toks => parse_value toks []
  | None => None
  end.

(** *** Accessors *)

(** The member stored under [key]: of several members with one key the
    parser keeps the last. *)
Definition find_member (key : string) (ms : list (string * value))
  : option value :=
  match List.find (fun kv => String.eqb (fst kv) key) (List.rev ms) with
  | Some kv => Some (snd kv)
  | None => None
  end.

(** [j.contains(key)]: false for anything that is not an object. *)
Definition contains (j : value) (key : string) : bool :=
  match j with
  | object ms => match find_member key ms with Some _ => true | None => false end
  | _ => false
  end.

(** [j[key]] for an object [j] that contains [key]. *)
Definition at_key (j : value) (key : string) : value :=
  match j with
  | object ms => match find_member key ms with Some v => v | None => null end
  | _ => null
  end.

(** The value of an integer number as [number_integer_t]: an unsigned one is
    converted by [static_cast<int64_t>], which wraps. *)
Definition integer_value (v : value) : option Z :=
  match v with
  | number_integer n => Some n
  | number_unsigned n => Some (if n <? 2 ^ 63 then n else n - 2 ^ 64)
  | _ => None
  end.

(** [v.is_number_integer()]: true for signed and unsigned integers. *)
Definition is_number_integer (v : value) : bool :=
  match integer_value v with Some _ => true | None => false end.

(** [v != json(n)] and [v < json(n)] for an [int] [n], on a value for which
    [is_number_integer] holds (the only use the client makes of them). *)
Definition int_ne (v : value) (n : Z) : bool :=
  match integer_value v with Some a => negb (a =? n) | None => true end.

Definition int_lt (v : value) (n : Z) : bool :=
  match integer_value v with Some a => a <? n | None => false end.

(** [std::string s = v;]: [None] is type_error.302 for a non-string. *)
Definition get_string (v : value) : option string :=
  match v with jstring s => Some s | _ => None end.

End Json.

(** Writing JSON text in this file: [jq] turns each apostrophe of a literal
    into a double quote. *)
Fixpoint jq (s : string) : string :=
  match s with
  | EmptyString => EmptyString
  | String c r => String (if byte_val c =? 0x27 then chr 0x22 else c) (jq r)
  end.

(** ** A reference gzip decoder (RFC 1952 members, RFC 1951 blocks)

    [boost::iostreams::gzip_decompressor] is not part of the repository; the
    client below takes it as a parameter.  This decoder instantiates that
    parameter where a statement needs actual frame bytes.  It decodes stored,
    fixed-Huffman and dynamic-Huffman blocks and checks the CRC-32 and length
    trailer; it is meant for well-formed members (it does not reproduce every
    rejection zlib makes on malformed ones).  The fuel of [codes], [blocks]
    and [members] is the number of input bits or bytes, each step consuming at
    least one. *)

Module Gzip.

Local Open Scope nat_scope.
Local Set Warnings "-abstract-large-number".

Notation "'let?' p := m 'in' k" :=
  (match m with Some p => k | None => None end)
  (at level 10, p pattern, m at level 200, k at level 200, only parsing).

Definition bits_of_byte (c : ascii) : list bool :=
  List.map (fun i => Z.testbit (byte_val c) i) [0; 1; 2; 3; 4; 5; 6; 7]%Z.

Fixpoint bits_of (s : string) : list bool :=
  match s with
  | EmptyString => []
  | String c r => (bits_of_byte c ++ bits_of r)%list
  end.

(** [n] bits, least significant first. *)
Fixpoint read_bits (n : nat) (bits : list bool) : option (N * list bool) :=
  match n with
  | O => Some (0%N, bits)
  | S n' =>
      match bits with
      | [] => None
      | b :: r =>
          let? (v, r') := read_bits n' r in
          Some (((if b then 1 else 0) + 2 * v)%N, r')
      end
  end.

(** A canonical Huffman code: how many symbols have each code length
    1, 2, ..., 15, and the symbols ordered by length, then by value. *)
Record huffman : Type := mk_huffman {
  counts : list nat;
  symbols : list nat
}.

Definition symbols_of_length (lens : list nat) (l : nat) : list nat :=
  List.filter (fun i => Nat.eqb (List.nth i lens 0) l) (List.seq 0 (List.length lens)).

Definition build (lens : list nat) : huffman :=
  let per_length := List.map (symbols_of_length lens) (List.seq 1 15) in
  mk_huffman (List.map (@List.length nat) per_length) (List.concat per_length).

(** One symbol: the code is read a bit at a time, most significant first. *)
Fixpoint decode_from (cs : list nat) (syms : list nat) (code first : nat)
  (bits : list bool) : option (nat * list bool) :=
  match cs with
  | [] => None
  | count :: cs' =>
      match bits with
      | [] => None
      | b :: bits' =>
          let code := code + (if b then 1 else 0) in
          if code <? first + count then
            let? sym := List.nth_error syms (code - first) in
            Some (sym, bits')
          else
            decode_from cs' (List.skipn count syms) (2 * code)
                        (2 * (first + count)) bits'
      end
  end.

Definition decode (h : huffman) (bits : list bool) : option (nat * list bool) :=
  decode_from (counts h) (symbols h) 0 0 bits.

Definition length_base : list N :=
  [3; 4; 5; 6; 7; 8; 9; 10; 11; 13; 15; 17; 19; 23; 27; 31; 35; 43; 51; 59;
   67; 83; 99; 115; 131; 163; 195; 227; 258]%N.
Definition length_extra : list nat :=
  [0; 0; 0; 0; 0; 0; 0; 0; 1; 1; 1; 1; 2; 2; 2; 2; 3; 3; 3; 3; 4; 4; 4; 4;
   5; 5; 5; 5; 0].
Definition dist_base : list N :=
  [1; 2; 3; 4; 5; 7; 9; 13; 17; 25; 33; 49; 65; 97; 129; 193; 257; 385; 513;
   769; 1025; 1537; 2049; 3073; 4097; 6145; 8193; 12289; 16385; 24577]%N.
Definition dist_extra : list nat :=
  [0; 0; 0; 0; 1; 1; 2; 2; 3; 3; 4; 4; 5; 5; 6; 6; 7; 7; 8; 8; 9; 9; 10; 10;
   11; 11; 12; 12; 13; 13].

(** Copy [n] bytes from [dist] bytes back; the output is kept reversed. *)
Fixpoint copy (n dist : nat) (out_rev : list ascii) : option (list ascii) :=
  match n with
  | O => Some out_rev
  | S n' =>
      let? c := List.nth_error out_rev (dist - 1) in
      copy n' dist (c :: out_rev)
  end.

(** The symbols of one compressed block, up to its end-of-block symbol. *)
Fixpoint codes (fuel : nat) (lit dist : huffman) (bits : list bool)
  (out_rev : list ascii) : option (list bool * list ascii) :=
  match fuel with
  | O => None
  | S fuel' =>
      let? (sym, bits) := decode lit bits in
      if sym <? 256 then codes fuel' lit dist bits (ascii_of_nat sym :: out_rev)
      else if sym =? 256 then Some (bits, out_rev)
      else
        let? lb := List.nth_error length_base (sym - 257) in
        let? le := List.nth_error length_extra (sym - 257) in
        let? (lv, bits) := read_bits le bits in
        let? (dsym, bits) := decode dist bits in
        let? db := List.nth_error dist_base dsym in
        let? de := List.nth_error dist_extra dsym in
        let? (dv, bits) := read_bits de bits in
        let? out_rev := copy (N.to_nat (lb + lv)) (N.to_nat (db + dv)) out_rev in
        codes fuel' lit dist bits out_rev
  end.

Definition fixed_lit : huffman :=
  build (List.repeat 8 144 ++ List.repeat 9 112 ++ List.repeat 7 24
         ++ List.repeat 8 8)%list.
Definition fixed_dist : huffman := build (List.repeat 5 30).

(** The order in which a dynamic block lists the code-length code. *)
Definition cl_order : list nat :=
  [16; 17; 18; 0; 8; 7; 9; 6; 10; 5; 11; 4; 12; 3; 13; 2; 14; 1; 15].

Fixpoint read_many (k width : nat) (bits : list bool)
  : option (list nat * list bool) :=
  match k with
  | O => Some ([], bits)
  | S k' =>
      let? (v, bits) := read_bits width bits in
      let? (vs, bits) := read_many k' width bits in
      Some (N.to_nat v :: vs, bits)
  end.

Fixpoint index_of (x : nat) (l : list nat) : option nat :=
  match l with
  | [] => None
  | y :: r => if Nat.eqb x y then Some 0
              else match index_of x r with Some i => Some (S i) | None => None end
  end.

Definition cl_lengths (given : list nat) : list nat :=
  List.map (fun sym => match index_of sym cl_order with
                       | Some p => List.nth p given 0
                       | None => 0
                       end) (List.seq 0 19).

(** The literal/length and distance code lengths of a dynamic block. *)
Fixpoint read_lengths (fuel : nat) (cl : huffman) (need : nat)
  (acc_rev : list nat) (bits : list bool) : option (list nat * list bool) :=
  if need <=? List.length acc_rev then
    if need =? List.length acc_rev then Some (List.rev acc_rev, bits) else None
  else
    match fuel with
    | O => None
    | S fuel' =>
        let? (sym, bits) := decode cl bits in
        if sym <? 16 then read_lengths fuel' cl need (sym :: acc_rev) bits
        else if sym =? 16 then
          match acc_rev with
          | [] => None
          | prev :: _ =>
              let? (r, bits) := read_bits 2 bits in
              read_lengths fuel' cl need
                           (List.repeat prev (3 + N.to_nat r) ++ acc_rev)%list bits
          end
        else if sym =? 17 then
          let? (r, bits) := read_bits 3 bits in
          read_lengths fuel' cl need
                       (List.repeat 0 (3 + N.to_nat r) ++ acc_rev)%list bits
        else
          let? (r, bits) := read_bits 7 bits in
          read_lengths fuel' cl need
                       (List.repeat 0 (11 + N.to_nat r) ++ acc_rev)%list bits
    end.

Definition dynamic_tables (bits : list bool)
  : option (huffman * huffman * list bool) :=
  let? (hlit, bits) := read_bits 5 bits in
  let? (hdist, bits) := read_bits 5 bits in
  let? (hclen, bits) := read_bits 4 bits in
  let? (given, bits) := read_many (N.to_nat hclen + 4) 3 bits in
  let nlen := N.to_nat hlit + 257 in
  let ndist := N.to_nat hdist + 1 in
  let? (lens, bits) :=
    read_lengths (nlen + ndist) (build (cl_lengths given)) (nlen + ndist) [] bits in
  Some (build (List.firstn nlen lens), build (List.skipn nlen lens), bits).

Fixpoint read_bytes (n : nat) (bits : list bool) (out_rev : list ascii)
  : option (list bool * list ascii) :=
  match n with
  | O => Some (bits, out_rev)
  | S n' =>
      let? (v, bits) := read_bits 8 bits in
      read_bytes n' bits (ascii_of_N v :: out_rev)
  end.

(** A stored block starts at the next byte boundary. *)
Definition stored (bits : list bool) (out_rev : list ascii)
  : option (list bool * list ascii) :=
  let bits := List.skipn (List.length bits mod 8) bits in
  let? (len, bits) := read_bits 16 bits in
  let? (nlen, bits) := read_bits 16 bits in
  if (len + nlen =? 65535)%N then read_bytes (N.to_nat len) bits out_rev
  else None.

Fixpoint blocks (fuel : nat) (bits : list bool) (out_rev : list ascii)
  : option (list bool * list ascii) :=
  match fuel with
  | O => None
  | S fuel' =>
      let? (bfinal, bits) := read_bits 1 bits in
      let? (btype, bits) := read_bits 2 bits in
      let? (bits, out_rev) :=
        match btype with
        | 0%N => stored bits out_rev
        | 1%N => codes (List.length bits) fixed_lit fixed_dist bits out_rev
        | 2%N =>
            let? (lit, dist, bits) := dynamic_tables bits in
            codes (List.length bits) lit dist bits out_rev
        | _ => None
        end in
      if (bfinal =? 1)%N then Some (bits, out_rev) else blocks fuel' bits out_rev
  end.

(** Raw deflate data at the head of [s]: the output and what follows the
    last byte the final block touches. *)
Fixpoint drop (n : nat) (s : string) : string :=
  match n, s with
  | S n', String _ r => drop n' r
  | _, _ => s
  end.

Definition inflate (s : string) : option (string * string) :=
  let bits := bits_of s in
  let? (rest, out_rev) := blocks (List.length bits) bits [] in
  let used := (List.length bits - List.length rest + 7) / 8 in
  Some (string_of_list_ascii (List.rev out_rev), drop used s).

(** CRC-32 (reflected polynomial 0xEDB88320), a bit at a time. *)
Definition crc_shift (c : Z) : Z :=
  (if Z.testbit c 0 then Z.lxor (Z.shiftr c 1) 0xEDB88320 else Z.shiftr c 1)%Z.

Definition crc_byte (c : Z) (b : ascii) : Z :=
  Nat.iter 8 crc_shift (Z.lxor c (byte_val b)).

Fixpoint crc_update (c : Z) (s : string) : Z :=
  match s with
  | EmptyString => c
  | String b r => crc_update (crc_byte c b) r
  end.

Definition crc32 (s : string) : Z :=
  Z.lxor (crc_update 0xFFFFFFFF s) 0xFFFFFFFF.

(** Four bytes, least significant first. *)
Definition le32 (s : string) : option (Z * string) :=
  match s with
  | String a (String b (String c (String d r))) =>
      Some ((byte_val a + 2 ^ 8 * byte_val b + 2 ^ 16 * byte_val c
             + 2 ^ 24 * byte_val d)%Z, r)
  | _ => None
  end.

(** Skip a zero-terminated field (file name, comment). *)
Fixpoint skip_zstring (s : string) : option string :=
  match s with
  | EmptyString => None
  | String c r => if (byte_val c =? 0)%Z then Some r else skip_zstring r
  end.

Definition skip_if (flag : bool) (f : string -> option string) (s : string)
  : option string :=
  if flag then f s else Some s.

Definition skip_extra (s : string) : option string :=
  match s with
  | String lo (String hi r) =>
      let xlen := Z.to_nat (byte_val lo + 256 * byte_val hi) in
      if xlen <=? String.length r then Some (drop xlen r) else None
  | _ => None
  end.

Definition skip_two (s : string) : option string :=
  match s with String _ (String _ r) => Some r | _ => None end.

(** One member: ten-byte header, the optional fields FLG announces, the
    deflate data, then CRC-32 and length of the uncompressed data. *)
Definition member (s : string) : option (string * string) :=
  match s with
  | String id1 (String id2 (String cm (String flg (String _ (String _
      (String _ (String _ (String _ (String _ r))))))))) =>
      let f := byte_val flg in
      if ((byte_val id1 =? 0x1F) && (byte_val id2 =? 0x8B)
          && (byte_val cm =? 8))%Z then
        let? r := skip_if (Z.testbit f 2) skip_extra r in
        let? r := skip_if (Z.testbit f 3) skip_zstring r in
        let? r := skip_if (Z.testbit f 4) skip_zstring r in
        let? r := skip_if (Z.testbit f 1) skip_two r in
        let? (out, r) := inflate r in
        let? (crc, r) := le32 r in
        let? (isize, r) := le32 r in
        if ((crc =? crc32 out) && (isize =? size out mod 2 ^ 32))%Z
        then Some (out, r) else None
      else None
  | _ => None
  end.

Fixpoint members (fuel : nat) (s : string) : option string :=
  match fuel with
  | O => None
  | S fuel' =>
      let? (out, r) := member s in
      match r with
      | EmptyString => Some out
      | _ => let? more := members fuel' r in Some (out ++ more)%string
      end
  end.

Definition gunzip (s : string) : option string := members (String.length s) s.

End Gzip.

(** Writing binary data in this file: two hexadecimal digits per byte. *)
Definition hex_val (c : ascii) : Z :=
  match Json.hex_digit (byte_val c) with Some d => d | None => 0 end.

Fixpoint unhex (s : string) : string :=
  match s with
  | String a (String b r) => String (chr (16 * hex_val a + hex_val b)) (unhex r)
  | _ => EmptyString
  end.

(** ** C strings *)

(** [s.c_str()] read as a C string: the characters before the first NUL. *)
Fixpoint c_str (s : string) : string :=
  match s with
  | EmptyString => EmptyString
  | String c r => if byte_val c =? 0 then EmptyString else String c (c_str r)
  end.

(** [strlen] *)
Definition strlen (s : string) : Z := size (c_str s).

(** [tolower] in the C locale. *)
Definition tolower (c : ascii) : ascii :=
  let v := byte_val c in
  if (0x41 <=? v) && (v <=? 0x5A) then chr (v + 0x20) else c.

Fixpoint map_string (f : ascii -> ascii) (s : string) : string :=
  match s with
  | EmptyString => EmptyString
  | String c r => String (f c) (map_string f r)
  end.

(** [strcasecmp(a, b) == 0] *)
Definition strcasecmp_eq (a b : string) : bool :=
  String.eqb (map_string tolower (c_str a)) (map_string tolower (c_str b)).

(** [std::replace(s.begin(), s.end(), from, to)] *)
Definition replace (from to : ascii) (s : string) : string :=
  map_string (fun c => if Ascii.eqb c from then to else c) s.

(** The two [std::replace] calls that end [set_auth_header]. *)
Definition url_safe (s : string) : string :=
  replace "/" "_" (replace "+" "-" s).

(** ** Certificate verification ([verify_certificate] and its helpers) *)

Module Tls.

(** An [ASN1_STRING] is its [ASN1_STRING_length] bytes of data; OpenSSL keeps
    a NUL after them, so reading the data as a C string stops at the first
    embedded NUL or at the end. *)
Definition ASN1_STRING : Type := string.

Inductive GENERAL_NAME : Type :=
| GEN_DNS (dNSName : ASN1_STRING)
| GEN_other.                       (* any [type] other than GEN_DNS *)

Definition NID_commonName : Z := 13.

Record X509_NAME_ENTRY : Type := mk_entry {
  entry_nid : Z;
  entry_data : option ASN1_STRING  (* X509_NAME_ENTRY_get_data, NULL = None *)
}.

Record X509 : Type := mk_X509 {
  (* X509_get_ext_d2i(cert, NID_subject_alt_name, ...): NULL = None *)
  subject_alt_name : option (list GENERAL_NAME);
  (* X509_get_subject_name(cert) *)
  subject_name : list X509_NAME_ENTRY
}.

(** [boost::asio::ssl::verify_context]: what the callback reads from it. *)
Record verify_context : Type := mk_ctx {
  error_depth : Z;                 (* X509_STORE_CTX_get_error_depth *)
  current_cert : X509              (* X509_STORE_CTX_get_current_cert *)
}.

(** The loop of [verify_subject_alternative_name]: a name that is not a DNS
    name is skipped, an embedded NUL ends the loop, and every DNS name
    compared overwrites [result]. *)
Fixpoint san_loop (hostname : string) (names : list GENERAL_NAME)
  (result : bool) : bool :=
  match names with
  | [] => result
  | GEN_other :: rest => san_loop hostname rest result
  | GEN_DNS dns_name :: rest =>
      if negb (size dns_name =? strlen dns_name) then result
      else san_loop hostname rest (strcasecmp_eq hostname dns_name)
  end.

Definition verify_subject_alternative_name (hostname : string) (cert : X509)
  : bool :=
  match subject_alt_name cert with
  | None => false
  | Some san_names => san_loop hostname san_names false
  end.

(** [X509_NAME_get_index_by_NID(name, nid, -1)]: the first entry with that
    NID, or -1. *)
Fixpoint X509_NAME_get_index_by_NID (name : list X509_NAME_ENTRY) (nid : Z) : Z :=
  match name with
  | [] => -1
  | e :: rest =>
      if entry_nid e =? nid then 0
      else let i := X509_NAME_get_index_by_NID rest nid in
           if i <? 0 then -1 else i + 1
  end.

Definition X509_NAME_get_entry (name : list X509_NAME_ENTRY) (loc : Z)
  : option X509_NAME_ENTRY :=
  if loc <? 0 then None else List.nth_error name (Z.to_nat loc).

Definition verify_common_name (hostname : string) (cert : X509) : bool :=
  let common_name_loc :=
    X509_NAME_get_index_by_NID (subject_name cert) NID_commonName in
  if common_name_loc <? 0 then false
  else
    match X509_NAME_get_entry (subject_name cert) common_name_loc with
    | None => false
    | Some common_name_entry =>
        match entry_data common_name_entry with
        | None => false
        | Some common_name_asn1 =>
            if negb (size common_name_asn1 =? strlen common_name_asn1) then false
            else strcasecmp_eq hostname common_name_asn1
        end
    end.

Definition verify_certificate (hostname : string) (preverified : bool)
  (ctx : verify_context) : bool :=
  let depth := error_depth ctx in
  if (depth =? 0) && preverified then
    let cert := current_cert ctx in
    if verify_subject_alternative_name hostname cert then true
    else if verify_common_name hostname cert then true
    else true
  else true.

End Tls.

(** ** Callbacks and what the client asks of the WebSocket library *)

(** The text handed to the error callback.  The adapter's message for a JSON
    failure ends in the library's [e.what()], which is not modelled. *)
Inductive error_message : Type :=
| message (text : string)
| json_parse_error.               (* "JSON parse error: " + e.what() *)

(** What a call does that is visible outside the client, in order. *)
Inductive action : Type :=
| call_onResult (result : string) (isFinal : bool)
| call_onError (error : error_message)
| ws_connect (authorization : string)   (* _ws_client.connect(_con) *)
| ws_send (payload : string)            (* a binary message handed to send *)
| ws_close.                             (* close(..., status::normal, "") *)

(** [AsrClientAdapter]: each [std::function] member either holds a callable
    or is empty. *)
Record AsrClientAdapter : Type := mk_adapter {
  onResult_ : bool;
  onError_ : bool
}.

Module Adapter.

(** [AsrClientAdapter::on_message] *)
Definition on_message (a : AsrClientAdapter) (msg : string) : list action :=
  if onResult_ a then
    match Json.parse msg with
    | Some json =>
        if Json.contains json "result" then
          match Json.get_string (Json.at_key json "result") with
          | Some result => [call_onResult result true]
          | None => if onError_ a then [call_onError json_parse_error] else []
          end
        else []
    | None => if onError_ a then [call_onError json_parse_error] else []
    end
  else [].

(** [AsrClientAdapter::on_error] *)
Definition on_error (a : AsrClientAdapter) (msg : string) : list action :=
  if onError_ a then [call_onError (message msg)] else [].

(** [AsrClientAdapter::on_open], [AsrClientAdapter::on_close]: empty bodies. *)
Definition on_open (a : AsrClientAdapter) : list action := [].
Definition on_close (a : AsrClientAdapter) : list action := [].

End Adapter.

(** ** The client ([AsrClient]) *)

(** [websocketpp]'s connection object: what the client reads and writes. *)
Record connection : Type := mk_connection {
  resource : string;                        (* con->get_resource() *)
  request_headers : list (string * string)  (* filled by append_header *)
}.

Record AsrClient : Type := mk_client {
  _full_req_param : string;
  _reqid : string;
  _seq : Z;
  _appid : string;
  _token : string;
  _sk : string;
  _auth_type : AuthType;
  _cluster : string;
  _format : string;
  _sample_rate : Z;
  _bits : Z;
  _channels : Z;
  _recv_last_msg : bool;
  _connected_notify : bool;
  _connected : bool;
  _use_sync_connect : bool;
  _con : option connection;                 (* None: an empty shared_ptr *)
  _asr_callback : option AsrClientAdapter   (* None: nullptr *)
}.

(** Members with a default initialiser that nothing assigns. *)
Definition _url : string := "wss://openspeech.bytedance.com/api/v2/asr".
Definition _uid : string := "fcitx5-asr".
Definition _workflow : string := "audio_in,resample,partition,vad,fe,decode".
Definition _nbest : Z := 1.
Definition _show_language : bool := false.
Definition _show_utterances : bool := false.
Definition _result_type : string := "full".
Definition _language : string := "zh-CN".
Definition _codec : string := "raw".

(** [AsrClient::AsrClient()]: the default member initialisers and a fresh
    request id. *)
Definition new_client (reqid : string) : AsrClient :=
  mk_client "" reqid 1 "" "" "" TOKEN "" "wav" 16000 16 1
            false false false false None None.

Definition set_appid (c : AsrClient) (appid : string) : AsrClient :=
  mk_client (_full_req_param c) (_reqid c) (_seq c) appid (_token c) (_sk c)
            (_auth_type c) (_cluster c) (_format c) (_sample_rate c) (_bits c)
            (_channels c) (_recv_last_msg c) (_connected_notify c)
            (_connected c) (_use_sync_connect c) (_con c) (_asr_callback c).

Definition set_token (c : AsrClient) (token : string) : AsrClient :=
  mk_client (_full_req_param c) (_reqid c) (_seq c) (_appid c) token (_sk c)
            (_auth_type c) (_cluster c) (_format c) (_sample_rate c) (_bits c)
            (_channels c) (_recv_last_msg c) (_connected_notify c)
            (_connected c) (_use_sync_connect c) (_con c) (_asr_callback c).

Definition set_secret_key (c : AsrClient) (sk : string) : AsrClient :=
  mk_client (_full_req_param c) (_reqid c) (_seq c) (_appid c) (_token c) sk
            (_auth_type c) (_cluster c) (_format c) (_sample_rate c) (_bits c)
            (_channels c) (_recv_last_msg c) (_connected_notify c)
            (_connected c) (_use_sync_connect c) (_con c) (_asr_callback c).

Definition set_auth_type (c : AsrClient) (auth_type : AuthType) : AsrClient :=
  mk_client (_full_req_param c) (_reqid c) (_seq c) (_appid c) (_token c)
            (_sk c) auth_type (_cluster c) (_format c) (_sample_rate c)
            (_bits c) (_channels c) (_recv_last_msg c) (_connected_notify c)
            (_connected c) (_use_sync_connect c) (_con c) (_asr_callback c).

Definition set_audio_format (c : AsrClient) (format : string)
  (channels sample_rate bits : Z) : AsrClient :=
  mk_client (_full_req_param c) (_reqid c) (_seq c) (_appid c) (_token c)
            (_sk c) (_auth_type c) (_cluster c) format sample_rate bits
            channels (_recv_last_msg c) (_connected_notify c)
            (_connected c) (_use_sync_connect c) (_con c) (_asr_callback c).

Definition set_cluster (c : AsrClient) (cluster : string) : AsrClient :=
  mk_client (_full_req_param c) (_reqid c) (_seq c) (_appid c) (_token c)
            (_sk c) (_auth_type c) cluster (_format c) (_sample_rate c)
            (_bits c) (_channels c) (_recv_last_msg c) (_connected_notify c)
            (_connected c) (_use_sync_connect c) (_con c) (_asr_callback c).

Definition set_callback (c : AsrClient) (asr_callback : option AsrClientAdapter)
  : AsrClient :=
  mk_client (_full_req_param c) (_reqid c) (_seq c) (_appid c) (_token c)
            (_sk c) (_auth_type c) (_cluster c) (_format c) (_sample_rate c)
            (_bits c) (_channels c) (_recv_last_msg c) (_connected_notify c)
            (_connected c) (_use_sync_connect c) (_con c) asr_callback.

(** Assignments to members that have no setter of their own in the source. *)
Definition with_full_req_param (c : AsrClient) (p : string) : AsrClient :=
  mk_client p (_reqid c) (_seq c) (_appid c) (_token c) (_sk c)
            (_auth_type c) (_cluster c) (_format c) (_sample_rate c) (_bits c)
            (_channels c) (_recv_last_msg c) (_connected_notify c)
            (_connected c) (_use_sync_connect c) (_con c) (_asr_callback c).

Definition with_recv_last_msg (c : AsrClient) (b : bool) : AsrClient :=
  mk_client (_full_req_param c) (_reqid c) (_seq c) (_appid c) (_token c)
            (_sk c) (_auth_type c) (_cluster c) (_format c) (_sample_rate c)
            (_bits c) (_channels c) b (_connected_notify c)
            (_connected c) (_use_sync_connect c) (_con c) (_asr_callback c).

Definition with_connected (c : AsrClient) (notify connected : bool) : AsrClient :=
  mk_client (_full_req_param c) (_reqid c) (_seq c) (_appid c) (_token c)
            (_sk c) (_auth_type c) (_cluster c) (_format c) (_sample_rate c)
            (_bits c) (_channels c) (_recv_last_msg c) notify
            connected (_use_sync_connect c) (_con c) (_asr_callback c).

Definition with_use_sync_connect (c : AsrClient) (b : bool) : AsrClient :=
  mk_client (_full_req_param c) (_reqid c) (_seq c) (_appid c) (_token c)
            (_sk c) (_auth_type c) (_cluster c) (_format c) (_sample_rate c)
            (_bits c) (_channels c) (_recv_last_msg c) (_connected_notify c)
            (_connected c) b (_con c) (_asr_callback c).

Definition with_con (c : AsrClient) (con : option connection) : AsrClient :=
  mk_client (_full_req_param c) (_reqid c) (_seq c) (_appid c) (_token c)
            (_sk c) (_auth_type c) (_cluster c) (_format c) (_sample_rate c)
            (_bits c) (_channels c) (_recv_last_msg c) (_connected_notify c)
            (_connected c) (_use_sync_connect c) con (_asr_callback c).

(** [response[i]] and [response.data()[i]]: the storage of a string of size
    [n] holds [n + 1] characters, the last one NUL; anything further is out
    of bounds. *)
Definition char_at (s : string) (i : Z) : outcome Z :=
  if (0 <=? i) && (i <? size s) then
    match String.get (Z.to_nat i) s with
    | Some c => Ok (byte_val c)
    | None => Undefined out_of_bounds_read
    end
  else if i =? size s then Ok 0
  else Undefined out_of_bounds_read.

(** [big_to_native] of the [unsigned int] read at [s.data() + off]: the four
    bytes at [off], most significant first. *)
Definition u32_at (s : string) (off : Z) : outcome Z :=
  b0 <- char_at s off ;;
  b1 <- char_at s (off + 1) ;;
  b2 <- char_at s (off + 2) ;;
  b3 <- char_at s (off + 3) ;;
  Ok (Z.shiftl b0 24 + Z.shiftl b1 16 + Z.shiftl b2 8 + b3).

(** [s.substr(pos, len)]: throws when [pos > s.size()], otherwise stops at
    the end of the string. *)
Definition substr (s : string) (pos len : Z) : outcome string :=
  if pos >? size s then Throws out_of_range
  else Ok (String.substring (Z.to_nat pos)
                            (Z.to_nat (Z.min len (size s - pos))) s).

(** Events the WebSocket library reports on its I/O thread. *)
Inductive ws_event : Type :=
| ev_open                    (* the open handler runs *)
| ev_message (payload : string)
| ev_fail                    (* the fail handler runs *)
| ev_close.

Module Asr.

Section WithLibraries.

(** [gzip_compress] and [gzip_decompress] of [asr_client.cpp] push boost's
    gzip filters on a stream and copy it; [None] is a [gzip_error] thrown by
    the decompressor. *)
Variable gzip_compress : string -> string.
Variable gzip_decompress : string -> option string.
(** [req_obj.dump()]; [None] is type_error.316 (invalid UTF-8 in a string). *)
Variable dump : Json.value -> option string.
(** [HMAC(EVP_sha256(), key, data)] and boost beast's base64 [encode]. *)
Variable HMAC_SHA256 : string -> string -> string.
Variable base64_encode : string -> string.
(** [_ws_client.get_user_agent()] and [_ws_client.get_connection(url, ec)];
    [None] is a null connection with [ec] set. *)
Variable user_agent : string.
Variable get_connection : string -> option connection.

(** The four header bytes both request frames start with. *)
Definition request_header (t : MessageType) (f : MessageTypeFlag) : string :=
  str1 (Z.lor (Z.shiftl _protocol_version 4) (Z.shiftr _header_size 2))
  ++ str1 (Z.lor (Z.shiftl (MessageType_val t) 4) (MessageTypeFlag_val f))
  ++ str1 (Z.lor (Z.shiftl (MessageSerial_val _message_serial) 4)
                 (MessageCompress_val _message_compress))
  ++ str1 _reserved.

(** The [payload] that [send_audio] builds and hands to [_con->send]. *)
Definition audio_payload (audio : string) (is_last : bool) : string :=
  let gzip_data := gzip_compress audio in
  request_header AUDIO_ONLY_CLIENT_REQUEST
                 (if negb is_last then NO_SEQUENCE_NUMBER
                  else NEGATIVE_SEQUENCE_SERVER_ASSGIN)
  ++ be32 (size gzip_data) ++ gzip_data.

(** [AsrClient::send_audio]; [ec] is the error code [_con->send] reports. *)
Definition send_audio (c : AsrClient) (audio : string) (is_last : bool)
  (ec : Z) : outcome (Z * list action) :=
  match _con c with
  | None => Undefined null_dereference
  | Some _ => Ok (ec, [ws_send (audio_payload audio is_last)])
  end.

(** [AsrClient::close]; [ec] is the error code [_con->close] reports. *)
Definition close (c : AsrClient) (ec : Z) : outcome (Z * list action) :=
  match _con c with
  | None => Undefined null_dereference
  | Some _ => Ok (ec, [ws_close])
  end.

(** The request object of [construct_param]. *)
Definition req_obj (c : AsrClient) : Json.value :=
  Json.object
    [("app", Json.object [("appid", Json.jstring (_appid c));
                          ("cluster", Json.jstring (_cluster c));
                          ("token", Json.jstring (_token c))]);
     ("user", Json.object [("uid", Json.jstring _uid)]);
     ("request", Json.object [("reqid", Json.jstring (_reqid c));
                              ("nbest", Json.number_integer _nbest);
                              ("workflow", Json.jstring _workflow);
                              ("show_language", Json.boolean _show_language);
                              ("show_utterances", Json.boolean _show_utterances);
                              ("result_type", Json.jstring _result_type);
                              ("sequence", Json.number_integer (_seq c))]);
     ("audio", Json.object [("format", Json.jstring (_format c));
                            ("rate", Json.number_integer (_sample_rate c));
                            ("language", Json.jstring _language);
                            ("bits", Json.number_integer (_bits c));
                            ("channel", Json.number_integer (_channels c));
                            ("codec", Json.jstring _codec)])].

(** [AsrClient::construct_param]: appends to [_full_req_param]. *)
Definition construct_param (c : AsrClient) : outcome AsrClient :=
  match dump (req_obj c) with
  | None => Throws json_type_error
  | Some text =>
      let payload := gzip_compress text in
      Ok (with_full_req_param c
            (_full_req_param c
             ++ request_header FULL_CLIENT_REQUEST NO_SEQUENCE_NUMBER
             ++ be32 (size payload) ++ payload))
  end.

(** The string [set_auth_header] signs. *)
Definition canonical_string (c : AsrClient) (con : connection) : string :=
  "GET " ++ resource con ++ " HTTP/1.1" ++ str1 10
  ++ user_agent ++ str1 10 ++ _full_req_param c.

(** The value [set_auth_header] gives the Authorization header.  The stream
    insertion of [base64_buff], a [char] array, stops at its first NUL. *)
Definition authorization (c : AsrClient) (con : connection) : string :=
  match _auth_type c with
  | TOKEN => "Bearer; " ++ _token c
  | SIGNATURE =>
      let data := canonical_string c con in
      let base64_buff := base64_encode (HMAC_SHA256 (_sk c) data) in
      let auth := jq "HMAC256; access_token='" ++ _token c
                  ++ jq "'; mac='" ++ c_str base64_buff
                  ++ jq "'; h='User-Agent'" in
      url_safe auth
  end.

(** [AsrClient::set_auth_header] *)
Definition set_auth_header (c : AsrClient) (con : connection) : connection :=
  mk_connection (resource con)
                (request_headers con ++ [("Authorization", authorization c con)])%list.

(** [AsrClient::connect]; [init_asio_ok] says whether [init_asio] succeeded.
    Returns the client, the return value and what was asked of the
    library. *)
Definition connect (c : AsrClient) (init_asio_ok : bool)
  : outcome (AsrClient * Z * list action) :=
  if negb init_asio_ok then Ok (c, -1, [])
  else
    match get_connection _url with
    | None => Ok (with_con c None, -1, [])
    | Some con =>
        c1 <- construct_param (with_con c (Some con)) ;;
        let con1 := set_auth_header c1 con in
        Ok (with_con c1 (Some con1), 0, [ws_connect (authorization c1 con)])
    end.

(** Where [parse_response] finds the payload, by message type; [None] is the
    unsupported-type branch. *)
Definition payload_layout (response : string) (header_len message_type : Z)
  : outcome (option (Z * Z)) :=
  if message_type =? MessageType_val FULL_SERVER_RESPONSE then
    payload_len <- u32_at response header_len ;;
    Ok (Some (header_len + 4, payload_len))
  else if message_type =? MessageType_val SERVER_ACK then
    seq <- u32_at response header_len ;;
    if size response >? 8 then
      payload_len <- u32_at response (header_len + 4) ;;
      Ok (Some (header_len + 8, payload_len))
    else Ok (Some (0, 0))
  else if message_type =? MessageType_val ERROR_MESSAGE_FROM_SERVER then
    error_code <- u32_at response header_len ;;
    payload_len <- u32_at response (header_len + 4) ;;
    Ok (Some (header_len + 8, payload_len))
  else Ok None.

(** The two conditions [parse_response] tests on the parsed payload. *)
Definition application_error (payload_obj : Json.value) : bool :=
  Json.contains payload_obj "code"
  && Json.is_number_integer (Json.at_key payload_obj "code")
  && Json.int_ne (Json.at_key payload_obj "code") 1000.

Definition terminal (payload_obj : Json.value) : bool :=
  Json.contains payload_obj "sequence"
  && Json.is_number_integer (Json.at_key payload_obj "sequence")
  && Json.int_lt (Json.at_key payload_obj "sequence") 0.

(** The end of [parse_response], after [payload_msg = payload]: the return
    value and [_recv_last_msg]. *)
Definition interpret (c : AsrClient) (payload_obj : Json.value)
  : Z * AsrClient :=
  if application_error payload_obj then (-1, c)
  else if terminal payload_obj then (0, with_recv_last_msg c true)
  else (0, c).

(** [AsrClient::parse_response].  [payload_msg] is the caller's string, which
    the function assigns only on the paths that reach the assignment; the
    result is the return value, the string afterwards and the client. *)
Definition parse_response (c : AsrClient) (response : string)
  (payload_msg : string) : outcome (Z * string * AsrClient) :=
  b0 <- char_at response 0 ;;
  b1 <- char_at response 1 ;;
  b2 <- char_at response 2 ;;
  let header_len := Z.shiftl (Z.land b0 0x0f) 2 in
  let message_type := Z.shiftr (Z.land b1 0xf0) 4 in
  let message_serial := Z.shiftr (Z.land b2 0xf0) 4 in
  let message_compress := Z.land b2 0x0f in
  layout <- payload_layout response header_len message_type ;;
  match layout with
  | None => Ok (-1, payload_msg, c)
  | Some (payload_offset, payload_len) =>
      payload <-
        (if (message_compress =? MessageCompress_val GZIP) && (payload_len >? 0)
         then
           compressed <- substr response payload_offset payload_len ;;
           match gzip_decompress compressed with
           | Some p => Ok p
           | None => Throws gzip_error
           end
         else Ok "") ;;
      if (message_serial =? MessageSerial_val JSON) && negb (empty payload) then
        match Json.parse payload with
        | None => Ok (-1, payload_msg, c)
        | Some payload_obj =>
            let '(ret, c') := interpret c payload_obj in Ok (ret, payload, c')
        end
      else
        let '(ret, c') := interpret c Json.null in Ok (ret, payload, c')
  end.

(** [AsrClient::send_params] *)
Definition send_params (c : AsrClient) : list action :=
  [ws_send (_full_req_param c)].

(** [AsrClient::on_open] *)
Definition on_open (c : AsrClient) : AsrClient * list action :=
  let cb := match _asr_callback c with
            | Some a => Adapter.on_open a
            | None => []
            end in
  let c1 := if _use_sync_connect c then with_connected c true true else c in
  (c1, cb ++ send_params c1)%list.

(** [AsrClient::on_message] *)
Definition on_message (c : AsrClient) (msg : string)
  : outcome (AsrClient * list action) :=
  '(ret, payload_msg, c1) <- parse_response c msg "" ;;
  let cb := match _asr_callback c1 with
            | Some a => Adapter.on_message a payload_msg
            | None => []
            end in
  if negb (ret =? 0) then Ok (c1, cb ++ [ws_close])%list
  else Ok (c1, cb).

(** [AsrClient::on_error] *)
Definition on_error (c : AsrClient) : AsrClient * list action :=
  let cb := match _asr_callback c with
            | Some a => Adapter.on_error a "connection error"
            | None => []
            end in
  let c1 := if _use_sync_connect c then with_connected c true false else c in
  (c1, cb).

(** [AsrClient::on_close] *)
Definition on_close (c : AsrClient) : AsrClient * list action :=
  (c, match _asr_callback c with
      | Some a => Adapter.on_close a
      | None => []
      end).

(** The handler the library runs for an event. *)
Definition handle (c : AsrClient) (ev : ws_event)
  : outcome (AsrClient * list action) :=
  match ev with
  | ev_open => Ok (on_open c)
  | ev_message payload => on_message c payload
  | ev_fail => Ok (on_error c)
  | ev_close => Ok (on_close c)
  end.

(** The I/O thread handling a sequence of events, one after the other. *)
Fixpoint handle_all (c : AsrClient) (evs : list ws_event)
  : outcome (AsrClient * list action) :=
  match evs with
  | [] => Ok (c, [])
  | ev :: rest =>
      '(c1, a1) <- handle c ev ;;
      '(c2, a2) <- handle_all c1 rest ;;
      Ok (c2, a1 ++ a2)%list
  end.

(** [AsrClient::sync_connect].  The wait on the condition variable ends when
    a handler has set [_connected_notify] or the timeout expires, and the
    function then returns [_connected] whichever it was; [arrived] are the
    events the I/O thread handles before the caller resumes (none, when
    [connect] did not start it).  The time itself is not modelled. *)
Definition sync_connect (c : AsrClient) (timeout : Z) (init_asio_ok : bool)
  (arrived : list ws_event) : outcome (AsrClient * bool * list action) :=
  let c0 := with_use_sync_connect c true in
  '(c1, ret, a1) <- connect c0 init_asio_ok ;;
  '(c2, a2) <- handle_all c1 (if ret =? 0 then arrived else []) ;;
  Ok (c2, _connected c2, a1 ++ a2)%list.

(** [AsrClient::~AsrClient]: [close()], then the join of a thread that
    [connect] has detached (never joinable). *)
Definition destroy (c : AsrClient) (ec : Z) : outcome (list action) :=
  '(_, a) <- close c ec ;; Ok a.

(** ** The recognizer ([VolcengineRecognizer]) *)

Record VolcengineRecognizer : Type := mk_recognizer {
  isReady_ : bool;
  appId_ : string;
  accessToken_ : string;
  secretKey_ : string;
  cluster_ : string;
  apiEndpoint_ : string;
  authType_ : Z;
  asrClient_ : option AsrClient;              (* None: an empty unique_ptr *)
  callbackAdapter_ : option AsrClientAdapter
}.

(** [VolcengineRecognizer::VolcengineRecognizer()] *)
Definition new_recognizer : VolcengineRecognizer :=
  mk_recognizer false "" "" "" "" "wss://openspeech.bytedance.com/api/v2/asr"
                1 None None.

Definition setAppId (r : VolcengineRecognizer) (appId : string) :=
  mk_recognizer (isReady_ r) appId (accessToken_ r) (secretKey_ r) (cluster_ r)
                (apiEndpoint_ r) (authType_ r) (asrClient_ r) (callbackAdapter_ r).

Definition setAccessToken (r : VolcengineRecognizer) (token : string) :=
  mk_recognizer (isReady_ r) (appId_ r) token (secretKey_ r) (cluster_ r)
                (apiEndpoint_ r) (authType_ r) (asrClient_ r) (callbackAdapter_ r).

Definition setSecretKey (r : VolcengineRecognizer) (secretKey : string) :=
  mk_recognizer (isReady_ r) (appId_ r) (accessToken_ r) secretKey (cluster_ r)
                (apiEndpoint_ r) (authType_ r) (asrClient_ r) (callbackAdapter_ r).

Definition setCluster (r : VolcengineRecognizer) (cluster : string) :=
  mk_recognizer (isReady_ r) (appId_ r) (accessToken_ r) (secretKey_ r) cluster
                (apiEndpoint_ r) (authType_ r) (asrClient_ r) (callbackAdapter_ r).

Definition setAuthType (r : VolcengineRecognizer) (authType : Z) :=
  mk_recognizer (isReady_ r) (appId_ r) (accessToken_ r) (secretKey_ r)
                (cluster_ r) (apiEndpoint_ r) authType (asrClient_ r)
                (callbackAdapter_ r).

Definition with_client (r : VolcengineRecognizer) (c : option AsrClient)
  (ready : bool) :=
  mk_recognizer ready (appId_ r) (accessToken_ r) (secretKey_ r) (cluster_ r)
                (apiEndpoint_ r) (authType_ r) c (callbackAdapter_ r).

Definition with_adapter (r : VolcengineRecognizer) (c : AsrClient)
  (a : AsrClientAdapter) :=
  mk_recognizer (isReady_ r) (appId_ r) (accessToken_ r) (secretKey_ r)
                (cluster_ r) (apiEndpoint_ r) (authType_ r) (Some c) (Some a).

(** [VolcengineRecognizer::init], on a recognizer that owns no client yet;
    [reqid] is the identifier the new client draws. *)
Definition init (r : VolcengineRecognizer) (reqid : string)
  : bool * VolcengineRecognizer :=
  if empty (appId_ r) || empty (accessToken_ r) || empty (cluster_ r) then
    (false, r)
  else
    let c := set_cluster (set_token (set_appid (new_client reqid) (appId_ r))
                                    (accessToken_ r)) (cluster_ r) in
    if authType_ r =? 1 then
      let c := set_auth_type c TOKEN in
      (true, with_client r (Some (set_audio_format c "raw" 1 16000 16)) true)
    else if (authType_ r =? 2) && negb (empty (secretKey_ r)) then
      let c := set_secret_key (set_auth_type c SIGNATURE) (secretKey_ r) in
      (true, with_client r (Some (set_audio_format c "raw" 1 16000 16)) true)
    else (false, with_client r (Some c) (isReady_ r)).

(** What a [recognize] call meets outside the program. *)
Record environment : Type := mk_env {
  init_asio_ok : bool;
  arrived_during_connect : list ws_event;  (* handled before the wait ends *)
  send_ec : Z;                             (* what _con->send reports *)
  close_ec : Z;                            (* what _con->close reports *)
  arrived_later : list ws_event            (* handled after [recognize] *)
}.

Definition error_if (callback : bool) (text : string) : list action :=
  if callback then [call_onError (message text)] else [].

(** [VolcengineRecognizer::recognize]; [onResult] and [onError] say whether
    the caller passed a callable. *)
Definition recognize (r : VolcengineRecognizer) (audioData : string)
  (onResult onError : bool) (env : environment)
  : outcome (VolcengineRecognizer * list action) :=
  if negb (isReady_ r) then Ok (r, error_if onError "Recognizer not initialized")
  else if empty audioData then Ok (r, error_if onError "Empty audio data")
  else
    let adapter := mk_adapter onResult onError in
    match asrClient_ r with
    | None => Undefined null_dereference
    | Some c =>
        let c := set_callback c (Some adapter) in
        '(c, connected, a1) <-
          sync_connect c 10 (init_asio_ok env) (arrived_during_connect env) ;;
        if negb connected then
          Ok (with_adapter r c adapter,
              a1 ++ error_if onError "Failed to connect to Volcengine API")%list
        else
          '(ret, a2) <- send_audio c audioData true (send_ec env) ;;
          let a3 := if negb (ret =? 0)
                    then error_if onError "Failed to send audio data" else [] in
          '(_, a4) <- close c (close_ec env) ;;
          Ok (with_adapter r c adapter, a1 ++ a2 ++ a3 ++ a4)%list
    end.

(** Whether this call of [recognize] got as far as starting the I/O thread
    in [connect]; only then can events arrive for it. *)
Definition io_thread_started (r : VolcengineRecognizer) (audioData : string)
  (env : environment) : bool :=
  isReady_ r && negb (empty audioData) && init_asio_ok env
  && match get_connection _url with Some _ => true | None => false end.

(** A whole session: the call, then the events that still arrive on the
    connection it opened. *)
Definition session (r : VolcengineRecognizer) (audioData : string)
  (onResult onError : bool) (env : environment) : outcome (list action) :=
  '(r1, a1) <- recognize r audioData onResult onError env ;;
  match asrClient_ r1 with
  | Some c =>
      if io_thread_started r audioData env then
        '(_, a2) <- handle_all c (arrived_later env) ;; Ok (a1 ++ a2)%list
      else Ok a1
  | None => Ok a1
  end.

End WithLibraries.

End Asr.

(** How many times the caller's callbacks run in a trace. *)
Definition is_callback (a : action) : bool :=
  match a with
  | call_onResult _ _ | call_onError _ => true
  | _ => false
  end.

Definition callbacks (tr : list action) : list action :=
  List.filter is_callback tr.

(** ** Reference implementations of the other libraries

    Like [Gzip.gunzip], these stand for the library parameters of the client
    where a statement is about actual bytes: SHA-256 (FIPS 180-4) and HMAC
    (RFC 2104) for OpenSSL's [HMAC], base64 with padding (RFC 4648) for boost
    beast's encoder, a compact serialiser with sorted keys for nlohmann's
    [dump], and a gzip writer that emits stored blocks for boost's
    compressor (whose actual output, chosen by zlib, is other bytes that
    decode to the same data). *)

Module Sha256.

(** FIPS 180-4 defines the constants from the first primes: the round
    constants are the first 32 bits of the fractional parts of the cube
    roots of the first 64 primes, the initial hash value those of the square
    roots of the first 8. *)
Definition is_prime (n : Z) : bool :=
  List.forallb (fun d => negb (n mod Z.of_nat d =? 0))
               (List.seq 2 (Z.to_nat n - 2)).

Definition primes : list Z :=
  List.filter is_prime (List.map Z.of_nat (List.seq 2 310)).

(** The integer cube root, one bit at a time from the top. *)
Fixpoint cube_root (bits : nat) (n x : Z) : Z :=
  match bits with
  | O => x
  | S b =>
      let y := x + 2 ^ Z.of_nat b in
      cube_root b n (if y * y * y <=? n then y else x)
  end.

Definition K : list Z :=
  List.map (fun p => cube_root 40 (p * 2 ^ 96) 0 mod 2 ^ 32) primes.

Definition H0 : list Z :=
  List.map (fun p => Z.sqrt (p * 2 ^ 64) mod 2 ^ 32) (List.firstn 8 primes).

Definition w32 (x : Z) : Z := x mod 2 ^ 32.
Definition rotr (n x : Z) : Z :=
  Z.lor (Z.shiftr x n) (w32 (Z.shiftl x (32 - n))).
Definition xor3 (a b c : Z) : Z := Z.lxor a (Z.lxor b c).
Definition Ch (x y z : Z) : Z :=
  Z.lxor (Z.land x y) (Z.land (Z.lxor x 0xFFFFFFFF) z).
Definition Maj (x y z : Z) : Z := xor3 (Z.land x y) (Z.land x z) (Z.land y z).
Definition Sigma0 (x : Z) : Z := xor3 (rotr 2 x) (rotr 13 x) (rotr 22 x).
Definition Sigma1 (x : Z) : Z := xor3 (rotr 6 x) (rotr 11 x) (rotr 25 x).
Definition sigma0 (x : Z) : Z := xor3 (rotr 7 x) (rotr 18 x) (Z.shiftr x 3).
Definition sigma1 (x : Z) : Z := xor3 (rotr 17 x) (rotr 19 x) (Z.shiftr x 10).

(** The message schedule, most recent word first. *)
Fixpoint schedule (n : nat) (ws_rev : list Z) : list Z :=
  match n with
  | O => List.rev ws_rev
  | S n' =>
      let w := w32 (sigma1 (List.nth 1 ws_rev 0) + List.nth 6 ws_rev 0
                    + sigma0 (List.nth 14 ws_rev 0) + List.nth 15 ws_rev 0) in
      schedule n' (w :: ws_rev)
  end.

Definition round (s : list Z) (kw : Z * Z) : list Z :=
  match s with
  | [a; b; c; d; e; f; g; h] =>
      let t1 := h + Sigma1 e + Ch e f g + fst kw + snd kw in
      let t2 := Sigma0 a + Maj a b c in
      [w32 (t1 + t2); a; b; c; w32 (d + t1); e; f; g]
  | _ => s
  end.

Definition compress (hs block : list Z) : list Z :=
  let ws := schedule 48 (List.rev block) in
  let s := List.fold_left round (List.combine K ws) hs in
  List.map (fun p => w32 (fst p + snd p)) (List.combine hs s).

Fixpoint words (bytes : list Z) : list Z :=
  match bytes with
  | a :: b :: c :: d :: r =>
      (Z.shiftl a 24 + Z.shiftl b 16 + Z.shiftl c 8 + d) :: words r
  | _ => []
  end.

Fixpoint blocks (fuel : nat) (hs ws : list Z) : list Z :=
  match fuel, ws with
  | S fuel', _ :: _ => blocks fuel' (compress hs (List.firstn 16 ws)) (List.skipn 16 ws)
  | _, _ => hs
  end.

Definition be_bytes (width : nat) (v : Z) : list Z :=
  List.map (fun i => Z.shiftr v (8 * Z.of_nat i) mod 256)
           (List.rev (List.seq 0 width)).

Definition pad (msg : list Z) : list Z :=
  let len := Z.of_nat (List.length msg) in
  (msg ++ [0x80] ++ List.repeat 0 (Z.to_nat ((55 - len) mod 64))
   ++ be_bytes 8 (8 * len))%list.

Definition bytes_of (s : string) : list Z :=
  List.map byte_val (list_ascii_of_string s).

Definition string_of (bytes : list Z) : string :=
  string_of_list_ascii (List.map chr bytes).

Definition sha256 (msg : string) : string :=
  let ws := words (pad (bytes_of msg)) in
  string_of (List.concat (List.map (be_bytes 4)
                                   (blocks (List.length ws) H0 ws))).

(** HMAC with SHA-256: block size 64. *)
Definition hmac (key data : string) : string :=
  let k := if 64 <? size key then sha256 key else key in
  let k := (bytes_of k
            ++ List.repeat 0 (64 - List.length (bytes_of k))%nat)%list in
  let ipad := string_of (List.map (Z.lxor 0x36) k) in
  let opad := string_of (List.map (Z.lxor 0x5C) k) in
  sha256 (opad ++ sha256 (ipad ++ data)).

End Sha256.

Module Base64.

Definition alphabet : string :=
  "ABCDEFGHIJKLMNOPQRSTUVWXYZabcdefghijklmnopqrstuvwxyz0123456789+/".

Definition digit (v : Z) : ascii :=
  match String.get (Z.to_nat (v mod 64)) alphabet with
  | Some c => c
  | None => "="%char
  end.

Fixpoint encode_bytes (l : list Z) : list ascii :=
  match l with
  | a :: b :: c :: r =>
      digit (Z.shiftr a 2)
      :: digit (Z.shiftl (Z.land a 3) 4 + Z.shiftr b 4)
      :: digit (Z.shiftl (Z.land b 15) 2 + Z.shiftr c 6)
      :: digit (Z.land c 63) :: encode_bytes r
  | [a; b] =>
      [digit (Z.shiftr a 2); digit (Z.shiftl (Z.land a 3) 4 + Z.shiftr b 4);
       digit (Z.shiftl (Z.land b 15) 2); "="%char]
  | [a] =>
      [digit (Z.shiftr a 2); digit (Z.shiftl (Z.land a 3) 4);
       "="%char; "="%char]
  | [] => []
  end.

Definition encode (s : string) : string :=
  string_of_list_ascii (encode_bytes (Sha256.bytes_of s)).

End Base64.

Module Reference.

(** *** A serialiser in the format of nlohmann's [dump()] *)

Definition hex_char (v : Z) : ascii :=
  match String.get (Z.to_nat (v mod 16)) "0123456789abcdef" with
  | Some c => c
  | None => "0"%char
  end.

Definition escape_char (c : ascii) : string :=
  let v := byte_val c in
  if v =? 0x08 then "\b" else if v =? 0x09 then "\t"
  else if v =? 0x0A then "\n" else if v =? 0x0C then "\f"
  else if v =? 0x0D then "\r" else if v =? 0x22 then "\" ++ str1 0x22
  else if v =? 0x5C then "\\"
  else if v <? 0x20 then
    "\u00" ++ String (hex_char (Z.shiftr v 4)) (String (hex_char v) "")
  else String c "".

Fixpoint escape (s : string) : string :=
  match s with
  | EmptyString => EmptyString
  | String c r => escape_char c ++ escape r
  end.

Definition quoted (s : string) : string := str1 0x22 ++ escape s ++ str1 0x22.

(** Well-formed UTF-8, by the table the lexer uses. *)
Fixpoint utf8_valid_from (pending : list (Z * Z)) (s : string) : bool :=
  match s with
  | EmptyString => match pending with [] => true | _ => false end
  | String c r =>
      let v := byte_val c in
      match pending with
      | [] =>
          if v <=? 0x7F then utf8_valid_from [] r
          else match Json.utf8_ranges v with
               | Some rs => utf8_valid_from rs r
               | None => false
               end
      | (lo, hi) :: rest =>
          if (lo <=? v) && (v <=? hi) then utf8_valid_from rest r else false
      end
  end.

Definition utf8_valid (s : string) : bool := utf8_valid_from [] s.

Fixpoint valid (v : Json.value) : bool :=
  match v with
  | Json.jstring s => utf8_valid s
  | Json.array es => List.forallb valid es
  | Json.object ms =>
      List.forallb (fun kv => let '(k, x) := kv in utf8_valid k && valid x) ms
  | _ => true
  end.

Fixpoint join (sep : string) (l : list string) : string :=
  match l with
  | [] => ""
  | [x] => x
  | x :: r => x ++ sep ++ join sep r
  end.

(** Members are kept in a [std::map]: ordered by key, one entry per key. *)
Fixpoint insert_member (kv : string * string) (l : list (string * string))
  : list (string * string) :=
  match l with
  | [] => [kv]
  | x :: r =>
      match String.compare (fst kv) (fst x) with
      | Lt => kv :: l
      | Eq => l
      | Gt => x :: insert_member kv r
      end
  end.

Definition decimal (n : Z) : string :=
  DecimalString.NilZero.string_of_int (Z.to_int n).

Fixpoint dump_value (v : Json.value) : string :=
  match v with
  | Json.null => "null"
  | Json.boolean b => if b then "true" else "false"
  | Json.number_integer n => decimal n
  | Json.number_unsigned n => decimal n
  | Json.number_float lexeme => lexeme
  | Json.jstring s => quoted s
  | Json.array es => "[" ++ join "," (List.map dump_value es) ++ "]"
  | Json.object ms =>
      let dumped := List.map (fun kv => let '(k, x) := kv in (k, dump_value x)) ms in
      let sorted := List.fold_left (fun acc kv => insert_member kv acc) dumped [] in
      "{" ++ join "," (List.map (fun kv => quoted (fst kv) ++ ":" ++ snd kv) sorted)
          ++ "}"
  end.

Definition dump (v : Json.value) : option string :=
  if valid v then Some (dump_value v) else None.

(** *** A gzip writer that stores *)

Definition le_bytes (width : nat) (v : Z) : string :=
  Sha256.string_of (List.rev (Sha256.be_bytes width v)).

Fixpoint stored_blocks (fuel : nat) (data : string) : string :=
  match fuel with
  | O => EmptyString
  | S fuel' =>
      let n := Z.min (size data) 65535 in
      let chunk := String.substring 0 (Z.to_nat n) data in
      let rest := Gzip.drop (Z.to_nat n) data in
      let final := empty rest in
      str1 (if final then 1 else 0) ++ le_bytes 2 n ++ le_bytes 2 (65535 - n)
      ++ chunk ++ (if final then EmptyString else stored_blocks fuel' rest)
  end.

Definition gzip_store (data : string) : string :=
  unhex "1f8b08000000000000ff"
  ++ stored_blocks (S (String.length data)) data
  ++ le_bytes 4 (Gzip.crc32 data) ++ le_bytes 4 (size data mod 2 ^ 32).

(** What the library calls of [connect] give for the fixed [_url]. *)
Definition user_agent : string := "WebSocket++/0.8.2".
Definition get_connection (url : string) : option connection :=
  if String.eqb url _url then Some (mk_connection "/api/v2/asr" []) else None.

End Reference.

(** ** Server frames

    The frames a server sends, with the one-word header of the protocol: the
    header, for an acknowledgement a sequence number and for an error message
    an error code, then the payload length and the payload. *)

Definition response_header (t : MessageType) (f : MessageTypeFlag)
  (s : MessageSerial) (z : MessageCompress) : string :=
  str1 0x11
  ++ str1 (Z.lor (Z.shiftl (MessageType_val t) 4) (MessageTypeFlag_val f))
  ++ str1 (Z.lor (Z.shiftl (MessageSerial_val s) 4) (MessageCompress_val z))
  ++ str1 0.

Definition full_server_response (f : MessageTypeFlag) (s : MessageSerial)
  (z : MessageCompress) (body : string) : string :=
  response_header FULL_SERVER_RESPONSE f s z ++ be32 (size body) ++ body.

Definition server_ack (f : MessageTypeFlag) (s : MessageSerial)
  (z : MessageCompress) (seq : Z) (body : string) : string :=
  response_header SERVER_ACK f s z ++ be32 seq ++ be32 (size body) ++ body.


(** What [parse_response] makes of a payload once it is decompressed to
    [text], for a frame whose serialisation is JSON: the return value, the
    caller's string afterwards and the client. *)
Definition decoded (c : AsrClient) (text msg0 : string)
  : Z * string * AsrClient :=
  if empty text then (0, text, c)
  else match Json.parse text with
       | None => (-1, msg0, c)
       | Some j => (fst (Asr.interpret c j), text, snd (Asr.interpret c j))
       end.

(** How many normal-closure requests a trace holds. *)
Definition is_close (a : action) : bool :=
  match a with ws_close => true | _ => false end.

Definition closes (tr : list action) : nat :=
  List.length (List.filter is_close tr).

(** ** Sample data

    Payloads compressed by zlib (level 6, one fixed-Huffman block) and the
    frames that carry them; error code 45000000 is 0x02AEA540. *)


Definition terminal_gz : string :=
  unhex ("1f8b0800000000000003ab562a4a2d2ecd2951b2527ab277c1d3a57b9574948a"
         ++ "530b4b53f3925395ac740d6b016afb391c21000000").

Definition last_gz : string :=
  unhex ("1f8b0800000000000003ab564ace4f4955b232343030d0512a4e2d2c4dcd4b06"
         ++ "f2750d75948a528b4b734a94ac94f2b3956a012fbd713429000000").

Definition bad_request_frame : string :=
  unhex ("11f0110002aea5400000002d1f8b0800000000000003ab56ca4d2d2e4e4c4f55"
         ++ "b2524a4a4c51284a2d2c4d2d2e51aa0500e9d474df19000000").

Definition terminal_frame : string :=
  unhex ("11921100000000351f8b0800000000000003ab562a4a2d2ecd2951b2527ab277"
         ++ "c1d3a57b9574948a530b4b53f3925395ac740d6b016afb391c21000000").

Definition last_frame : string :=
  unhex ("119211000000003b1f8b0800000000000003ab564ace4f4955b232343030d051"
         ++ "2a4e2d2c4dcd4b06f2750d75948a528b4b734a94ac94f2b3956a012fbd713429"
         ++ "000000").

(** A client whose callback is an adapter holding both callables. *)
Definition listening_client : AsrClient :=
  set_callback (new_client "reqid-1") (Some (mk_adapter true true)).

(** A recognizer configured for token authentication and initialised. *)
Definition ready_recognizer : Asr.VolcengineRecognizer :=
  snd (Asr.init (Asr.setCluster
                   (Asr.setAccessToken (Asr.setAppId Asr.new_recognizer "a1") "t1")
                   "c1") "reqid-1").

(** The same functions with the reference libraries in place of the
    parameters. *)
Definition reference_session :=
  Asr.session Reference.gzip_store Gzip.gunzip Reference.dump Sha256.hmac
              Base64.encode Reference.user_agent Reference.get_connection.

Definition reference_recognize :=
  Asr.recognize Reference.gzip_store Gzip.gunzip Reference.dump Sha256.hmac
                Base64.encode Reference.user_agent Reference.get_connection.

(** More payloads: the text [not json], and an application error that also
    carries a negative sequence and a result,
    {"code":1013,"sequence":-1,"result":"x"}. *)

Definition not_json_gz : string :=
  unhex ("1f8b0800000000000003cbcb2f51c82acecf030066cb8cc608000000").

Definition app_error_gz : string :=
  unhex ("1f8b0800000000000003ab564ace4f4955b232343034d6512a4e2d2c4dcd4b06"
         ++ "f2750d75948a528b4b734a94ac942a946a018a26604a28000000").

(** The last connection signal in a sequence of events: [Some true] for an
    open, [Some false] for a failure, [None] when there is neither. *)
Definition signal (ev : ws_event) : option bool :=
  match ev with
  | ev_open => Some true
  | ev_fail => Some false
  | _ => None
  end.

Fixpoint last_signal (evs : list ws_event) : option bool :=
  match evs with
  | [] => None
  | ev :: rest =>
      match last_signal rest with
      | Some b => Some b
      | None => signal ev
      end
  end.

(** No character of [s] is '+' or '/'. *)
Fixpoint no_plus_slash (s : string) : bool :=
  match s with
  | EmptyString => true
  | String c r =>
      negb (Ascii.eqb c "+") && negb (Ascii.eqb c "/") && no_plus_slash r
  end.

(** What every handler leaves alone, and the one-way flag. *)
Definition same_wiring (c c' : AsrClient) : Prop :=
  _con c' = _con c
  /\ _asr_callback c' = _asr_callback c
  /\ _full_req_param c' = _full_req_param c
  /\ _use_sync_connect c' = _use_sync_connect c
  /\ (_recv_last_msg c = true -> _recv_last_msg c' = true).

(** A recognizer whose client was left connected by an earlier session. *)
Definition used_recognizer : Asr.VolcengineRecognizer :=
  Asr.with_client ready_recognizer
    (Some (with_connected
             (with_con (new_client "reqid-1")
                       (Some (mk_connection "/api/v2/asr" [])))
             true true))
    true.

(** A name with an embedded NUL: its C string is [example.org]. *)
Definition cut_name : string := "example.org" ++ str1 0 ++ ".evil".

(** ** The recognizer of the table engine
    ([src/im/table/volcenginerecognizer.cpp])

    It posts the audio with libcurl and searches the answer for a few
    substrings.  [size_t] is taken to be 64 bits wide. *)

Module Table.

(** [s.find(pattern, pos)] for a non-empty [pattern]: the position of its
    first occurrence at or after [pos]; [None] is [npos]. *)
Definition find (s pattern : string) (pos : Z) : option Z :=
  match String.index (Z.to_nat pos) pattern s with
  | Some i => Some (Z.of_nat i)
  | None => None
  end.

(** What a call does that is visible outside the recognizer. *)
Inductive event : Type :=
| result_callback (text : string) (isFinal : bool)   (* onResult_(text, isFinal) *)
| error_callback (text : string)                     (* onError_(text) *)
| log_api_error (errorMsg : string)                  (* "API error: " << errorMsg *)
| request (url : string) (headers : list string) (postfieldsize : Z)
| upload (chunk : string).        (* bytes the read callback copied out *)

Record VolcengineRecognizer : Type := mk_recognizer {
  isReady_ : bool;
  isConnected_ : bool;
  appId_ : string;
  token_ : string;
  cluster_ : string;
  apiEndpoint_ : string;
  curlHandle_ : bool;               (* false: nullptr *)
  responseBuffer_ : string;
  audioData_ : string;
  audioDataSent_ : Z;
  onResult_ : bool;                 (* whether the std::function holds a callable *)
  onError_ : bool;
  currentResult_ : string;
  recognitionStarted_ : bool
}.

(** [VolcengineRecognizer::VolcengineRecognizer()] *)
Definition new_recognizer : VolcengineRecognizer :=
  mk_recognizer false false "" "" "" "wss://openspeech.bytedance.com/api/v2/asr"
                false "" "" 0 false false "" false.

Definition setAppId (r : VolcengineRecognizer) (appId : string) :=
  mk_recognizer (isReady_ r) (isConnected_ r) appId (token_ r) (cluster_ r)
    (apiEndpoint_ r) (curlHandle_ r) (responseBuffer_ r) (audioData_ r)
    (audioDataSent_ r) (onResult_ r) (onError_ r) (currentResult_ r)
    (recognitionStarted_ r).

Definition setToken (r : VolcengineRecognizer) (token : string) :=
  mk_recognizer (isReady_ r) (isConnected_ r) (appId_ r) token (cluster_ r)
    (apiEndpoint_ r) (curlHandle_ r) (responseBuffer_ r) (audioData_ r)
    (audioDataSent_ r) (onResult_ r) (onError_ r) (currentResult_ r)
    (recognitionStarted_ r).

Definition setCluster (r : VolcengineRecognizer) (cluster : string) :=
  mk_recognizer (isReady_ r) (isConnected_ r) (appId_ r) (token_ r) cluster
    (apiEndpoint_ r) (curlHandle_ r) (responseBuffer_ r) (audioData_ r)
    (audioDataSent_ r) (onResult_ r) (onError_ r) (currentResult_ r)
    (recognitionStarted_ r).

Definition setApiEndpoint (r : VolcengineRecognizer) (endpoint : string) :=
  mk_recognizer (isReady_ r) (isConnected_ r) (appId_ r) (token_ r) (cluster_ r)
    endpoint (curlHandle_ r) (responseBuffer_ r) (audioData_ r)
    (audioDataSent_ r) (onResult_ r) (onError_ r) (currentResult_ r)
    (recognitionStarted_ r).

(** Assignments to single members. *)
Definition with_isReady (r : VolcengineRecognizer) (b : bool) :=
  mk_recognizer b (isConnected_ r) (appId_ r) (token_ r) (cluster_ r)
    (apiEndpoint_ r) (curlHandle_ r) (responseBuffer_ r) (audioData_ r)
    (audioDataSent_ r) (onResult_ r) (onError_ r) (currentResult_ r)
    (recognitionStarted_ r).

Definition with_isConnected (r : VolcengineRecognizer) (b : bool) :=
  mk_recognizer (isReady_ r) b (appId_ r) (token_ r) (cluster_ r)
    (apiEndpoint_ r) (curlHandle_ r) (responseBuffer_ r) (audioData_ r)
    (audioDataSent_ r) (onResult_ r) (onError_ r) (currentResult_ r)
    (recognitionStarted_ r).

Definition with_curlHandle (r : VolcengineRecognizer) (h : bool) :=
  mk_recognizer (isReady_ r) (isConnected_ r) (appId_ r) (token_ r) (cluster_ r)
    (apiEndpoint_ r) h (responseBuffer_ r) (audioData_ r)
    (audioDataSent_ r) (onResult_ r) (onError_ r) (currentResult_ r)
    (recognitionStarted_ r).

Definition with_responseBuffer (r : VolcengineRecognizer) (b : string) :=
  mk_recognizer (isReady_ r) (isConnected_ r) (appId_ r) (token_ r) (cluster_ r)
    (apiEndpoint_ r) (curlHandle_ r) b (audioData_ r)
    (audioDataSent_ r) (onResult_ r) (onError_ r) (currentResult_ r)
    (recognitionStarted_ r).

Definition with_audioDataSent (r : VolcengineRecognizer) (n : Z) :=
  mk_recognizer (isReady_ r) (isConnected_ r) (appId_ r) (token_ r) (cluster_ r)
    (apiEndpoint_ r) (curlHandle_ r) (responseBuffer_ r) (audioData_ r)
    n (onResult_ r) (onError_ r) (currentResult_ r) (recognitionStarted_ r).

Definition with_currentResult (r : VolcengineRecognizer) (text : string) :=
  mk_recognizer (isReady_ r) (isConnected_ r) (appId_ r) (token_ r) (cluster_ r)
    (apiEndpoint_ r) (curlHandle_ r) (responseBuffer_ r) (audioData_ r)
    (audioDataSent_ r) (onResult_ r) (onError_ r) text (recognitionStarted_ r).

Definition with_recognitionStarted (r : VolcengineRecognizer) (b : bool) :=
  mk_recognizer (isReady_ r) (isConnected_ r) (appId_ r) (token_ r) (cluster_ r)
    (apiEndpoint_ r) (curlHandle_ r) (responseBuffer_ r) (audioData_ r)
    (audioDataSent_ r) (onResult_ r) (onError_ r) (currentResult_ r) b.

(** [VolcengineRecognizer::init]; [curl_global_init_ok] says whether
    [curl_global_init] returned CURLE_OK. *)
Definition init (r : VolcengineRecognizer) (curl_global_init_ok : bool)
  : bool * VolcengineRecognizer :=
  if empty (appId_ r) || empty (token_ r) || empty (cluster_ r) then (false, r)
  else if negb curl_global_init_ok then (false, r)
  else (true, with_isReady r true).

(** The tail the two result branches of [parseResponse] share: from the
    position [find] gave for the result pattern to the callback. *)
Definition extract_result (r : VolcengineRecognizer) (json : string)
  (resultStart : option Z) : outcome (VolcengineRecognizer * list event) :=
  match resultStart with
  | None => Ok (r, [])
  | Some resultStart =>
      let resultStart := resultStart + 9 in
      match find json (jq "'") resultStart with
      | None => Ok (r, [])
      | Some resultEnd =>
          recognizedText <- substr json resultStart (resultEnd - resultStart) ;;
          Ok (with_currentResult r recognizedText,
              if onResult_ r && negb (empty recognizedText)
              then [result_callback recognizedText true] else [])
      end
  end.

(** [VolcengineRecognizer::parseResponse] *)
Definition parseResponse (r : VolcengineRecognizer) (json : string)
  : outcome (VolcengineRecognizer * list event) :=
  match find json (jq "'code':0") 0 with
  | None =>
      match find json (jq "'message':'") 0 with
      | Some msgStart =>
          let msgStart := msgStart + 10 in
          match find json (jq "'") msgStart with
          | Some msgEnd =>
              errorMsg <- substr json msgStart (msgEnd - msgStart) ;;
              Ok (r, [log_api_error errorMsg])
          | None => Ok (r, [])
          end
      | None => Ok (r, [])
      end
  | Some _ =>
      match find json (jq "'data'") 0 with
      | None => extract_result r json (find json (jq "'result':'") 0)
      | Some dataStart =>
          extract_result r json (find json (jq "'result':'") dataStart)
      end
  end.

(** [VolcengineRecognizer::handleResponse] *)
Definition handleResponse (r : VolcengineRecognizer) (response : string)
  : outcome (VolcengineRecognizer * list event) :=
  parseResponse r response.

(** [VolcengineRecognizer::websocketWriteCallback]: [data] is the
    [size * nmemb] bytes at [ptr], [userdata] the recognizer or nullptr.
    Returns the recognizer, the return value and the events. *)
Definition websocketWriteCallback (data : string)
  (userdata : option VolcengineRecognizer)
  : outcome (option VolcengineRecognizer * Z * list event) :=
  match userdata with
  | None => Ok (None, 0, [])
  | Some recognizer =>
      let dataSize := size data in
      let recognizer :=
        with_responseBuffer recognizer (responseBuffer_ recognizer ++ data) in
      '(recognizer, evs) <- parseResponse recognizer data ;;
      Ok (Some recognizer, dataSize, evs)
  end.

(** [VolcengineRecognizer::websocketReadCallback]: the arithmetic is in
    [size_t]; copying from [&audioData_[audioDataSent_]] past the end of the
    vector is undefined. *)
Definition websocketReadCallback (size_ nmemb : Z)
  (userdata : option VolcengineRecognizer)
  : outcome (option VolcengineRecognizer * Z * list event) :=
  match userdata with
  | None => Ok (None, 0, [])
  | Some recognizer =>
      let remaining :=
        (size (audioData_ recognizer) - audioDataSent_ recognizer) mod 2 ^ 64 in
      let toSend := Z.min remaining ((size_ * nmemb) mod 2 ^ 64) in
      if toSend >? 0 then
        if audioDataSent_ recognizer + toSend <=? size (audioData_ recognizer)
        then
          Ok (Some (with_audioDataSent recognizer
                      ((audioDataSent_ recognizer + toSend) mod 2 ^ 64)),
              toSend,
              [upload (String.substring (Z.to_nat (audioDataSent_ recognizer))
                                        (Z.to_nat toSend)
                                        (audioData_ recognizer))])
        else Undefined out_of_bounds_read
      else Ok (Some recognizer, 0, [])
  end.

(** What libcurl does during [curl_easy_perform]: it asks the read callback
    for data to post and hands received data to the write callback. *)
Inductive transfer_step : Type :=
| reads (size_ nmemb : Z)
| writes (data : string).

Record curl_env : Type := mk_curl_env {
  easy_init_ok : bool;                 (* curl_easy_init() is not nullptr *)
  transfer : list transfer_step;
  perform_ok : bool                    (* curl_easy_perform is CURLE_OK *)
}.

Fixpoint run_transfer (r : VolcengineRecognizer) (steps : list transfer_step)
  : outcome (VolcengineRecognizer * list event) :=
  match steps with
  | [] => Ok (r, [])
  | step :: rest =>
      '(u, _, e1) <-
        match step with
        | reads size_ nmemb => websocketReadCallback size_ nmemb (Some r)
        | writes data => websocketWriteCallback data (Some r)
        end ;;
      match u with
      | None => Ok (r, e1)
      | Some r1 => '(r2, e2) <- run_transfer r1 rest ;; Ok (r2, e1 ++ e2)%list
      end
  end.

(** [VolcengineRecognizer::connectWebSocket] *)
Definition connectWebSocket (r : VolcengineRecognizer) (env : curl_env)
  : outcome (VolcengineRecognizer * bool * list event) :=
  if negb (easy_init_ok env) then Ok (with_curlHandle r false, false, [])
  else
    let r := with_curlHandle r true in
    let authHeader := "Authorization: Bearer; " ++ token_ r in
    let req := request (c_str (apiEndpoint_ r))
                       [c_str authHeader; "Content-Type: application/json"]
                       (size (audioData_ r)) in
    '(r, evs) <- run_transfer r (transfer env) ;;
    if negb (perform_ok env) then
      Ok (with_curlHandle r false, false, req :: evs)
    else Ok (with_isConnected r true, true, req :: evs).

(** [VolcengineRecognizer::sendStartEvent] *)
Definition sendStartEvent (r : VolcengineRecognizer)
  : VolcengineRecognizer * bool :=
  (with_recognitionStarted r true, true).

(** [VolcengineRecognizer::sendAudioData] *)
Definition sendAudioData (r : VolcengineRecognizer) (audioData : string) : bool :=
  if negb (isConnected_ r) || negb (curlHandle_ r) then false else true.

(** [VolcengineRecognizer::sendStopEvent]: it sleeps and returns true. *)
Definition sendStopEvent (r : VolcengineRecognizer) : bool := true.

(** [VolcengineRecognizer::closeConnection], also the destructor. *)
Definition closeConnection (r : VolcengineRecognizer) : VolcengineRecognizer :=
  mk_recognizer (isReady_ r) false (appId_ r) (token_ r) (cluster_ r)
    (apiEndpoint_ r) false (responseBuffer_ r) (audioData_ r)
    (audioDataSent_ r) false false (currentResult_ r) false.

(** The assignments that open [recognize]. *)
Definition store_request (r : VolcengineRecognizer) (audioData : string)
  (onResult onError : bool) : VolcengineRecognizer :=
  mk_recognizer (isReady_ r) (isConnected_ r) (appId_ r) (token_ r) (cluster_ r)
    (apiEndpoint_ r) (curlHandle_ r) "" audioData 0 onResult onError "" false.

Definition error_if (callback : bool) (text : string) : list event :=
  if callback then [error_callback text] else [].

(** [VolcengineRecognizer::recognize] *)
Definition recognize (r : VolcengineRecognizer) (audioData : string)
  (onResult onError : bool) (env : curl_env)
  : outcome (VolcengineRecognizer * list event) :=
  if negb (isReady_ r) then Ok (r, error_if onError "Recognizer not initialized")
  else if empty audioData then Ok (r, error_if onError "Empty audio data")
  else
    let r := store_request r audioData onResult onError in
    '(r, connected, e1) <- connectWebSocket r env ;;
    if negb connected then
      Ok (closeConnection r,
          e1 ++ error_if (onError_ r) "Failed to connect to Volcengine API")%list
    else
      let '(r, started) := sendStartEvent r in
      if negb started then
        Ok (closeConnection r,
            e1 ++ error_if (onError_ r) "Failed to send start event")%list
      else if negb (sendAudioData r audioData) then
        Ok (closeConnection r,
            e1 ++ error_if (onError_ r) "Failed to send audio data")%list
      else if negb (sendStopEvent r) then
        Ok (closeConnection r,
            e1 ++ error_if (onError_ r) "Failed to send stop event")%list
      else Ok (r, e1).

End Table.

(** *** Observations on the events of the table recognizer *)

Definition is_result_callback (e : Table.event) : bool :=
  match e with Table.result_callback _ _ => true | _ => false end.

Definition is_error_callback (e : Table.event) : bool :=
  match e with Table.error_callback _ => true | _ => false end.

(** The bytes handed to libcurl for posting, in order. *)
Fixpoint uploads (evs : list Table.event) : string :=
  match evs with
  | [] => ""
  | Table.upload chunk :: rest => chunk ++ uploads rest
  | _ :: rest => uploads rest
  end.

(** The bytes libcurl handed to the write callback, in order. *)
Fixpoint received (steps : list Table.transfer_step) : string :=
  match steps with
  | [] => ""
  | Table.writes data :: rest => data ++ received rest
  | _ :: rest => received rest
  end.

(** The members neither callback of a transfer assigns. *)
Definition same_settings (r r' : Table.VolcengineRecognizer) : Prop :=
  Table.isReady_ r' = Table.isReady_ r /\
  Table.isConnected_ r' = Table.isConnected_ r /\
  Table.appId_ r' = Table.appId_ r /\
  Table.token_ r' = Table.token_ r /\
  Table.cluster_ r' = Table.cluster_ r /\
  Table.apiEndpoint_ r' = Table.apiEndpoint_ r /\
  Table.curlHandle_ r' = Table.curlHandle_ r /\
  Table.audioData_ r' = Table.audioData_ r /\
  Table.onResult_ r' = Table.onResult_ r /\
  Table.onError_ r' = Table.onError_ r /\
  Table.recognitionStarted_ r' = Table.recognitionStarted_ r.

(** ** Audio capture ([src/im/table/audiocapture.cpp],
    [src/im/voiceinput/audiocapture.h])

    Besides returning, a call here can end the process: destroying a
    [std::thread] that is still joinable calls [std::terminate]. *)

Inductive stop : Type :=
| raised (e : exception)
| undefined_behaviour (u : undefined)
| terminated.                       (* std::terminate *)

Inductive fate (A : Type) : Type :=
| Returns (a : A)
| Stops (why : stop).

Arguments Returns {A} a.
Arguments Stops {A} why.

Definition fate_bind {A B} (m : fate A) (k : A -> fate B) : fate B :=
  match m with
  | Returns a => k a
  | Stops why => Stops why
  end.

Notation "x <~ m ;; k" := (fate_bind m (fun x => k))
  (at level 61, m at next level, right associativity).
Notation "' p <~ m ;; k" := (fate_bind m (fun x => let p := x in k))
  (at level 61, p pattern, m at next level, right associativity).

Definition of_outcome {A} (m : outcome A) : fate A :=
  match m with
  | Ok a => Returns a
  | Throws e => Stops (raised e)
  | Undefined u => Stops (undefined_behaviour u)
  end.

Module Capture.

Inductive AudioBackendType : Type := PulseAudio | ALSA | None_.

Definition AUDIO_CHANNELS : Z := 1.
Definition AUDIO_BYTES_PER_SAMPLE : Z := 2.

Record AudioCapture : Type := mk_capture {
  backendType_ : AudioBackendType;
  isRecording_ : bool;
  stopRequested_ : bool;
  pulseContext_ : bool;             (* false: nullptr *)
  alsaDevice_ : bool;               (* false: nullptr *)
  recordedData_ : string;
  readThread_ : bool                (* the unique_ptr holds a thread *)
}.

(** [AudioCapture::AudioCapture()] *)
Definition new_capture : AudioCapture :=
  mk_capture None_ false false false false "" false.

Definition with_backendType (a : AudioCapture) (t : AudioBackendType) :=
  mk_capture t (isRecording_ a) (stopRequested_ a) (pulseContext_ a)
             (alsaDevice_ a) (recordedData_ a) (readThread_ a).

Definition with_isRecording (a : AudioCapture) (b : bool) :=
  mk_capture (backendType_ a) b (stopRequested_ a) (pulseContext_ a)
             (alsaDevice_ a) (recordedData_ a) (readThread_ a).

Definition with_stopRequested (a : AudioCapture) (b : bool) :=
  mk_capture (backendType_ a) (isRecording_ a) b (pulseContext_ a)
             (alsaDevice_ a) (recordedData_ a) (readThread_ a).

Definition with_pulseContext (a : AudioCapture) (p : bool) :=
  mk_capture (backendType_ a) (isRecording_ a) (stopRequested_ a) p
             (alsaDevice_ a) (recordedData_ a) (readThread_ a).

Definition with_alsaDevice (a : AudioCapture) (d : bool) :=
  mk_capture (backendType_ a) (isRecording_ a) (stopRequested_ a)
             (pulseContext_ a) d (recordedData_ a) (readThread_ a).

Definition with_recordedData (a : AudioCapture) (data : string) :=
  mk_capture (backendType_ a) (isRecording_ a) (stopRequested_ a)
             (pulseContext_ a) (alsaDevice_ a) data (readThread_ a).

Definition with_readThread (a : AudioCapture) (t : bool) :=
  mk_capture (backendType_ a) (isRecording_ a) (stopRequested_ a)
             (pulseContext_ a) (alsaDevice_ a) (recordedData_ a) t.

Definition isRecording (a : AudioCapture) : bool := isRecording_ a.
Definition getRecordedData (a : AudioCapture) : string := recordedData_ a.
Definition backendType (a : AudioCapture) : AudioBackendType := backendType_ a.

(** [AudioCapture::initPulseAudio]; [simple] says whether [pa_simple_new]
    returned a connection. *)
Definition initPulseAudio (a : AudioCapture) (simple : bool)
  : bool * AudioCapture :=
  if negb simple then (false, a) else (true, with_pulseContext a true).

(** The return values of the ALSA calls of one [initALSA], in the order
    of the calls. *)
Record alsa_setup : Type := mk_alsa_setup {
  snd_pcm_open : Z;
  snd_pcm_hw_params_any : Z;
  snd_pcm_hw_params_set_access : Z;
  snd_pcm_hw_params_set_format : Z;
  snd_pcm_hw_params_set_rate_near : Z;
  snd_pcm_hw_params_set_channels : Z;
  snd_pcm_hw_params : Z
}.

(** [AudioCapture::initALSA] *)
Definition initALSA (a : AudioCapture) (s : alsa_setup) : bool * AudioCapture :=
  if snd_pcm_open s <? 0 then (false, a)
  else if snd_pcm_hw_params_any s <? 0 then (false, a)
  else if snd_pcm_hw_params_set_access s <? 0 then (false, a)
  else if snd_pcm_hw_params_set_format s <? 0 then (false, a)
  else if snd_pcm_hw_params_set_rate_near s <? 0 then (false, a)
  else if snd_pcm_hw_params_set_channels s <? 0 then (false, a)
  else if snd_pcm_hw_params s <? 0 then (false, a)
  else (true, with_alsaDevice a true).

(** What the sound systems answer during one [init]: [detectBackend] probes
    first, [init] then initialises the detected backend once more. *)
Record devices : Type := mk_devices {
  pulse_probe : bool;
  alsa_probe : alsa_setup;
  pulse_init : bool;
  alsa_init : alsa_setup
}.

(** [AudioCapture::detectBackend] *)
Definition detectBackend (a : AudioCapture) (d : devices)
  : AudioBackendType * AudioCapture :=
  let '(ok, a) := initPulseAudio a (pulse_probe d) in
  if ok then (PulseAudio, a)
  else
    let '(ok, a) := initALSA a (alsa_probe d) in
    if ok then (ALSA, a) else (None_, a).

(** [AudioCapture::init] *)
Definition init (a : AudioCapture) (d : devices) : bool * AudioCapture :=
  let '(t, a) := detectBackend a d in
  let a := with_backendType a t in
  match backendType_ a with
  | None_ => (false, a)
  | PulseAudio => initPulseAudio a (pulse_init d)
  | ALSA => initALSA a (alsa_init d)
  end.

(** What the read thread meets between its start and the moment it is
    joined: the calls it completes before it sees [stopRequested_].  The
    thread's appends to [recordedData_] are applied where it is joined;
    accesses to the two shared members are taken to be atomic. *)
Record alsa_read : Type := mk_alsa_read {
  snd_pcm_readi : Z;                 (* the value returned *)
  snd_pcm_recover : Z;               (* the value returned, if it is called *)
  frames : string                    (* the buffer after the call *)
}.

Record recording : Type := mk_recording {
  pa_simple_read : list (Z * string);   (* value returned, buffer after it *)
  snd_pcm_prepare : Z;
  alsa_reads : list alsa_read
}.

(** [AudioCapture::pulseAudioReadLoop]; [buffer] is the local array. *)
Fixpoint pulseAudioReadLoop (reads : list (Z * string)) (recordedData : string)
  : fate string :=
  match reads with
  | [] => Returns recordedData
  | (result, buffer) :: rest =>
      if result <? 0 then Returns recordedData
      else if result >? 0 then
        if result >? size buffer
        then Stops (undefined_behaviour out_of_bounds_read)
        else pulseAudioReadLoop rest
               (recordedData ++ String.substring 0 (Z.to_nat result) buffer)
      else pulseAudioReadLoop rest recordedData
  end.

(** The loop of [AudioCapture::alsaAudioReadLoop]. *)
Fixpoint alsa_loop (reads : list alsa_read) (recordedData : string)
  : fate string :=
  match reads with
  | [] => Returns recordedData
  | r :: rest =>
      let framesRead := snd_pcm_readi r in
      if framesRead <? 0 then
        let framesRead := snd_pcm_recover r in
        if framesRead <? 0 then Returns recordedData
        else alsa_loop rest recordedData
      else if framesRead >? 0 then
        let bytesRead :=
          (framesRead * (AUDIO_BYTES_PER_SAMPLE * AUDIO_CHANNELS)) mod 2 ^ 64 in
        if bytesRead >? size (frames r)
        then Stops (undefined_behaviour out_of_bounds_read)
        else alsa_loop rest
               (recordedData ++ String.substring 0 (Z.to_nat bytesRead) (frames r))
      else alsa_loop rest recordedData
  end.

(** [AudioCapture::alsaAudioReadLoop] *)
Definition alsaAudioReadLoop (w : recording) (recordedData : string)
  : fate string :=
  if snd_pcm_prepare w <? 0 then Returns recordedData
  else alsa_loop (alsa_reads w) recordedData.

(** The statements the two start functions share after their null check:
    assigning a new thread to [readThread_] destroys the thread it held. *)
Definition start_thread (a : AudioCapture) : fate (bool * AudioCapture) :=
  let a := with_stopRequested (with_recordedData a "") false in
  if readThread_ a then Stops terminated
  else Returns (true, with_isRecording (with_readThread a true) true).

(** [AudioCapture::startPulseAudioRecording] *)
Definition startPulseAudioRecording (a : AudioCapture)
  : fate (bool * AudioCapture) :=
  if negb (pulseContext_ a) then Returns (false, a) else start_thread a.

(** [AudioCapture::startALSARecording] *)
Definition startALSARecording (a : AudioCapture) : fate (bool * AudioCapture) :=
  if negb (alsaDevice_ a) then Returns (false, a) else start_thread a.

(** [AudioCapture::stopPulseAudioRecording] *)
Definition stopPulseAudioRecording (a : AudioCapture) (w : recording)
  : fate AudioCapture :=
  if isRecording_ a then
    let a := with_stopRequested a true in
    a <~ (if readThread_ a then
            data <~ pulseAudioReadLoop (pa_simple_read w) (recordedData_ a) ;;
            Returns (with_readThread (with_recordedData a data) false)
          else Returns a) ;;
    Returns (with_isRecording a false)
  else Returns (with_isRecording a false).

(** [AudioCapture::stopALSARecording] *)
Definition stopALSARecording (a : AudioCapture) (w : recording)
  : fate AudioCapture :=
  if isRecording_ a then
    let a := with_stopRequested a true in
    a <~ (if readThread_ a then
            data <~ alsaAudioReadLoop w (recordedData_ a) ;;
            Returns (with_readThread (with_recordedData a data) false)
          else Returns a) ;;
    Returns (with_isRecording a false)
  else Returns (with_isRecording a false).

(** [AudioCapture::startRecording] *)
Definition startRecording (a : AudioCapture) : fate (bool * AudioCapture) :=
  match backendType_ a with
  | PulseAudio => startPulseAudioRecording a
  | ALSA => startALSARecording a
  | None_ => Returns (false, a)
  end.

(** [AudioCapture::stopRecording] *)
Definition stopRecording (a : AudioCapture) (w : recording) : fate AudioCapture :=
  match backendType_ a with
  | PulseAudio => stopPulseAudioRecording a w
  | ALSA => stopALSARecording a w
  | None_ => Returns a
  end.

End Capture.

(** ** The voice input manager ([src/im/table/voiceinput.cpp]) *)

Module Voice.

Inductive VoiceInputState : Type := Idle | Recording | Processing | Result.

Definition state_eqb (a b : VoiceInputState) : bool :=
  match a, b with
  | Idle, Idle | Recording, Recording | Processing, Processing
  | Result, Result => true
  | _, _ => false
  end.

(** Key symbols of fcitx-utils ([keysymgen.h]). *)
Definition FcitxKey_Shift_L : Z := 65505. (* 0xffe1 *)
Definition FcitxKey_Shift_R : Z := 65506. (* 0xffe2 *)

Record KeyEvent : Type := mk_key {
  sym : Z;                          (* event.key().sym() *)
  isRelease : bool
}.

Record VoiceInputManager : Type := mk_manager {
  config_appId : string;
  config_token : string;
  config_cluster : string;
  config_enabled : bool;
  state_ : VoiceInputState;
  inputContext_ : bool;             (* false: nullptr *)
  leftShiftPressed_ : bool;
  rightShiftPressed_ : bool;
  audioCapture_ : option Capture.AudioCapture;
  recognizer_ : option Table.VolcengineRecognizer
}.

(** [VoiceInputManager::VoiceInputManager], with the defaults of
    [VoiceInputConfig]. *)
Definition new_manager : VoiceInputManager :=
  mk_manager "" "" "" true Idle false false false None None.

Definition setConfig (m : VoiceInputManager) (appId token cluster : string)
  (enabled : bool) : VoiceInputManager :=
  mk_manager appId token cluster enabled (state_ m) (inputContext_ m)
    (leftShiftPressed_ m) (rightShiftPressed_ m) (audioCapture_ m)
    (recognizer_ m).

Definition setInputContext (m : VoiceInputManager) (inputContext : bool) :=
  mk_manager (config_appId m) (config_token m) (config_cluster m)
    (config_enabled m) (state_ m) inputContext
    (leftShiftPressed_ m) (rightShiftPressed_ m) (audioCapture_ m)
    (recognizer_ m).

Definition with_state (m : VoiceInputManager) (s : VoiceInputState) :=
  mk_manager (config_appId m) (config_token m) (config_cluster m)
    (config_enabled m) s (inputContext_ m)
    (leftShiftPressed_ m) (rightShiftPressed_ m) (audioCapture_ m)
    (recognizer_ m).

Definition with_leftShiftPressed (m : VoiceInputManager) (b : bool) :=
  mk_manager (config_appId m) (config_token m) (config_cluster m)
    (config_enabled m) (state_ m) (inputContext_ m)
    b (rightShiftPressed_ m) (audioCapture_ m) (recognizer_ m).

Definition with_rightShiftPressed (m : VoiceInputManager) (b : bool) :=
  mk_manager (config_appId m) (config_token m) (config_cluster m)
    (config_enabled m) (state_ m) (inputContext_ m)
    (leftShiftPressed_ m) b (audioCapture_ m) (recognizer_ m).

Definition with_audioCapture (m : VoiceInputManager)
  (a : option Capture.AudioCapture) :=
  mk_manager (config_appId m) (config_token m) (config_cluster m)
    (config_enabled m) (state_ m) (inputContext_ m)
    (leftShiftPressed_ m) (rightShiftPressed_ m) a (recognizer_ m).

Definition with_recognizer (m : VoiceInputManager)
  (r : option Table.VolcengineRecognizer) :=
  mk_manager (config_appId m) (config_token m) (config_cluster m)
    (config_enabled m) (state_ m) (inputContext_ m)
    (leftShiftPressed_ m) (rightShiftPressed_ m) (audioCapture_ m) r.

(** What the manager does that is visible outside it. *)
Inductive output : Type :=
| commitString (text : string)          (* inputContext_->commitString(text) *)
| recognizer_does (e : Table.event).

(** [VoiceInputManager::init] *)
Definition init (m : VoiceInputManager) (d : Capture.devices)
  (curl_global_init_ok : bool) : bool * VoiceInputManager :=
  let '(ok, a) := Capture.init Capture.new_capture d in
  let m := with_audioCapture m (Some a) in
  if negb ok then (false, m)
  else
    let r := Table.new_recognizer in
    let r := Table.setAppId r (config_appId m) in
    let r := Table.setToken r (config_token m) in
    let r := Table.setCluster r (config_cluster m) in
    let '(ok, r) := Table.init r curl_global_init_ok in
    let m := with_recognizer m (Some r) in
    if negb ok then (false, m) else (true, m).

(** [VoiceInputManager::isDualShiftPressed] *)
Definition isDualShiftPressed (m : VoiceInputManager) : bool :=
  leftShiftPressed_ m && rightShiftPressed_ m.

(** [VoiceInputManager::setState] *)
Definition setState (m : VoiceInputManager) (newState : VoiceInputState) :=
  if negb (state_eqb (state_ m) newState) then with_state m newState else m.

(** [VoiceInputManager::insertResult] *)
Definition insertResult (m : VoiceInputManager) (result : string)
  : VoiceInputManager * list output :=
  if empty result then (m, [])
  else
    (setState m Idle, if inputContext_ m then [commitString result] else []).

(** The two lambdas [stopRecording] hands to the recognizer. *)
Definition onResult (m : VoiceInputManager) (result : string) (isFinal : bool)
  : VoiceInputManager * list output :=
  if isFinal then
    let '(m, out) := insertResult m result in
    (setState m Result, out)
  else (m, []).

Definition onError (m : VoiceInputManager) (error : string)
  : VoiceInputManager :=
  setState m Idle.

(** The recognizer's events in the order they happen; its two callbacks run
    the lambdas, which touch the manager only. *)
Fixpoint deliver (m : VoiceInputManager) (evs : list Table.event)
  : VoiceInputManager * list output :=
  match evs with
  | [] => (m, [])
  | e :: rest =>
      let '(m, out) :=
        match e with
        | Table.result_callback text isFinal => onResult m text isFinal
        | Table.error_callback text => (onError m text, [])
        | _ => (m, [])
        end in
      let '(m, more) := deliver m rest in
      (m, recognizer_does e :: out ++ more)%list
  end.

(** What the outside does during one call of the manager. *)
Record world : Type := mk_world {
  sound : Capture.recording;
  curl : Table.curl_env
}.

(** [VoiceInputManager::startRecording] *)
Definition startRecording (m : VoiceInputManager) : fate VoiceInputManager :=
  if negb (state_eqb (state_ m) Idle) then Returns m
  else
    match audioCapture_ m with
    | None => Stops (undefined_behaviour null_dereference)
    | Some a =>
        '(ok, a) <~ Capture.startRecording a ;;
        let m := with_audioCapture m (Some a) in
        if ok then Returns (setState m Recording) else Returns m
    end.

(** [VoiceInputManager::stopRecording] *)
Definition stopRecording (m : VoiceInputManager) (w : world)
  : fate (VoiceInputManager * list output) :=
  if negb (state_eqb (state_ m) Recording) then Returns (m, [])
  else
    match audioCapture_ m with
    | None => Stops (undefined_behaviour null_dereference)
    | Some a =>
        a <~ Capture.stopRecording a (sound w) ;;
        let m := setState (with_audioCapture m (Some a)) Processing in
        let audioData := Capture.getRecordedData a in
        if empty audioData then Returns (setState m Idle, [])
        else
          match recognizer_ m with
          | None => Stops (undefined_behaviour null_dereference)
          | Some r =>
              '(r, evs) <~ of_outcome
                             (Table.recognize r audioData true true (curl w)) ;;
              Returns (deliver (with_recognizer m (Some r)) evs)
          end
    end.

(** [VoiceInputManager::handleStateTransition] *)
Definition handleStateTransition (m : VoiceInputManager) (event : KeyEvent)
  (w : world) : fate (VoiceInputManager * list output) :=
  match state_ m with
  | Idle =>
      if isDualShiftPressed m && negb (isRelease event) then
        m <~ startRecording m ;; Returns (m, [])
      else Returns (m, [])
  | Recording =>
      if isRelease event && ((sym event =? FcitxKey_Shift_L)
                             || (sym event =? FcitxKey_Shift_R))
      then stopRecording m w
      else Returns (m, [])
  | Processing => Returns (m, [])
  | Result => Returns (setState m Idle, [])
  end.

(** [VoiceInputManager::handleKeyEvent] *)
Definition handleKeyEvent (m : VoiceInputManager) (event : KeyEvent) (w : world)
  : fate (VoiceInputManager * list output) :=
  if negb (config_enabled m) then Returns (m, [])
  else
    let m :=
      if sym event =? FcitxKey_Shift_L
      then with_leftShiftPressed m (negb (isRelease event))
      else if sym event =? FcitxKey_Shift_R
      then with_rightShiftPressed m (negb (isRelease event))
      else m in
    handleStateTransition m event w.

(** The calls a user of the manager makes while it runs, apart from
    [insertResult] and [setConfig]. *)
Inductive call : Type :=
| on_key (event : KeyEvent)
| on_start                          (* startRecording() *)
| on_stop                           (* stopRecording() *)
| on_context (inputContext : bool). (* setInputContext(...) *)

Definition step (m : VoiceInputManager) (c : call) (w : world)
  : fate (VoiceInputManager * list output) :=
  match c with
  | on_key event => handleKeyEvent m event w
  | on_start => m <~ startRecording m ;; Returns (m, [])
  | on_stop => stopRecording m w
  | on_context inputContext => Returns (setInputContext m inputContext, [])
  end.

Fixpoint run (m : VoiceInputManager) (calls : list (call * world))
  : fate (VoiceInputManager * list output) :=
  match calls with
  | [] => Returns (m, [])
  | (c, w) :: rest =>
      '(m, out) <~ step m c w ;;
      '(m, more) <~ run m rest ;;
      Returns (m, out ++ more)%list
  end.

End Voice.

Definition is_commit (o : Voice.output) : bool :=
  match o with Voice.commitString _ => true | _ => false end.

(** Whether the seven calls of one [initALSA] all succeed. *)
Definition setup_ok (s : Capture.alsa_setup) : bool :=
  fst (Capture.initALSA Capture.new_capture s).

(** *** Sample runs of the table engine's voice input *)

Definition table_ready : Table.VolcengineRecognizer :=
  snd (Table.init
         (Table.setCluster
            (Table.setToken (Table.setAppId Table.new_recognizer "app") "token")
            "cluster")
         true).

(** An answer in the format [parseResponse] expects. *)
Definition table_answer : string :=
  jq "{'code':0,'message':'success','data':{'result':'hello'}}".

Definition table_curl : Table.curl_env :=
  Table.mk_curl_env true
    [Table.reads 1 4; Table.reads 1 4; Table.reads 1 4;
     Table.writes table_answer]
    true.

Definition table_curl_down : Table.curl_env :=
  Table.mk_curl_env true [Table.reads 1 4] false.

Definition alsa_fine : Capture.alsa_setup :=
  Capture.mk_alsa_setup 0 0 0 0 0 0 0.

Definition alsa_capture : Capture.AudioCapture :=
  snd (Capture.init Capture.new_capture
         (Capture.mk_devices false alsa_fine false alsa_fine)).

Definition pulse_capture : Capture.AudioCapture :=
  snd (Capture.init Capture.new_capture
         (Capture.mk_devices true alsa_fine true alsa_fine)).

Definition alsa_session : Capture.recording :=
  Capture.mk_recording []
    0 [Capture.mk_alsa_read 2 0 "abcdefgh"; Capture.mk_alsa_read (-32) 0 "abcdefgh";
       Capture.mk_alsa_read 1 0 "ijcdefgh"].

Definition pulse_session : Capture.recording :=
  Capture.mk_recording [(0, "abcd"); (0, "efgh"); (-1, "efgh")] 0 [].

Definition ready_manager : Voice.VoiceInputManager :=
  Voice.setInputContext
    (snd (Voice.init
            (Voice.setConfig Voice.new_manager "app" "token" "cluster" true)
            (Capture.mk_devices false alsa_fine false alsa_fine) true))
    true.

Definition press (sym : Z) : Voice.call := Voice.on_key (Voice.mk_key sym false).
Definition release (sym : Z) : Voice.call := Voice.on_key (Voice.mk_key sym true).

Definition voice_world : Voice.world := Voice.mk_world alsa_session table_curl.

(** Both shift keys go down, the left one goes up, a letter is typed. *)
Definition voice_calls : list (Voice.call * Voice.world) :=
  [(press Voice.FcitxKey_Shift_L, voice_world);
   (press Voice.FcitxKey_Shift_R, voice_world);
   (release Voice.FcitxKey_Shift_L, voice_world);
   (press 97, voice_world)].

(** The manager once both shift keys are down. *)
Definition recording_manager : Voice.VoiceInputManager :=
  match Voice.run ready_manager (firstn 2 voice_calls) with
  | Returns (m, _) => m
  | Stops _ => ready_manager
  end.

(** The recognizer once [recognize] has stored a request. *)
Definition stored_request : Table.VolcengineRecognizer :=
  Table.store_request table_ready "abcdefghij" true true.

Definition release_left : Voice.KeyEvent :=
  Voice.mk_key Voice.FcitxKey_Shift_L true.

Definition press_right : Voice.KeyEvent :=
  Voice.mk_key Voice.FcitxKey_Shift_R false.

(** The manager with the left shift key down. *)
Definition half_pressed_manager : Voice.VoiceInputManager :=
  match Voice.run ready_manager (firstn 1 voice_calls) with
  | Returns (m, _) => m
  | Stops _ => ready_manager
  end.

(* ================================================================== *)
(** * Properties *)
(* ================================================================== *)

(** ** Byte strings *)

Lemma byte_val_chr z : byte_val (chr z) = z mod 256.
Proof.
  unfold byte_val, chr.
  rewrite N_ascii_embedding.
  - rewrite Z2N.id; [reflexivity|]. apply Z.mod_pos_bound. lia.
  - assert (0 <= z mod 256 < 256) by (apply Z.mod_pos_bound; lia). lia.
Qed.

Lemma length_append (a b : string) :
  String.length (a ++ b) = (String.length a + String.length b)%nat.
Proof. induction a; simpl; auto. Qed.

Lemma size_String c s : size (String c s) = 1 + size s.
Proof. unfold size. cbn [String.length]. lia. Qed.

Lemma size_append a b : size (a ++ b) = size a + size b.
Proof. unfold size. rewrite length_append. lia. Qed.

Lemma size_nonneg s : 0 <= size s.
Proof. unfold size. lia. Qed.

Lemma append_assoc (a b c : string) : (a ++ b) ++ c = a ++ (b ++ c).
Proof. induction a; simpl; congruence. Qed.

Lemma get_append_r (a b : string) (n : nat) :
  String.get (String.length a + n) (a ++ b) = String.get n b.
Proof. induction a; simpl; auto. Qed.

Lemma char_at_append_r (p r : string) (i : Z) :
  0 <= i -> char_at (p ++ r) (size p + i) = char_at r i.
Proof.
  intros Hi. unfold char_at. rewrite size_append.
  assert (Hp := size_nonneg p).
  replace (Z.to_nat (size p + i)) with (String.length p + Z.to_nat i)%nat
    by (unfold size; lia).
  rewrite get_append_r.
  replace (0 <=? size p + i) with true by (symmetry; apply Z.leb_le; lia).
  replace (0 <=? i) with true by (symmetry; apply Z.leb_le; lia).
  replace (size p + i <? size p + size r) with (i <? size r)
    by (destruct (Z.ltb_spec i (size r)), (Z.ltb_spec (size p + i) (size p + size r)); lia).
  replace (size p + i =? size p + size r) with (i =? size r)
    by (destruct (Z.eqb_spec i (size r)), (Z.eqb_spec (size p + i) (size p + size r)); lia).
  reflexivity.
Qed.

Lemma char_at_head c s : char_at (String c s) 0 = Ok (byte_val c).
Proof.
  unfold char_at. rewrite size_String. assert (H := size_nonneg s).
  replace (0 <? 1 + size s) with true by (symmetry; apply Z.ltb_lt; lia).
  reflexivity.
Qed.

Lemma char_at_tail c s i : 0 <= i -> char_at (String c s) (1 + i) = char_at s i.
Proof.
  intros. change (String c s) with (String c "" ++ s).
  change 1 with (size (String c "")). now apply char_at_append_r.
Qed.

Lemma be32_bytes v :
  0 <= v < 2 ^ 32 ->
  Z.shiftl ((Z.shiftr v 24) mod 256) 24 + Z.shiftl ((Z.shiftr v 16) mod 256) 16
  + Z.shiftl ((Z.shiftr v 8) mod 256) 8 + v mod 256 = v.
Proof.
  intros Hv. rewrite !Z.shiftl_mul_pow2, !Z.shiftr_div_pow2 by lia.
  change (2 ^ 24) with 16777216. change (2 ^ 16) with 65536.
  change (2 ^ 8) with 256. change (2 ^ 32) with 4294967296 in Hv.
  pose proof (Z.div_mod v 256 ltac:(lia)).
  pose proof (Z.div_mod v 65536 ltac:(lia)).
  pose proof (Z.div_mod v 16777216 ltac:(lia)).
  pose proof (Z.mod_pos_bound v 256 ltac:(lia)).
  pose proof (Z.mod_pos_bound v 65536 ltac:(lia)).
  pose proof (Z.mod_pos_bound v 16777216 ltac:(lia)).
  pose proof (Z.div_mod (v / 256) 256 ltac:(lia)).
  pose proof (Z.div_mod (v / 65536) 256 ltac:(lia)).
  pose proof (Z.div_mod (v / 16777216) 256 ltac:(lia)).
  pose proof (Z.mod_pos_bound (v / 256) 256 ltac:(lia)).
  pose proof (Z.mod_pos_bound (v / 65536) 256 ltac:(lia)).
  pose proof (Z.mod_pos_bound (v / 16777216) 256 ltac:(lia)).
  assert (v / 256 / 256 = v / 65536) by (rewrite Z.div_div by lia; reflexivity).
  assert (v / 65536 / 256 = v / 16777216) by (rewrite Z.div_div by lia; reflexivity).
  assert (v / 16777216 / 256 = 0) by (rewrite Z.div_div by lia; apply Z.div_small; lia).
  lia.
Qed.

Lemma u32_at_be32 (p r : string) (n : Z) :
  u32_at (p ++ be32 n ++ r) (size p) = Ok (n mod 2 ^ 32).
Proof.
  unfold u32_at.
  assert (Hr : 0 <= n mod 2 ^ 32 < 2 ^ 32) by (apply Z.mod_pos_bound; lia).
  unfold be32. set (v := n mod 2 ^ 32) in *.
  cbn [append str1].
  rewrite <- (Z.add_0_r (size p)) at 1.
  rewrite !char_at_append_r by lia.
  rewrite char_at_head. cbn [bind].
  rewrite (char_at_tail _ _ 0) by lia. rewrite char_at_head. cbn [bind].
  change 2 with (1 + 1). rewrite (char_at_tail _ _ (1 + 0)), (char_at_tail _ _ 0) by lia.
  rewrite char_at_head. cbn [bind].
  change 3 with (1 + (1 + 1)).
  rewrite (char_at_tail _ _ (1 + 1)), (char_at_tail _ _ 1) by lia.
  rewrite (char_at_tail _ _ 0) by lia.
  rewrite char_at_head. cbn [bind].
  rewrite !byte_val_chr. f_equal. now apply be32_bytes.
Qed.

Lemma substring_all (s : string) : String.substring 0 (String.length s) s = s.
Proof. induction s; simpl; congruence. Qed.

Lemma substring_append_r (p b : string) :
  String.substring (String.length p) (String.length b) (p ++ b) = b.
Proof. induction p; simpl; auto using substring_all. Qed.

Lemma substr_append_r (p b : string) :
  substr (p ++ b) (size p) (size b) = Ok b.
Proof.
  unfold substr. rewrite size_append.
  assert (Hb := size_nonneg b). assert (Hp := size_nonneg p).
  replace (size p >? size p + size b) with false
    by (symmetry; rewrite Z.gtb_ltb; apply Z.ltb_ge; lia).
  replace (Z.min (size b) (size p + size b - size p)) with (size b) by lia.
  unfold size. rewrite !Nat2Z.id. now rewrite substring_append_r.
Qed.

(** ** The JSON parser on sample texts *)

Example parse_terminal_result :
  Json.parse (jq "{'result':'你好','sequence':-1}")
  = Some (Json.object [("result", Json.jstring "你好");
                       ("sequence", Json.number_integer (-1))]).
Proof. vm_compute. reflexivity. Qed.

Example parse_rejects_trailing_comma : Json.parse "[1,]" = None.
Proof. reflexivity. Qed.

Example parse_surrogate_pair :
  Json.parse (jq "'\ud83d\uDE00'")
  = Some (Json.jstring (str1 0xF0 ++ str1 0x9F ++ str1 0x98 ++ str1 0x80)).
Proof. vm_compute. reflexivity. Qed.

Example parse_number_kinds :
  Json.parse "[0, -0, 18446744073709551615, 18446744073709551616, 1.5e3, -9223372036854775808]"
  = Some (Json.array [Json.number_unsigned 0; Json.number_integer 0;
                      Json.number_unsigned 18446744073709551615;
                      Json.number_float "18446744073709551616";
                      Json.number_float "1.5e3";
                      Json.number_integer (-9223372036854775808)]).
Proof. vm_compute. reflexivity. Qed.

Example parse_rejects_infinite_double :
  Json.parse "1.7976931348623159e308" = None
  /\ Json.parse "1.7976931348623158e308"
     = Some (Json.number_float "1.7976931348623158e308").
Proof. vm_compute. split; reflexivity. Qed.

Example parse_stops_at_nul :
  Json.parse ("1" ++ str1 0 ++ "]") = Some (Json.number_unsigned 1).
Proof. vm_compute. reflexivity. Qed.

Example parse_empty_text : Json.parse "" = None.
Proof. reflexivity. Qed.

(** ** Decoding server frames *)

Section Decoding.

Variable gzip_decompress : string -> option string.

(** The three header bytes [parse_response] reads. *)
Lemma response_header_bytes t f r :
  exists b1,
    char_at (response_header t f JSON GZIP ++ r) 0 = Ok 17
    /\ char_at (response_header t f JSON GZIP ++ r) 1 = Ok b1
    /\ char_at (response_header t f JSON GZIP ++ r) 2 = Ok 17
    /\ Z.shiftr (Z.land b1 0xf0) 4 = MessageType_val t
    /\ size (response_header t f JSON GZIP) = 4.
Proof.
  exists (byte_val (chr (Z.lor (Z.shiftl (MessageType_val t) 4)
                               (MessageTypeFlag_val f)))).
  unfold response_header. cbn [append str1].
  split; [|split; [|split; [|split]]].
  - now rewrite char_at_head.
  - rewrite (char_at_tail _ _ 0) by lia. now rewrite char_at_head.
  - change 2 with (1 + (1 + 0)). rewrite !char_at_tail by lia.
    now rewrite char_at_head.
  - destruct t, f; reflexivity.
  - reflexivity.
Qed.

Ltac read_header t f r :=
  destruct (response_header_bytes t f r) as (b1 & H0 & H1 & H2 & Hb1 & Hs);
  unfold Asr.parse_response;
  rewrite H0, H1, H2; cbn [bind];
  change (Z.shiftl (Z.land 17 15) 2) with 4;
  rewrite Hb1;
  change (Z.shiftr (Z.land 17 240) 4) with 1;
  change (Z.land 17 15) with 1;
  unfold Asr.payload_layout.

Ltac decode_payload Hgz :=
  change (1 =? MessageCompress_val GZIP) with true;
  change (1 =? MessageSerial_val JSON) with true;
  match goal with
  | |- context [size ?body >? 0] =>
      replace (size body >? 0) with true
        by (symmetry; rewrite Z.gtb_ltb; apply Z.ltb_lt; lia)
  end;
  cbn [andb];
  rewrite substr_append_r; cbn [bind]; rewrite Hgz; cbn [bind];
  unfold decoded;
  match goal with
  | |- context [empty ?text] =>
      destruct (empty text); cbn [negb];
      [ reflexivity
      | destruct (Json.parse text) as [j|]; [|reflexivity];
        match goal with
        | |- context [Asr.interpret ?c j] => destruct (Asr.interpret c j)
        end; reflexivity ]
  end.

Lemma parse_full_server_response c f body text msg0 :
  0 < size body < 2 ^ 32 ->
  gzip_decompress body = Some text ->
  Asr.parse_response gzip_decompress c
    (full_server_response f JSON GZIP body) msg0
  = Ok (decoded c text msg0).
Proof.
  intros Hsize Hgz. unfold full_server_response.
  set (r := be32 (size body) ++ body).
  read_header FULL_SERVER_RESPONSE f r.
  change (MessageType_val FULL_SERVER_RESPONSE =? MessageType_val FULL_SERVER_RESPONSE)
    with true. cbv iota.
  subst r. rewrite <- Hs at 1. rewrite u32_at_be32. cbn [bind].
  rewrite Z.mod_small by lia.
  rewrite <- append_assoc.
  replace (4 + 4) with (size (response_header FULL_SERVER_RESPONSE f JSON GZIP
                              ++ be32 (size body)))
    by (rewrite size_append, Hs; reflexivity).
  decode_payload Hgz.
Qed.

Lemma size_be32 n : size (be32 n) = 4.
Proof. reflexivity. Qed.


End Decoding.

(** ** What [on_message] does with a decoded frame *)

Lemma closes_app a b : closes (a ++ b) = (closes a + closes b)%nat.
Proof. unfold closes. now rewrite List.filter_app, List.length_app. Qed.

Lemma closes_adapter_on_message a msg : closes (Adapter.on_message a msg) = 0%nat.
Proof.
  unfold Adapter.on_message.
  destruct (onResult_ a); [|reflexivity].
  destruct (Json.parse msg) as [j|].
  - destruct (Json.contains j "result"); [|reflexivity].
    destruct (Json.get_string _); [reflexivity|].
    destruct (onError_ a); reflexivity.
  - destruct (onError_ a); reflexivity.
Qed.




Lemma empty_spec s : empty s = true <-> s = "".
Proof. destruct s; cbn; split; congruence. Qed.

Lemma on_message_of_parse gz c frame ret msg c' :
  Asr.parse_response gz c frame "" = Ok (ret, msg, c') ->
  Asr.on_message gz c frame
  = Ok (c', (match _asr_callback c' with
             | Some a => Adapter.on_message a msg
             | None => []
             end ++ if ret =? 0 then [] else [ws_close])%list).
Proof.
  intros H. unfold Asr.on_message. rewrite H. cbn [bind].
  destruct (ret =? 0); cbn [negb]; [now rewrite List.app_nil_r|reflexivity].
Qed.




(** C7.  A FullServerResponse frame whose gzip payload decompresses to
    {"result":"你好","sequence":-1}, received by a client whose adapter holds
    a result callback: [on_message] runs exactly one callback, the result
    callback with ("你好", true), runs no error callback, and leaves
    [_recv_last_msg] set. *)
Theorem terminal_result_frame_yields_one_result :
  forall gzip_decompress c a f body,
    0 < size body < 2 ^ 32 ->
    gzip_decompress body = Some (jq "{'result':'你好','sequence':-1}") ->
    _asr_callback c = Some a ->
    onResult_ a = true ->
    exists c',
      Asr.on_message gzip_decompress c (full_server_response f JSON GZIP body)
      = Ok (c', [call_onResult "你好" true])
      /\ _recv_last_msg c' = true.
Proof.
  intros gz c a f body Hsize Hgz Hcb Hres.
  pose proof (parse_full_server_response gz c f body _ "" Hsize Hgz) as Hp.
  change (decoded c (jq "{'result':'你好','sequence':-1}") "")
    with (0, jq "{'result':'你好','sequence':-1}", with_recv_last_msg c true) in Hp.
  exists (with_recv_last_msg c true). split; [|reflexivity].
  rewrite (on_message_of_parse _ _ _ _ _ _ Hp).
  change (_asr_callback (with_recv_last_msg c true)) with (_asr_callback c).
  rewrite Hcb. unfold Adapter.on_message. rewrite Hres. reflexivity.
Qed.

Lemma terminal_result_frame_yields_one_result_witness :
  (0 < size terminal_gz < 2 ^ 32)
  /\ Gzip.gunzip terminal_gz = Some (jq "{'result':'你好','sequence':-1}")
  /\ _asr_callback listening_client = Some (mk_adapter true true)
  /\ onResult_ (mk_adapter true true) = true
  /\ exists c',
      Asr.on_message Gzip.gunzip listening_client
        (full_server_response NEGATIVE_SEQUENCE_SERVER_ASSGIN JSON GZIP terminal_gz)
      = Ok (c', [call_onResult "你好" true])
      /\ _recv_last_msg c' = true.
Proof.
  split; [vm_compute; split; reflexivity|].
  split; [vm_compute; reflexivity|].
  split; [reflexivity|]. split; [reflexivity|].
  apply (terminal_result_frame_yields_one_result Gzip.gunzip listening_client
           (mk_adapter true true) NEGATIVE_SEQUENCE_SERVER_ASSGIN terminal_gz).
  - vm_compute; split; reflexivity.
  - vm_compute; reflexivity.
  - reflexivity.
  - reflexivity.
Defined.

(** The same frame written out byte by byte. *)
Example terminal_frame_decoded :
  terminal_frame
  = full_server_response NEGATIVE_SEQUENCE_SERVER_ASSGIN JSON GZIP terminal_gz
  /\ Asr.on_message Gzip.gunzip listening_client terminal_frame
     = Ok (with_recv_last_msg listening_client true, [call_onResult "你好" true]).
Proof. vm_compute. split; reflexivity. Qed.

Lemma parse_empty : Json.parse "" = None.
Proof. reflexivity. Qed.

(** C2, what the code does.  A FullServerResponse frame whose payload is
    JSON with a negative integer [sequence] and no error code: [on_message]
    hands the payload to the message callback and sets [_recv_last_msg],
    and the trace holds no closure request. *)
Theorem terminal_frame_is_not_closed :
  forall gzip_decompress c f body text j,
    0 < size body < 2 ^ 32 ->
    gzip_decompress body = Some text ->
    Json.parse text = Some j ->
    Asr.terminal j = true ->
    Asr.application_error j = false ->
    exists tr,
      Asr.on_message gzip_decompress c (full_server_response f JSON GZIP body)
      = Ok (with_recv_last_msg c true, tr)
      /\ tr = match _asr_callback c with
              | Some a => Adapter.on_message a text
              | None => []
              end
      /\ closes tr = 0%nat.
Proof.
  intros gz c f body text j Hsize Hgz Hj Hterm Herr.
  pose proof (parse_full_server_response gz c f body text "" Hsize Hgz) as Hp.
  assert (Hd : decoded c text "" = (0, text, with_recv_last_msg c true)).
  { unfold decoded. destruct (empty text) eqn:He.
    - apply empty_spec in He. subst. rewrite parse_empty in Hj. discriminate.
    - rewrite Hj. unfold Asr.interpret. rewrite Herr, Hterm. reflexivity. }
  rewrite Hd in Hp. eexists. split; [|split].
  - rewrite (on_message_of_parse _ _ _ _ _ _ Hp).
    change (_asr_callback (with_recv_last_msg c true)) with (_asr_callback c).
    change (0 =? 0) with true. cbv iota. rewrite List.app_nil_r. reflexivity.
  - reflexivity.
  - destruct (_asr_callback c); [apply closes_adapter_on_message|reflexivity].
Qed.

Lemma terminal_frame_is_not_closed_witness :
  (0 < size last_gz < 2 ^ 32)
  /\ Gzip.gunzip last_gz = Some (jq "{'code':1000,'sequence':-1,'result':'ok'}")
  /\ Json.parse (jq "{'code':1000,'sequence':-1,'result':'ok'}")
     = Some (Json.object [("code", Json.number_unsigned 1000);
                          ("sequence", Json.number_integer (-1));
                          ("result", Json.jstring "ok")])
  /\ exists tr,
      Asr.on_message Gzip.gunzip listening_client
        (full_server_response NEGATIVE_SEQUENCE_SERVER_ASSGIN JSON GZIP last_gz)
      = Ok (with_recv_last_msg listening_client true, tr)
      /\ tr = match _asr_callback listening_client with
              | Some a =>
                  Adapter.on_message a (jq "{'code':1000,'sequence':-1,'result':'ok'}")
              | None => []
              end
      /\ closes tr = 0%nat.
Proof.
  split; [vm_compute; split; reflexivity|].
  split; [vm_compute; reflexivity|].
  split; [vm_compute; reflexivity|].
  apply (terminal_frame_is_not_closed Gzip.gunzip listening_client
           NEGATIVE_SEQUENCE_SERVER_ASSGIN last_gz
           (jq "{'code':1000,'sequence':-1,'result':'ok'}")
           (Json.object [("code", Json.number_unsigned 1000);
                         ("sequence", Json.number_integer (-1));
                         ("result", Json.jstring "ok")])).
  - vm_compute; split; reflexivity.
  - vm_compute; reflexivity.
  - vm_compute; reflexivity.
  - reflexivity.
  - reflexivity.
Defined.

(** The frame of the last message of a session, byte by byte: the result
    reaches the callback and the connection is left open. *)
Example last_frame_decoded :
  last_frame
  = full_server_response NEGATIVE_SEQUENCE_SERVER_ASSGIN JSON GZIP last_gz
  /\ Asr.on_message Gzip.gunzip listening_client last_frame
     = Ok (with_recv_last_msg listening_client true, [call_onResult "ok" true]).
Proof. vm_compute. split; reflexivity. Qed.

(** ** Audio frames *)

(** C5.  Whatever the audio and the compressor, the frame [send_audio] hands
    to the connection has in its second byte the message type
    AudioOnlyClientRequest and the flag NegativeSequenceServerAssigned when
    [is_last] holds, NoSequenceNumber when it does not. *)
Theorem audio_frame_header :
  forall gzip_compress c con audio is_last ec,
    exists frame b1,
      Asr.send_audio gzip_compress (with_con c (Some con)) audio is_last ec
      = Ok (ec, [ws_send frame])
      /\ frame = Asr.audio_payload gzip_compress audio is_last
      /\ String.get 1 frame = Some b1
      /\ Z.shiftr (Z.land (byte_val b1) 0xf0) 4
         = MessageType_val AUDIO_ONLY_CLIENT_REQUEST
      /\ Z.land (byte_val b1) 0x0f
         = MessageTypeFlag_val (if is_last then NEGATIVE_SEQUENCE_SERVER_ASSGIN
                                else NO_SEQUENCE_NUMBER).
Proof.
  intros gz c con audio is_last ec.
  exists (Asr.audio_payload gz audio is_last).
  destruct is_last; eexists; (split; [reflexivity|]); (split; [reflexivity|]);
    (split; [reflexivity|]); split; reflexivity.
Qed.

(** The whole header, and the length field that follows it. *)
Lemma audio_payload_layout gzip_compress audio is_last :
  Asr.audio_payload gzip_compress audio is_last
  = unhex (if is_last then "11221100" else "11201100")
    ++ be32 (size (gzip_compress audio)) ++ gzip_compress audio.
Proof. destruct is_last; reflexivity. Qed.

(** ** Certificate verification *)

(** C8.  For every hostname and every certificate, the callback accepts a
    preverified leaf certificate (depth 0), whatever the two name checks
    say. *)
Theorem verify_certificate_accepts_any_leaf :
  forall hostname cert,
    Tls.verify_certificate hostname true (Tls.mk_ctx 0 cert) = true.
Proof.
  intros hostname cert. unfold Tls.verify_certificate. cbn.
  destruct (Tls.verify_subject_alternative_name hostname cert); [reflexivity|].
  destruct (Tls.verify_common_name hostname cert); reflexivity.
Qed.

(** It accepts every other input as well. *)
Lemma verify_certificate_accepts_all hostname preverified ctx :
  Tls.verify_certificate hostname preverified ctx = true.
Proof.
  unfold Tls.verify_certificate.
  destruct ((Tls.error_depth ctx =? 0) && preverified); [|reflexivity].
  destruct (Tls.verify_subject_alternative_name _ _); [reflexivity|].
  destruct (Tls.verify_common_name _ _); reflexivity.
Qed.

(** A certificate for another host: both checks fail, the callback
    succeeds. *)
Example mismatch_is_accepted :
  let cert := Tls.mk_X509 (Some [Tls.GEN_DNS "example.org"])
                          [Tls.mk_entry Tls.NID_commonName (Some "example.org")] in
  Tls.verify_subject_alternative_name "openspeech.bytedance.com" cert = false
  /\ Tls.verify_common_name "openspeech.bytedance.com" cert = false
  /\ Tls.verify_subject_alternative_name "Example.ORG" cert = true
  /\ Tls.verify_certificate "openspeech.bytedance.com" true (Tls.mk_ctx 0 cert)
     = true.
Proof. vm_compute. repeat split. Qed.

(** ** Closing *)

(** C9, what the code does.  On a client that has not connected, [_con] is
    empty and [close] dereferences it; so does the destructor, which calls
    [close] first. *)
Theorem close_before_connect_is_undefined :
  forall reqid ec,
    _con (new_client reqid) = None
    /\ Asr.close (new_client reqid) ec = Undefined null_dereference
    /\ Asr.destroy (new_client reqid) ec = Undefined null_dereference.
Proof. intros reqid ec. repeat split. Qed.

(** The client of a recognizer that was initialised and never used. *)
Example destroy_after_init :
  match Asr.asrClient_ ready_recognizer with
  | Some c => Asr.destroy c 0
  | None => Ok []
  end = Undefined null_dereference.
Proof. reflexivity. Qed.

(** Once a connection object exists, every call asks for a normal closure
    and leaves the client as it was. *)
Lemma close_after_connect c con ec :
  Asr.close (with_con c (Some con)) ec = Ok (ec, [ws_close]).
Proof. reflexivity. Qed.

(** ** The Authorization header *)

Lemma map_string_append f a b :
  map_string f (a ++ b) = map_string f a ++ map_string f b.
Proof. induction a; simpl; congruence. Qed.

Lemma url_safe_append a b : url_safe (a ++ b) = url_safe a ++ url_safe b.
Proof. unfold url_safe, replace. now rewrite !map_string_append. Qed.

(** With signature authentication the two replacements run over the whole
    header value, the token included. *)
Lemma authorization_signature HMAC_SHA256 base64_encode user_agent c con :
  _auth_type c = SIGNATURE ->
  Asr.authorization HMAC_SHA256 base64_encode user_agent c con
  = jq "HMAC256; access_token='" ++ url_safe (_token c) ++ jq "'; mac='"
    ++ url_safe (c_str (base64_encode
                          (HMAC_SHA256 (_sk c)
                                       (Asr.canonical_string user_agent c con))))
    ++ jq "'; h='User-Agent'".
Proof.
  intros H. unfold Asr.authorization. rewrite H.
  now rewrite !url_safe_append.
Qed.

(** A token without '+' and '/' does pass through unchanged. *)
Lemma url_safe_unchanged s :
  (forall c, In c (list_ascii_of_string s) -> c <> "+"%char /\ c <> "/"%char) ->
  url_safe s = s.
Proof.
  unfold url_safe, replace. induction s as [|c s IH]; intros H; [reflexivity|].
  cbn [map_string]. destruct (H c (or_introl eq_refl)) as [Hp Hs].
  apply Ascii.eqb_neq in Hp, Hs. rewrite Hp, Hs.
  f_equal. apply IH. intros d Hd. apply H. now right.
Qed.

(** C4, what the code does.  With the token a+b/c the header carries
    access_token="a-b_c": the token is not emitted verbatim. *)
Theorem signature_header_rewrites_token :
  forall HMAC_SHA256 base64_encode user_agent c con,
    Asr.authorization HMAC_SHA256 base64_encode user_agent
                      (set_token (set_auth_type c SIGNATURE) "a+b/c") con
    = jq "HMAC256; access_token='a-b_c'; mac='"
      ++ url_safe (c_str (base64_encode
                            (HMAC_SHA256 (_sk c)
                               (Asr.canonical_string user_agent c con))))
      ++ jq "'; h='User-Agent'".
Proof.
  intros. rewrite authorization_signature by reflexivity. reflexivity.
Qed.

(** The header for a sample key and request frame, with the reference
    HMAC-SHA256 and base64. *)
Example signature_header_sample :
  Asr.authorization Sha256.hmac Base64.encode Reference.user_agent
    (with_full_req_param
       (set_secret_key (set_token (set_auth_type (new_client "r") SIGNATURE) "a+b/c")
                       "secret")
       (unhex "1110110000000000"))
    (mk_connection "/api/v2/asr" [])
  = jq "HMAC256; access_token='a-b_c'; mac='7H9r9rxS56Grr_CYhS0hxukmPeB8JWeJC8Z19hosj50='; h='User-Agent'".
Proof. vm_compute. reflexivity. Qed.

(** ** Sessions *)

Section Sessions.

Variable gzip_compress : string -> string.
Variable gzip_decompress : string -> option string.
Variable dump : Json.value -> option string.
Variable HMAC_SHA256 : string -> string -> string.
Variable base64_encode : string -> string.
Variable user_agent : string.
Variable get_connection : string -> option connection.

Let sync_connect :=
  Asr.sync_connect gzip_compress gzip_decompress dump HMAC_SHA256
                   base64_encode user_agent get_connection.
Let recognize :=
  Asr.recognize gzip_compress gzip_decompress dump HMAC_SHA256
                base64_encode user_agent get_connection.
Let session :=
  Asr.session gzip_compress gzip_decompress dump HMAC_SHA256
              base64_encode user_agent get_connection.
Let connect :=
  Asr.connect gzip_compress dump HMAC_SHA256 base64_encode user_agent
              get_connection.

(** What [recognize] does once [sync_connect] has returned true. *)
Lemma recognize_after_connect r c audioData onResult onError env c1 con before :
  Asr.isReady_ r = true ->
  empty audioData = false ->
  Asr.asrClient_ r = Some c ->
  sync_connect (set_callback c (Some (mk_adapter onResult onError))) 10
               (Asr.init_asio_ok env) (Asr.arrived_during_connect env)
  = Ok (c1, true, before) ->
  _con c1 = Some con ->
  recognize r audioData onResult onError env
  = Ok (Asr.with_adapter r c1 (mk_adapter onResult onError),
        before
        ++ [ws_send (Asr.audio_payload gzip_compress audioData true)]
        ++ (if Asr.send_ec env =? 0 then []
            else Asr.error_if onError "Failed to send audio data")
        ++ [ws_close])%list.
Proof.
  intros Hready Haudio Hclient Hconn Hcon.
  unfold recognize, Asr.recognize. rewrite Hready, Haudio, Hclient. cbn [negb].
  unfold sync_connect in Hconn. rewrite Hconn. cbn [bind negb].
  unfold Asr.send_audio, Asr.close. rewrite Hcon. cbn [bind].
  destruct (Asr.send_ec env =? 0); reflexivity.
Qed.


(** C10.  In every call that reaches the send step (ready, audio not empty,
    [sync_connect] true on a client with a connection), what [recognize]
    does after connecting is: hand the audio frame, marked last, to the
    connection; report a failed send, if the send failed and there is an
    error callback; ask for the closure.  The closure request is there
    whatever the server has or has not sent: nothing that arrives is
    consulted between the send and the close. *)
Theorem recognize_closes_right_after_send :
  forall r c audioData onResult onError env c1 con before,
    Asr.isReady_ r = true ->
    empty audioData = false ->
    Asr.asrClient_ r = Some c ->
    sync_connect (set_callback c (Some (mk_adapter onResult onError))) 10
                 (Asr.init_asio_ok env) (Asr.arrived_during_connect env)
    = Ok (c1, true, before) ->
    _con c1 = Some con ->
    exists r',
      recognize r audioData onResult onError env
      = Ok (r',
            before
            ++ [ws_send (Asr.audio_payload gzip_compress audioData true)]
            ++ (if Asr.send_ec env =? 0 then []
                else Asr.error_if onError "Failed to send audio data")
            ++ [ws_close])%list.
Proof.
  intros r c audioData onResult onError env c1 con before H1 H2 H3 H4 H5.
  eexists. exact (recognize_after_connect _ _ _ _ _ _ _ _ _ H1 H2 H3 H4 H5).
Qed.

Lemma callbacks_app a b : callbacks (a ++ b) = (callbacks a ++ callbacks b)%list.
Proof. apply List.filter_app. Qed.

(** [connect] runs no callback and, given that [dump] succeeds, returns. *)
Lemma connect_quiet c init_asio_ok text :
  dump (Asr.req_obj c) = Some text ->
  exists c1 ret a1,
    connect c init_asio_ok = Ok (c1, ret, a1)
    /\ callbacks a1 = []
    /\ _connected c1 = _connected c
    /\ _asr_callback c1 = _asr_callback c.
Proof.
  intros Hdump. unfold connect, Asr.connect.
  destruct init_asio_ok; cbn [negb].
  - destruct (get_connection _url) as [con|].
    + unfold Asr.construct_param.
      change (Asr.req_obj (with_con c (Some con))) with (Asr.req_obj c).
      rewrite Hdump. cbn [bind]. do 3 eexists. repeat split.
    + do 3 eexists. repeat split.
  - do 3 eexists. repeat split.
Qed.

(** C3, as amended.  With an error callback: when the call is rejected up
    front (recognizer not initialised, or empty audio), or when no event is
    handled while [sync_connect] waits and none arrives afterwards (a
    connect timeout on a client not marked connected), the whole session
    runs exactly one callback, and it is the error callback. *)
Theorem rejected_call_reports_one_error :
  forall r audioData onResult env,
    (Asr.isReady_ r = false
     \/ audioData = ""
     \/ exists c text,
          Asr.asrClient_ r = Some c
          /\ _connected c = false
          /\ dump (Asr.req_obj c) = Some text
          /\ Asr.arrived_during_connect env = []
          /\ Asr.arrived_later env = []) ->
    exists tr e,
      session r audioData onResult true env = Ok tr
      /\ callbacks tr = [call_onError e].
Proof.
  intros r audioData onResult env H.
  unfold session, Asr.session, Asr.recognize, Asr.io_thread_started.
  destruct (Asr.isReady_ r) eqn:Hready; cbn [negb andb].
  2:{ do 2 eexists. cbn [bind]. destruct (Asr.asrClient_ r); split; reflexivity. }
  destruct (empty audioData) eqn:Haudio; cbn [negb andb].
  { do 2 eexists. cbn [bind]. destruct (Asr.asrClient_ r); split; reflexivity. }
  destruct H as [H | [H | (c & text & Hc & Hconn & Hdump & Hdur & Hlater)]].
  - discriminate.
  - subst. discriminate.
  - rewrite Hc, Hdur, Hlater. unfold Asr.sync_connect.
    destruct (connect_quiet
                (with_use_sync_connect
                   (set_callback c (Some (mk_adapter onResult true))) true)
                (Asr.init_asio_ok env) text Hdump)
      as (c1 & ret & a1 & Hcon & Hquiet & Hsame & _).
    unfold connect in Hcon. rewrite Hcon. cbn [bind].
    replace (if ret =? 0 then [] else []) with (@nil ws_event)
      by (destruct (ret =? 0); reflexivity).
    cbn [Asr.handle_all bind]. rewrite Hsame.
    change (_connected (with_use_sync_connect _ true)) with (_connected c).
    rewrite Hconn. cbn [negb Asr.with_adapter Asr.asrClient_].
    destruct (_ && _); cbn [Asr.handle_all bind]; do 2 eexists;
      (split; [reflexivity|]);
      rewrite !callbacks_app, ?List.app_nil_r, Hquiet; reflexivity.
Qed.

End Sessions.

Lemma recognize_closes_right_after_send_witness :
  exists before r',
    reference_recognize ready_recognizer "pcm" true true
                        (Asr.mk_env true [ev_open] 0 0 [])
    = Ok (r',
          before
          ++ [ws_send (Asr.audio_payload Reference.gzip_store "pcm" true)]
          ++ (if Asr.send_ec (Asr.mk_env true [ev_open] 0 0 []) =? 0 then []
              else Asr.error_if true "Failed to send audio data")
          ++ [ws_close])%list.
Proof.
  eexists. unfold reference_recognize.
  eapply (recognize_closes_right_after_send
            Reference.gzip_store Gzip.gunzip Reference.dump Sha256.hmac
            Base64.encode Reference.user_agent Reference.get_connection).
  - reflexivity.
  - reflexivity.
  - reflexivity.
  - vm_compute. reflexivity.
  - vm_compute. reflexivity.
Defined.

(** The trace of that call: the handshake with the bearer token, the full
    request sent by the open handler, then the audio frame and the closure
    request, nothing in between. *)
Example recognize_trace :
  exists r' full_request,
    reference_recognize ready_recognizer "pcm" true true
                        (Asr.mk_env true [ev_open] 0 0 [])
    = Ok (r', [ws_connect "Bearer; t1"; ws_send full_request;
               ws_send (Asr.audio_payload Reference.gzip_store "pcm" true);
               ws_close]).
Proof. do 2 eexists. vm_compute. reflexivity. Qed.

Lemma rejected_call_reports_one_error_witness :
  exists tr e,
    reference_session ready_recognizer "pcm" true true
                      (Asr.mk_env true [] 0 0 [])
    = Ok tr
    /\ callbacks tr = [call_onError e].
Proof.
  unfold reference_session.
  apply (rejected_call_reports_one_error
           Reference.gzip_store Gzip.gunzip Reference.dump Sha256.hmac
           Base64.encode Reference.user_agent Reference.get_connection).
  right. right. do 2 eexists.
  split; [reflexivity|]. split; [reflexivity|].
  split; [vm_compute; reflexivity|]. split; reflexivity.
Defined.

(** C3, counterexamples.  A connection that fails while [sync_connect] waits
    is reported twice, by the fail handler and by [recognize]; a session in
    which the server sends nothing runs no callback at all; and one in which
    a result arrives and the send then fails runs both callbacks. *)
Lemma sessions_without_exactly_one_callback :
  (exists tr,
     reference_session ready_recognizer "pcm" true true
                       (Asr.mk_env true [ev_fail] 0 0 [])
     = Ok tr
     /\ callbacks tr
        = [call_onError (message "connection error");
           call_onError (message "Failed to connect to Volcengine API")])
  /\ (exists tr,
       reference_session ready_recognizer "pcm" true true
                         (Asr.mk_env true [ev_open] 0 0 [ev_close])
       = Ok tr
       /\ callbacks tr = [])
  /\ (exists tr,
       reference_session ready_recognizer "pcm" true true
                         (Asr.mk_env true [ev_open; ev_message terminal_frame]
                                     1 0 [ev_close])
       = Ok tr
       /\ callbacks tr
          = [call_onResult "你好" true;
             call_onError (message "Failed to send audio data")]).
Proof.
  split; [|split]; eexists; (split; [vm_compute; reflexivity|]); reflexivity.
Qed.

(** ** The reference libraries on known values *)

Example sha256_constants :
  List.length Sha256.K = 64%nat
  /\ List.nth 0 Sha256.K 0 = 0x428a2f98
  /\ List.nth 63 Sha256.K 0 = 0xc67178f2
  /\ List.nth 0 Sha256.H0 0 = 0x6a09e667
  /\ List.nth 7 Sha256.H0 0 = 0x5be0cd19.
Proof. vm_compute. repeat split. Qed.

Example sha256_abc :
  Sha256.sha256 "abc"
  = unhex "ba7816bf8f01cfea414140de5dae2223b00361a396177a9cb410ff61f20015ad".
Proof. vm_compute. reflexivity. Qed.

Example hmac_sha256_sample :
  Sha256.hmac "key" "The quick brown fox jumps over the lazy dog"
  = unhex "f7bc83f430538424b13298e6aa6fb143ef4d59a14946175997479dbc2d1a3cd8".
Proof. vm_compute. reflexivity. Qed.

Example base64_sample : Base64.encode "foob" = "Zm9vYg==".
Proof. vm_compute. reflexivity. Qed.

Example gunzip_sample :
  Gzip.gunzip terminal_gz = Some (jq "{'result':'你好','sequence':-1}")
  /\ Gzip.gunzip (Reference.gzip_store "pcm") = Some "pcm".
Proof. vm_compute. split; reflexivity. Qed.

(** ** More on decoding *)

Lemma interpret_cases c j :
  Asr.interpret c j = (-1, c)
  \/ Asr.interpret c j = (0, c)
  \/ Asr.interpret c j = (0, with_recv_last_msg c true).
Proof.
  unfold Asr.interpret.
  destruct (Asr.application_error j); [now left|].
  destruct (Asr.terminal j); [now right; right | now right; left].
Qed.

(** X1.  Whatever the frame, when [parse_response] returns, the value is 0
    or -1, the client is untouched except that [_recv_last_msg] may have
    been set, and a failure never sets it. *)
Theorem parse_response_shape :
  forall gzip_decompress c response msg0 ret msg c',
    Asr.parse_response gzip_decompress c response msg0 = Ok (ret, msg, c') ->
    (ret = 0 \/ ret = -1)
    /\ (c' = c \/ c' = with_recv_last_msg c true)
    /\ (ret = -1 -> c' = c).
Proof.
  intros gz c response msg0 ret msg c'. unfold Asr.parse_response.
  destruct (char_at response 0) as [b0| |]; cbn [bind]; try discriminate.
  destruct (char_at response 1) as [b1| |]; cbn [bind]; try discriminate.
  destruct (char_at response 2) as [b2| |]; cbn [bind]; try discriminate.
  destruct (Asr.payload_layout _ _ _) as [[[off len]|]| |]; cbn [bind];
    try discriminate.
  2:{ intros H; inversion H; subst. auto. }
  match goal with
  | |- context [bind ?m _] => destruct m as [payload| |]; cbn [bind];
                              try discriminate
  end.
  assert (Hi : forall j r (m k : string),
             (let '(ret0, c0) := Asr.interpret c j in Ok (ret0, m, c0))
             = Ok (r, k, c') ->
             (r = 0 \/ r = -1) /\ (c' = c \/ c' = with_recv_last_msg c true)
             /\ (r = -1 -> c' = c)).
  { intros j r m k.
    destruct (interpret_cases c j) as [-> | [-> | ->]]; intros H;
      inversion H; subst; repeat split; auto; discriminate. }
  destruct (_ && negb (empty payload)).
  - destruct (Json.parse payload) as [j|].
    + apply Hi.
    + intros H; inversion H; subst. auto.
  - apply Hi.
Qed.

Lemma parse_response_shape_witness :
  (0 = 0 \/ 0 = -1)
  /\ (with_recv_last_msg listening_client true = listening_client
      \/ with_recv_last_msg listening_client true
         = with_recv_last_msg listening_client true)
  /\ (0 = -1 -> with_recv_last_msg listening_client true = listening_client).
Proof.
  apply (parse_response_shape Gzip.gunzip listening_client terminal_frame ""
           0 (jq "{'result':'你好','sequence':-1}")).
  vm_compute. reflexivity.
Defined.

Lemma append_nil_r (s : string) : s ++ "" = s.
Proof. induction s; simpl; congruence. Qed.

(** The adapter on the empty string: the parse fails. *)
Lemma adapter_on_empty a :
  Adapter.on_message a ""
  = if onResult_ a && onError_ a then [call_onError json_parse_error] else [].
Proof.
  unfold Adapter.on_message. destruct (onResult_ a), (onError_ a); reflexivity.
Qed.

Lemma char_at_1 c0 c1 s : char_at (String c0 (String c1 s)) 1 = Ok (byte_val c1).
Proof. rewrite (char_at_tail _ _ 0) by lia. apply char_at_head. Qed.

Lemma char_at_2 c0 c1 c2 s :
  char_at (String c0 (String c1 (String c2 s))) 2 = Ok (byte_val c2).
Proof.
  change 2 with (1 + (1 + 0)). rewrite !char_at_tail by lia. apply char_at_head.
Qed.

(** X2.  A frame whose message type is none of FullServerResponse, ServerAck
    and ErrorMessageFromServer: [parse_response] returns -1 without reading
    past the third byte and leaves the caller's string alone; [on_message]
    then hands the callback the empty string, which an adapter with both
    callbacks reports as a JSON parse error, and asks for the closure. *)
Theorem unsupported_type_is_reported_and_closed :
  forall gzip_decompress c b0 b1 b2 rest msg0,
    Z.shiftr (Z.land (byte_val b1) 0xf0) 4 <> MessageType_val FULL_SERVER_RESPONSE ->
    Z.shiftr (Z.land (byte_val b1) 0xf0) 4 <> MessageType_val SERVER_ACK ->
    Z.shiftr (Z.land (byte_val b1) 0xf0) 4
    <> MessageType_val ERROR_MESSAGE_FROM_SERVER ->
    Asr.parse_response gzip_decompress c (String b0 (String b1 (String b2 rest)))
                       msg0
    = Ok (-1, msg0, c)
    /\ Asr.on_message gzip_decompress
         (set_callback c (Some (mk_adapter true true)))
         (String b0 (String b1 (String b2 rest)))
       = Ok (set_callback c (Some (mk_adapter true true)),
             [call_onError json_parse_error; ws_close]).
Proof.
  intros gz c b0 b1 b2 rest msg0 H9 H11 H15.
  assert (Hp : forall c m, Asr.parse_response gz c
                             (String b0 (String b1 (String b2 rest))) m
                           = Ok (-1, m, c)).
  { intros c0 m. unfold Asr.parse_response.
    rewrite char_at_head, char_at_1, char_at_2. cbn [bind].
    unfold Asr.payload_layout.
    destruct (Z.eqb_spec (Z.shiftr (Z.land (byte_val b1) 240) 4)
                         (MessageType_val FULL_SERVER_RESPONSE)); [contradiction|].
    destruct (Z.eqb_spec (Z.shiftr (Z.land (byte_val b1) 240) 4)
                         (MessageType_val SERVER_ACK)); [contradiction|].
    destruct (Z.eqb_spec (Z.shiftr (Z.land (byte_val b1) 240) 4)
                         (MessageType_val ERROR_MESSAGE_FROM_SERVER));
      [contradiction|].
    reflexivity. }
  split; [apply Hp|].
  rewrite (on_message_of_parse _ _ _ _ _ _ (Hp _ "")). reflexivity.
Qed.

(** The client's own full request, sent back, is such a frame. *)
Lemma unsupported_type_is_reported_and_closed_witness :
  Asr.parse_response Gzip.gunzip listening_client
    (String (chr 0x11) (String (chr 0x10) (String (chr 0x11) (unhex "0000000000"))))
    "kept"
  = Ok (-1, "kept", listening_client)
  /\ Asr.on_message Gzip.gunzip
       (set_callback listening_client (Some (mk_adapter true true)))
       (String (chr 0x11) (String (chr 0x10) (String (chr 0x11) (unhex "0000000000"))))
     = Ok (set_callback listening_client (Some (mk_adapter true true)),
           [call_onError json_parse_error; ws_close]).
Proof.
  apply (unsupported_type_is_reported_and_closed Gzip.gunzip listening_client
           (chr 0x11) (chr 0x10) (chr 0x11) (unhex "0000000000") "kept");
    vm_compute; discriminate.
Defined.

(** The header of a server frame, byte by byte. *)
Lemma response_header_fields t f s z r :
  exists b1 b2,
    char_at (response_header t f s z ++ r) 0 = Ok 17
    /\ char_at (response_header t f s z ++ r) 1 = Ok b1
    /\ char_at (response_header t f s z ++ r) 2 = Ok b2
    /\ Z.shiftr (Z.land b1 0xf0) 4 = MessageType_val t
    /\ Z.shiftr (Z.land b2 0xf0) 4 = MessageSerial_val s
    /\ Z.land b2 0x0f = MessageCompress_val z
    /\ size (response_header t f s z) = 4.
Proof.
  exists (byte_val (chr (Z.lor (Z.shiftl (MessageType_val t) 4)
                               (MessageTypeFlag_val f)))),
         (byte_val (chr (Z.lor (Z.shiftl (MessageSerial_val s) 4)
                               (MessageCompress_val z)))).
  unfold response_header. cbn [append str1].
  split; [now rewrite char_at_head|]. split; [apply char_at_1|].
  split; [apply char_at_2|].
  split; [destruct t, f; reflexivity|].
  split; [destruct s, z; reflexivity|].
  split; [destruct s, z; reflexivity|reflexivity].
Qed.

(** X3.  An acknowledgement without body (header and sequence number, eight
    bytes): [parse_response] returns 0 with an empty payload, whatever the
    serialisation and compression fields say; [on_message] hands the empty
    string to the callback, and an adapter with both callbacks reports it as
    a JSON parse error.  No closure is requested. *)
Theorem bare_ack_is_reported_as_parse_error :
  forall gzip_decompress c f s z seq msg0,
    Asr.parse_response gzip_decompress c
      (response_header SERVER_ACK f s z ++ be32 seq) msg0
    = Ok (0, "", c)
    /\ Asr.on_message gzip_decompress
         (set_callback c (Some (mk_adapter true true)))
         (response_header SERVER_ACK f s z ++ be32 seq)
       = Ok (set_callback c (Some (mk_adapter true true)),
             [call_onError json_parse_error]).
Proof.
  intros gz c f s z seq msg0.
  assert (Hp : forall c m, Asr.parse_response gz c
                             (response_header SERVER_ACK f s z ++ be32 seq) m
                           = Ok (0, "", c)).
  { intros c0 m.
    destruct (response_header_fields SERVER_ACK f s z (be32 seq))
      as (b1 & b2 & H0 & H1 & H2 & Ht & Hs & Hz & Hsize).
    unfold Asr.parse_response. rewrite H0, H1, H2. cbn [bind].
    change (Z.shiftl (Z.land 17 15) 2) with 4. rewrite Ht.
    unfold Asr.payload_layout.
    change (MessageType_val SERVER_ACK =? MessageType_val FULL_SERVER_RESPONSE)
      with false.
    change (MessageType_val SERVER_ACK =? MessageType_val SERVER_ACK) with true.
    cbv iota.
    rewrite <- Hsize at 1.
    rewrite <- (append_nil_r (be32 seq)) at 1.
    rewrite u32_at_be32. cbn [bind].
    replace (size (response_header SERVER_ACK f s z ++ be32 seq) >? 8) with false
      by (rewrite size_append, Hsize; reflexivity).
    cbn [bind]. change (0 >? 0) with false. rewrite andb_false_r. cbn [bind].
    change (empty "") with true. cbn [negb]. rewrite andb_false_r.
    reflexivity. }
  split; [apply Hp|].
  rewrite (on_message_of_parse _ _ _ _ _ _ (Hp _ "")). reflexivity.
Qed.

(** X4.  A FullServerResponse frame that is not marked gzip: the payload is
    never read.  [parse_response] returns 0 with an empty payload whatever
    the body holds, and an adapter with both callbacks is told of a JSON
    parse error. *)
Theorem uncompressed_payload_is_dropped :
  forall gzip_decompress c f s body msg0,
    Asr.parse_response gzip_decompress c
      (full_server_response f s NO_COMPRESS body) msg0
    = Ok (0, "", c)
    /\ Asr.parse_response gzip_decompress c
         (full_server_response f s CUSTOM_COMPRESS body) msg0
       = Ok (0, "", c)
    /\ Asr.on_message gzip_decompress
         (set_callback c (Some (mk_adapter true true)))
         (full_server_response f s NO_COMPRESS body)
       = Ok (set_callback c (Some (mk_adapter true true)),
             [call_onError json_parse_error]).
Proof.
  intros gz c f s body msg0.
  assert (Hp : forall z c m,
             z <> GZIP ->
             Asr.parse_response gz c (full_server_response f s z body) m
             = Ok (0, "", c)).
  { intros z c0 m Hz. unfold full_server_response.
    destruct (response_header_fields FULL_SERVER_RESPONSE f s z
                                     (be32 (size body) ++ body))
      as (b1 & b2 & H0 & H1 & H2 & Ht & Hs & Hc & Hsize).
    unfold Asr.parse_response. rewrite H0, H1, H2. cbn [bind].
    change (Z.shiftl (Z.land 17 15) 2) with 4. rewrite Ht, Hc.
    unfold Asr.payload_layout.
    change (MessageType_val FULL_SERVER_RESPONSE
            =? MessageType_val FULL_SERVER_RESPONSE) with true. cbv iota.
    rewrite <- Hsize at 1. rewrite u32_at_be32. cbn [bind].
    replace (MessageCompress_val z =? MessageCompress_val GZIP) with false
      by (destruct z; try reflexivity; contradiction).
    cbn [andb bind]. change (empty "") with true. cbn [negb].
    rewrite andb_false_r. reflexivity. }
  split; [apply Hp; discriminate|]. split; [apply Hp; discriminate|].
  rewrite (on_message_of_parse _ _ _ _ _ _ (Hp NO_COMPRESS _ "" ltac:(discriminate))).
  reflexivity.
Qed.

(** X5.  A payload that decompresses to something that is not JSON:
    [parse_response] returns -1 and leaves the caller's string alone, so the
    callback gets the empty string, not the payload; an adapter with both
    callbacks reports a JSON parse error, and the closure is requested. *)
Theorem malformed_payload_is_reported_and_closed :
  forall gzip_decompress c f body text msg0,
    0 < size body < 2 ^ 32 ->
    gzip_decompress body = Some text ->
    empty text = false ->
    Json.parse text = None ->
    Asr.parse_response gzip_decompress c
      (full_server_response f JSON GZIP body) msg0
    = Ok (-1, msg0, c)
    /\ Asr.on_message gzip_decompress
         (set_callback c (Some (mk_adapter true true)))
         (full_server_response f JSON GZIP body)
       = Ok (set_callback c (Some (mk_adapter true true)),
             [call_onError json_parse_error; ws_close]).
Proof.
  intros gz c f body text msg0 Hsize Hgz Hne Hparse.
  assert (Hp : forall c m,
             Asr.parse_response gz c (full_server_response f JSON GZIP body) m
             = Ok (-1, m, c)).
  { intros c0 m. rewrite (parse_full_server_response gz c0 f body text m Hsize Hgz).
    unfold decoded. now rewrite Hne, Hparse. }
  split; [apply Hp|].
  rewrite (on_message_of_parse _ _ _ _ _ _ (Hp _ "")). reflexivity.
Qed.

Lemma malformed_payload_is_reported_and_closed_witness :
  Asr.parse_response Gzip.gunzip listening_client
    (full_server_response NO_SEQUENCE_NUMBER JSON GZIP not_json_gz) "kept"
  = Ok (-1, "kept", listening_client)
  /\ Asr.on_message Gzip.gunzip
       (set_callback listening_client (Some (mk_adapter true true)))
       (full_server_response NO_SEQUENCE_NUMBER JSON GZIP not_json_gz)
     = Ok (set_callback listening_client (Some (mk_adapter true true)),
           [call_onError json_parse_error; ws_close]).
Proof.
  apply (malformed_payload_is_reported_and_closed Gzip.gunzip listening_client
           NO_SEQUENCE_NUMBER not_json_gz "not json" "kept").
  - vm_compute; split; reflexivity.
  - vm_compute; reflexivity.
  - reflexivity.
  - vm_compute; reflexivity.
Defined.

(** X6.  A payload with an integer code other than 1000: [parse_response]
    returns -1 before it looks at the sequence number, so [_recv_last_msg]
    stays as it was even when the sequence is negative; the payload still
    reaches the callback (a [result] in it is delivered), and the closure is
    requested after it. *)
Theorem application_error_is_forwarded_then_closed :
  forall gzip_decompress c a f body text j,
    0 < size body < 2 ^ 32 ->
    gzip_decompress body = Some text ->
    Json.parse text = Some j ->
    Asr.application_error j = true ->
    _asr_callback c = Some a ->
    Asr.on_message gzip_decompress c (full_server_response f JSON GZIP body)
    = Ok (c, (Adapter.on_message a text ++ [ws_close])%list).
Proof.
  intros gz c a f body text j Hsize Hgz Hj Herr Hcb.
  pose proof (parse_full_server_response gz c f body text "" Hsize Hgz) as Hp.
  assert (Hd : decoded c text "" = (-1, text, c)).
  { unfold decoded. destruct (empty text) eqn:He.
    - apply empty_spec in He. subst. rewrite parse_empty in Hj. discriminate.
    - rewrite Hj. unfold Asr.interpret. now rewrite Herr. }
  rewrite Hd in Hp. rewrite (on_message_of_parse _ _ _ _ _ _ Hp), Hcb.
  reflexivity.
Qed.

Lemma application_error_is_forwarded_then_closed_witness :
  Asr.terminal (Json.object [("code", Json.number_unsigned 1013);
                             ("sequence", Json.number_integer (-1));
                             ("result", Json.jstring "x")]) = true
  /\ Asr.on_message Gzip.gunzip listening_client
       (full_server_response NEGATIVE_SEQUENCE_SERVER_ASSGIN JSON GZIP app_error_gz)
     = Ok (listening_client,
           (Adapter.on_message (mk_adapter true true)
                               (jq "{'code':1013,'sequence':-1,'result':'x'}")
            ++ [ws_close])%list)
  /\ Adapter.on_message (mk_adapter true true)
                        (jq "{'code':1013,'sequence':-1,'result':'x'}")
     = [call_onResult "x" true].
Proof.
  split; [reflexivity|]. split; [|vm_compute; reflexivity].
  apply (application_error_is_forwarded_then_closed Gzip.gunzip listening_client
           (mk_adapter true true) NEGATIVE_SEQUENCE_SERVER_ASSGIN app_error_gz
           (jq "{'code':1013,'sequence':-1,'result':'x'}")
           (Json.object [("code", Json.number_unsigned 1013);
                         ("sequence", Json.number_integer (-1));
                         ("result", Json.jstring "x")])).
  - vm_compute; split; reflexivity.
  - vm_compute; reflexivity.
  - vm_compute; reflexivity.
  - reflexivity.
  - reflexivity.
Defined.

Lemma callbacks_adapter_on_message a msg :
  (List.length (callbacks (Adapter.on_message a msg)) <= 1)%nat.
Proof.
  unfold Adapter.on_message.
  destruct (onResult_ a); [|cbn; lia].
  destruct (Json.parse msg) as [j|].
  - destruct (Json.contains j "result"); [|cbn; lia].
    destruct (Json.get_string _); [cbn; lia|].
    destruct (onError_ a); cbn; lia.
  - destruct (onError_ a); cbn; lia.
Qed.

(** X7.  Whatever the frame, one received message runs at most one of the
    caller's callbacks and asks for the closure at most once. *)
Theorem on_message_runs_at_most_one_callback :
  forall gzip_decompress c frame c' tr,
    Asr.on_message gzip_decompress c frame = Ok (c', tr) ->
    (List.length (callbacks tr) <= 1)%nat /\ (closes tr <= 1)%nat.
Proof.
  intros gz c frame c' tr. unfold Asr.on_message.
  destruct (Asr.parse_response gz c frame "") as [[[ret msg] c1]| |];
    cbn [bind]; try discriminate.
  assert (Hcb : (List.length (callbacks (match _asr_callback c1 with
                                         | Some a => Adapter.on_message a msg
                                         | None => []
                                         end)) <= 1)%nat
                /\ closes (match _asr_callback c1 with
                           | Some a => Adapter.on_message a msg
                           | None => []
                           end) = 0%nat).
  { destruct (_asr_callback c1).
    - split; [apply callbacks_adapter_on_message|apply closes_adapter_on_message].
    - split; cbn; lia. }
  destruct Hcb as [H1 H2].
  destruct (negb (ret =? 0)); intros H; inversion H; subst.
  - unfold callbacks in *. rewrite List.filter_app, List.length_app, closes_app, H2.
    cbn. lia.
  - rewrite H2. split; [exact H1|lia].
Qed.

Lemma on_message_runs_at_most_one_callback_witness :
  (List.length (callbacks [call_onResult "你好" true]) <= 1)%nat
  /\ (closes [call_onResult "你好" true] <= 1)%nat.
Proof.
  apply (on_message_runs_at_most_one_callback Gzip.gunzip listening_client
           terminal_frame (with_recv_last_msg listening_client true)).
  vm_compute. reflexivity.
Defined.

(** ** The handlers and the client's state *)

Lemma parse_response_client gz c response msg0 ret msg c' :
  Asr.parse_response gz c response msg0 = Ok (ret, msg, c') ->
  c' = c \/ c' = with_recv_last_msg c true.
Proof.
  unfold Asr.parse_response.
  destruct (char_at response 0) as [b0| |]; cbn [bind]; try discriminate.
  destruct (char_at response 1) as [b1| |]; cbn [bind]; try discriminate.
  destruct (char_at response 2) as [b2| |]; cbn [bind]; try discriminate.
  destruct (Asr.payload_layout _ _ _) as [[[off len]|]| |]; cbn [bind];
    try discriminate.
  2:{ intros H; inversion H; subst. auto. }
  match goal with
  | |- context [bind ?m _] => destruct m as [payload| |]; cbn [bind];
                              try discriminate
  end.
  assert (Hi : forall j r (m k : string),
             (let '(ret0, c0) := Asr.interpret c j in Ok (ret0, m, c0))
             = Ok (r, k, c') -> c' = c \/ c' = with_recv_last_msg c true).
  { intros j r m k. unfold Asr.interpret.
    destruct (Asr.application_error j); [intros H; inversion H; auto|].
    destruct (Asr.terminal j); intros H; inversion H; auto. }
  destruct (_ && negb (empty payload)).
  - destruct (Json.parse payload) as [j|]; [apply Hi|].
    intros H; inversion H; subst. auto.
  - apply Hi.
Qed.

Lemma same_wiring_refl c : same_wiring c c.
Proof. repeat split; auto. Qed.

Lemma same_wiring_trans a b c : same_wiring a b -> same_wiring b c -> same_wiring a c.
Proof.
  intros (H1 & H2 & H3 & H4 & H5) (K1 & K2 & K3 & K4 & K5).
  repeat split; try congruence. auto.
Qed.

Lemma handle_same_wiring gz c ev c' tr :
  Asr.handle gz c ev = Ok (c', tr) -> same_wiring c c'.
Proof.
  destruct ev; cbn [Asr.handle].
  - unfold Asr.on_open. intros H; inversion H; subst.
    destruct (_use_sync_connect c); repeat split; auto.
  - unfold Asr.on_message.
    destruct (Asr.parse_response gz c payload "") as [[[ret msg] c1]| |] eqn:Hp;
      cbn [bind]; try discriminate.
    apply parse_response_client in Hp.
    destruct (negb (ret =? 0)); intros H; inversion H; subst;
      destruct Hp as [-> | ->]; repeat split; auto.
  - unfold Asr.on_error. intros H; inversion H; subst.
    destruct (_use_sync_connect c); repeat split; auto.
  - unfold Asr.on_close. intros H; inversion H; subst. apply same_wiring_refl.
Qed.

Lemma handle_all_step gz c ev rest :
  Asr.handle_all gz c (ev :: rest)
  = bind (Asr.handle gz c ev)
         (fun x => bind (Asr.handle_all gz (fst x) rest)
                        (fun y => Ok (fst y, (snd x ++ snd y)%list))).
Proof.
  cbn [Asr.handle_all]. destruct (Asr.handle gz c ev) as [[c1 t1]| |];
    cbn [bind fst snd]; try reflexivity.
  destruct (Asr.handle_all gz c1 rest) as [[c2 t2]| |]; reflexivity.
Qed.

Lemma handle_all_cons gz c ev rest c' tr :
  Asr.handle_all gz c (ev :: rest) = Ok (c', tr) ->
  exists c1 t1 t2,
    Asr.handle gz c ev = Ok (c1, t1)
    /\ Asr.handle_all gz c1 rest = Ok (c', t2)
    /\ tr = (t1 ++ t2)%list.
Proof.
  rewrite handle_all_step.
  destruct (Asr.handle gz c ev) as [[c1 t1]| |]; cbn [bind fst snd];
    try discriminate.
  destruct (Asr.handle_all gz c1 rest) as [[c2 t2]| |] eqn:H2;
    cbn [bind fst snd]; try discriminate.
  intros H; inversion H; subst. exists c1, t1, t2. auto.
Qed.

(** X8.  However many events the I/O thread handles, the handlers never
    replace the connection, the callback or the full request frame, never
    change [_use_sync_connect], and never clear [_recv_last_msg] once it is
    set. *)
Theorem handlers_keep_the_wiring :
  forall gzip_decompress evs c c' tr,
    Asr.handle_all gzip_decompress c evs = Ok (c', tr) ->
    _con c' = _con c
    /\ _asr_callback c' = _asr_callback c
    /\ _full_req_param c' = _full_req_param c
    /\ _use_sync_connect c' = _use_sync_connect c
    /\ (_recv_last_msg c = true -> _recv_last_msg c' = true).
Proof.
  intros gz evs. induction evs as [|ev rest IH]; intros c c' tr H.
  - inversion H; subst. apply same_wiring_refl.
  - apply handle_all_cons in H. destruct H as (c1 & t1 & t2 & H1 & H2 & _).
    apply handle_same_wiring in H1. apply IH in H2.
    exact (same_wiring_trans _ _ _ H1 H2).
Qed.

Lemma handlers_keep_the_wiring_witness :
  _con (with_recv_last_msg listening_client true) = _con listening_client
  /\ _asr_callback (with_recv_last_msg listening_client true)
     = _asr_callback listening_client
  /\ _full_req_param (with_recv_last_msg listening_client true)
     = _full_req_param listening_client
  /\ _use_sync_connect (with_recv_last_msg listening_client true)
     = _use_sync_connect listening_client
  /\ (_recv_last_msg listening_client = true ->
      _recv_last_msg (with_recv_last_msg listening_client true) = true).
Proof.
  apply (handlers_keep_the_wiring Gzip.gunzip
           [ev_message terminal_frame; ev_close; ev_message bad_request_frame]
           listening_client (with_recv_last_msg listening_client true)
           [call_onResult "你好" true]).
  vm_compute. reflexivity.
Defined.

(** The two flags of the synchronous connect after one event. *)
Lemma handle_flags gz c ev c' tr :
  Asr.handle gz c ev = Ok (c', tr) ->
  _use_sync_connect c = true ->
  (_connected_notify c', _connected c')
  = match signal ev with
    | Some b => (true, b)
    | None => (_connected_notify c, _connected c)
    end.
Proof.
  intros H Hs. destruct ev; cbn [Asr.handle signal] in *.
  - unfold Asr.on_open in H. rewrite Hs in H. inversion H; subst. reflexivity.
  - unfold Asr.on_message in H.
    destruct (Asr.parse_response gz c payload "") as [[[ret msg] c1]| |] eqn:Hp;
      cbn [bind] in H; try discriminate.
    apply parse_response_client in Hp.
    destruct (negb (ret =? 0)); inversion H; subst;
      destruct Hp as [-> | ->]; reflexivity.
  - unfold Asr.on_error in H. rewrite Hs in H. inversion H; subst. reflexivity.
  - unfold Asr.on_close in H. inversion H; subst. reflexivity.
Qed.

Lemma handle_all_flags gz evs c c' tr :
  Asr.handle_all gz c evs = Ok (c', tr) ->
  _use_sync_connect c = true ->
  (_connected_notify c', _connected c')
  = match last_signal evs with
    | Some b => (true, b)
    | None => (_connected_notify c, _connected c)
    end.
Proof.
  revert c c' tr. induction evs as [|ev rest IH]; intros c c' tr H Hs.
  - inversion H; subst. reflexivity.
  - apply handle_all_cons in H. destruct H as (c1 & t1 & t2 & H1 & H2 & _).
    pose proof (handle_same_wiring _ _ _ _ _ H1) as (_ & _ & _ & Hu & _).
    rewrite (IH _ _ _ H2) by congruence.
    cbn [last_signal]. destruct (last_signal rest); [reflexivity|].
    exact (handle_flags _ _ _ _ _ H1 Hs).
Qed.

(** ** Connecting *)

Section Connecting.

Variable gzip_compress : string -> string.
Variable gzip_decompress : string -> option string.
Variable dump : Json.value -> option string.
Variable HMAC_SHA256 : string -> string -> string.
Variable base64_encode : string -> string.
Variable user_agent : string.
Variable get_connection : string -> option connection.

Let sync_connect :=
  Asr.sync_connect gzip_compress gzip_decompress dump HMAC_SHA256
                   base64_encode user_agent get_connection.
Let recognize :=
  Asr.recognize gzip_compress gzip_decompress dump HMAC_SHA256
                base64_encode user_agent get_connection.
Let connect :=
  Asr.connect gzip_compress dump HMAC_SHA256 base64_encode user_agent
              get_connection.
Let construct_param := Asr.construct_param gzip_compress dump.

(** The frame [construct_param] appends. *)
Lemma construct_param_appends c c1 :
  construct_param c = Ok c1 ->
  exists text,
    dump (Asr.req_obj c) = Some text
    /\ c1 = with_full_req_param c
              (_full_req_param c
               ++ Asr.request_header FULL_CLIENT_REQUEST NO_SEQUENCE_NUMBER
               ++ be32 (size (gzip_compress text)) ++ gzip_compress text).
Proof.
  unfold construct_param, Asr.construct_param.
  destruct (dump (Asr.req_obj c)) as [text|]; [|discriminate].
  intros H; inversion H; subst. eauto.
Qed.

(** What [connect] leaves of the two flags and how it ends. *)
Lemma connect_flags c init_asio_ok c1 ret a1 :
  connect c init_asio_ok = Ok (c1, ret, a1) ->
  _connected c1 = _connected c
  /\ _connected_notify c1 = _connected_notify c
  /\ _use_sync_connect c1 = _use_sync_connect c
  /\ (ret =? 0) = init_asio_ok
                  && match get_connection _url with Some _ => true | None => false end.
Proof.
  unfold connect, Asr.connect. destruct init_asio_ok; cbn [negb andb].
  - destruct (get_connection _url) as [con|].
    + destruct (Asr.construct_param gzip_compress dump (with_con c (Some con)))
        as [c2| |] eqn:Hc; cbn [bind]; try discriminate.
      apply construct_param_appends in Hc. destruct Hc as (text & _ & ->).
      intros H; inversion H; subst. repeat split.
    + intros H; inversion H; subst. repeat split.
  - intros H; inversion H; subst. repeat split.
Qed.

(** X9.  [sync_connect] returns what the last open or fail handler that ran
    during the wait recorded; when none ran (a timeout, or [connect] gave up
    before starting the I/O thread) it returns the value [_connected] had
    before the call, which nothing in [sync_connect] resets. *)
Theorem sync_connect_returns_last_signal :
  forall c timeout init_asio_ok arrived c' connected tr,
    sync_connect c timeout init_asio_ok arrived = Ok (c', connected, tr) ->
    connected
    = match last_signal
              (if init_asio_ok
                  && match get_connection _url with
                     | Some _ => true
                     | None => false
                     end
               then arrived else [])
      with
      | Some b => b
      | None => _connected c
      end.
Proof.
  intros c timeout init_ok arrived c' connected tr.
  unfold sync_connect, Asr.sync_connect.
  destruct (Asr.connect _ _ _ _ _ _ (with_use_sync_connect c true) init_ok)
    as [[[c1 ret] a1]| |] eqn:Hc; cbn [bind]; try discriminate.
  apply connect_flags in Hc. destruct Hc as (Hcon & Hnot & Hsync & Hret).
  rewrite Hret.
  destruct (Asr.handle_all gzip_decompress c1 _) as [[c2 a2]| |] eqn:Hh;
    cbn [bind]; try discriminate.
  intros H; inversion H; subst.
  pose proof (handle_all_flags _ _ _ _ _ Hh Hsync) as Hf.
  destruct (last_signal _); injection Hf as Hn Hc2; rewrite Hc2;
    [reflexivity|].
  rewrite Hcon. reflexivity.
Qed.

(** X10.  [construct_param] appends: called again on the client it
    returned (a second [connect] of the same client), it leaves in
    [_full_req_param] the first request frame followed by a second one, and
    that is what the open handler then sends as one message. *)
Theorem construct_param_accumulates :
  forall c text,
    dump (Asr.req_obj c) = Some text ->
    exists frame c1 c2,
      frame = Asr.request_header FULL_CLIENT_REQUEST NO_SEQUENCE_NUMBER
              ++ be32 (size (gzip_compress text)) ++ gzip_compress text
      /\ construct_param c = Ok c1
      /\ _full_req_param c1 = _full_req_param c ++ frame
      /\ construct_param c1 = Ok c2
      /\ _full_req_param c2 = (_full_req_param c ++ frame) ++ frame
      /\ Asr.send_params c2 = [ws_send ((_full_req_param c ++ frame) ++ frame)]
      /\ 8 <= size frame.
Proof.
  intros c text Hdump. do 3 eexists.
  split; [reflexivity|].
  unfold construct_param, Asr.construct_param. rewrite Hdump.
  split; [reflexivity|]. split; [reflexivity|].
  change (Asr.req_obj (with_full_req_param c _)) with (Asr.req_obj c).
  rewrite Hdump. split; [reflexivity|]. split; [reflexivity|].
  split; [reflexivity|].
  rewrite !size_append. change (size (Asr.request_header _ _)) with 4.
  rewrite size_be32. pose proof (size_nonneg (gzip_compress text)). lia.
Qed.


(** X12.  [sync_connect] does not reset [_connected]: on a client left
    connected by an earlier session, when [init_asio] fails, [recognize]
    takes the connection for open, asks for no connect, and sends the audio
    frame on the connection of the earlier session. *)
Theorem stale_connected_flag_skips_the_connect :
  forall r c audioData onResult onError env con,
    Asr.isReady_ r = true ->
    empty audioData = false ->
    Asr.asrClient_ r = Some c ->
    _connected c = true ->
    _con c = Some con ->
    Asr.init_asio_ok env = false ->
    exists r',
      recognize r audioData onResult onError env
      = Ok (r',
            [ws_send (Asr.audio_payload gzip_compress audioData true)]
            ++ (if Asr.send_ec env =? 0 then []
                else Asr.error_if onError "Failed to send audio data")
            ++ [ws_close])%list.
Proof.
  intros r c audioData onResult onError env con
         Hready Haudio Hclient Hconn Hcon Hinit.
  eexists. unfold recognize, Asr.recognize.
  rewrite Hready, Haudio, Hclient. cbn [negb].
  unfold Asr.sync_connect, Asr.connect. rewrite Hinit. cbn [negb bind].
  change (-1 =? 0) with false. cbv iota. cbn [Asr.handle_all bind].
  change (_connected (with_use_sync_connect (set_callback c _) true))
    with (_connected c).
  rewrite Hconn. cbn [negb].
  unfold Asr.send_audio, Asr.close.
  change (_con (with_use_sync_connect (set_callback c _) true)) with (_con c).
  rewrite Hcon. cbn [bind].
  destruct (Asr.send_ec env =? 0); reflexivity.
Qed.

End Connecting.

Lemma sync_connect_returns_last_signal_witness :
  true
  = match last_signal
            (if true
                && match Reference.get_connection _url with
                   | Some _ => true
                   | None => false
                   end
             then [ev_fail; ev_open] else [])
    with
    | Some b => b
    | None => _connected listening_client
    end.
Proof.
  eapply (sync_connect_returns_last_signal
            Reference.gzip_store Gzip.gunzip Reference.dump Sha256.hmac
            Base64.encode Reference.user_agent Reference.get_connection
            listening_client 10 true [ev_fail; ev_open]).
  vm_compute. reflexivity.
Defined.

Lemma construct_param_accumulates_witness :
  exists frame c1 c2,
    frame = Asr.request_header FULL_CLIENT_REQUEST NO_SEQUENCE_NUMBER
            ++ be32 (size (Reference.gzip_store
                             (Reference.dump_value (Asr.req_obj (new_client "r")))))
            ++ Reference.gzip_store
                 (Reference.dump_value (Asr.req_obj (new_client "r")))
    /\ Asr.construct_param Reference.gzip_store Reference.dump (new_client "r")
       = Ok c1
    /\ _full_req_param c1 = _full_req_param (new_client "r") ++ frame
    /\ Asr.construct_param Reference.gzip_store Reference.dump c1 = Ok c2
    /\ _full_req_param c2 = (_full_req_param (new_client "r") ++ frame) ++ frame
    /\ Asr.send_params c2
       = [ws_send ((_full_req_param (new_client "r") ++ frame) ++ frame)]
    /\ 8 <= size frame.
Proof.
  apply (construct_param_accumulates Reference.gzip_store Reference.dump
           (new_client "r")
           (Reference.dump_value (Asr.req_obj (new_client "r")))).
  vm_compute. reflexivity.
Defined.


Lemma stale_connected_flag_skips_the_connect_witness :
  exists r',
    reference_recognize used_recognizer "pcm" true true
                        (Asr.mk_env false [] 1 0 [])
    = Ok (r',
          [ws_send (Asr.audio_payload Reference.gzip_store "pcm" true)]
          ++ (if Asr.send_ec (Asr.mk_env false [] 1 0 []) =? 0 then []
              else Asr.error_if true "Failed to send audio data")
          ++ [ws_close])%list.
Proof.
  unfold reference_recognize.
  eapply (stale_connected_flag_skips_the_connect
            Reference.gzip_store Gzip.gunzip Reference.dump Sha256.hmac
            Base64.encode Reference.user_agent Reference.get_connection);
    reflexivity.
Defined.

(** ** Request frames *)

(** X13.  The audio frame read back the way [parse_response] reads a frame:
    the four bytes after the header give the length of the compressed audio
    modulo 2^32 (the length is cut to 32 bits on the way in), and the bytes
    from offset 8 on are the compressed audio, with nothing after it. *)
Theorem audio_frame_reads_back :
  forall gzip_compress audio is_last,
    u32_at (Asr.audio_payload gzip_compress audio is_last) 4
    = Ok (size (gzip_compress audio) mod 2 ^ 32)
    /\ substr (Asr.audio_payload gzip_compress audio is_last) 8
              (size (gzip_compress audio))
       = Ok (gzip_compress audio)
    /\ size (Asr.audio_payload gzip_compress audio is_last)
       = 8 + size (gzip_compress audio).
Proof.
  intros gz audio is_last. unfold Asr.audio_payload.
  set (hdr := Asr.request_header _ _).
  assert (Hs : size hdr = 4) by (subst hdr; destruct is_last; reflexivity).
  split; [|split].
  - rewrite <- Hs. apply u32_at_be32.
  - rewrite <- append_assoc.
    replace 8 with (size (hdr ++ be32 (size (gz audio))))
      by (rewrite size_append, Hs; reflexivity).
    apply substr_append_r.
  - rewrite !size_append, Hs, size_be32. lia.
Qed.

(** ** The signed header *)

Lemma no_plus_slash_append a b :
  no_plus_slash (a ++ b) = no_plus_slash a && no_plus_slash b.
Proof.
  induction a as [|c a IH]; [reflexivity|]. cbn [append no_plus_slash].
  rewrite IH. now rewrite andb_assoc.
Qed.

Lemma no_plus_slash_url_safe s : no_plus_slash (url_safe s) = true.
Proof.
  unfold url_safe, replace. induction s as [|c s IH]; [reflexivity|].
  cbn [map_string no_plus_slash]. rewrite IH, andb_true_r.
  destruct (Ascii.eqb_spec c "+") as [->|Hp]; [reflexivity|].
  destruct (Ascii.eqb_spec c "/") as [->|Hs]; [reflexivity|].
  apply Ascii.eqb_neq in Hp, Hs. now rewrite Hp, Hs.
Qed.

(** X14.  With signature authentication the Authorization value never holds
    a '+' or a '/', whatever the token, the key and the libraries: not in
    the digest, and not in the token either. *)
Theorem signature_header_has_no_plus_or_slash :
  forall HMAC_SHA256 base64_encode user_agent c con,
    no_plus_slash
      (Asr.authorization HMAC_SHA256 base64_encode user_agent
                         (set_auth_type c SIGNATURE) con)
    = true.
Proof.
  intros. unfold Asr.authorization. cbn [_auth_type set_auth_type].
  apply no_plus_slash_url_safe.
Qed.

(** ** Initialising the recognizer *)




(** ** The name checks of the certificate callback *)




Lemma index_by_NID_app before e after nid :
  (forall x, In x before -> Tls.entry_nid x <> nid) ->
  Tls.entry_nid e = nid ->
  Tls.X509_NAME_get_index_by_NID (before ++ e :: after)%list nid
  = Z.of_nat (List.length before).
Proof.
  intros Hb He. induction before as [|x before IH].
  - cbn [List.app Tls.X509_NAME_get_index_by_NID List.length].
    now rewrite He, Z.eqb_refl.
  - cbn [List.app Tls.X509_NAME_get_index_by_NID].
    destruct (Z.eqb_spec (Tls.entry_nid x) nid) as [E|_].
    + exfalso. exact (Hb x (or_introl eq_refl) E).
    + rewrite IH by (intros y Hy; apply Hb; now right).
      replace (Z.of_nat (List.length before) <? 0) with false
        by (symmetry; apply Z.ltb_ge; lia).
      cbn [List.length]. lia.
Qed.

(** X18.  [verify_common_name] looks at the first common-name entry of the
    subject and at nothing else: it answers true exactly when that entry has
    data without an embedded NUL that equals the hostname up to case. *)
Theorem common_name_checks_first_entry :
  forall hostname san before data after,
    (forall x, In x before -> Tls.entry_nid x <> Tls.NID_commonName) ->
    Tls.verify_common_name hostname
      (Tls.mk_X509 san (before ++ Tls.mk_entry Tls.NID_commonName data :: after)%list)
    = match data with
      | Some cn => (size cn =? strlen cn) && strcasecmp_eq hostname cn
      | None => false
      end.
Proof.
  intros hostname san before data after Hb.
  unfold Tls.verify_common_name. cbn [Tls.subject_name].
  rewrite (index_by_NID_app before (Tls.mk_entry Tls.NID_commonName data) after
             Tls.NID_commonName Hb eq_refl).
  replace (Z.of_nat (List.length before) <? 0) with false
    by (symmetry; apply Z.ltb_ge; lia).
  unfold Tls.X509_NAME_get_entry.
  replace (Z.of_nat (List.length before) <? 0) with false
    by (symmetry; apply Z.ltb_ge; lia).
  rewrite Nat2Z.id, List.nth_error_app2 by lia.
  rewrite Nat.sub_diag. cbn [List.nth_error Tls.entry_data].
  destruct data as [cn|]; [|reflexivity].
  destruct (size cn =? strlen cn); reflexivity.
Qed.

(** A common name cut short by a NUL is refused although its C string is
    the hostname; a second common name is not consulted. *)
Lemma common_name_checks_first_entry_witness :
  Tls.verify_common_name "example.org"
    (Tls.mk_X509 None
       ([Tls.mk_entry 6 (Some "US")]
        ++ Tls.mk_entry Tls.NID_commonName (Some cut_name)
        :: [Tls.mk_entry Tls.NID_commonName (Some "example.org")])%list)
  = match Some cut_name with
    | Some cn => (size cn =? strlen cn) && strcasecmp_eq "example.org" cn
    | None => false
    end
  /\ (size cut_name
      =? strlen cut_name) = false
  /\ strcasecmp_eq "example.org" cut_name = true.
Proof.
  split; [|split; reflexivity].
  apply (common_name_checks_first_entry "example.org" None
           [Tls.mk_entry 6 (Some "US")]
           (Some cut_name)
           [Tls.mk_entry Tls.NID_commonName (Some "example.org")]).
  intros x [H | []]. subst. vm_compute. discriminate.
Defined.

(** ** The table engine: recognizer, audio capture and manager *)

Lemma index_single (c : ascii) (s : string) (n : nat) :
  String.get n s = Some c -> String.index n (String c "") s = Some n.
Proof.
  revert n. induction s as [|b s IH]; intros n H.
  - destruct n; discriminate.
  - destruct n as [|n].
    + cbn in H. injection H as ->. cbn [String.index String.prefix].
      destruct (ascii_dec c c) as [_|ne]; [|congruence].
      destruct s; reflexivity.
    + cbn in H. cbn [String.index]. rewrite (IH n H). reflexivity.
Qed.

Lemma index_get (n : nat) (p s : string) (m k : nat) :
  String.index n p s = Some m -> (k < String.length p)%nat ->
  String.get (m + k) s = String.get k p.
Proof.
  intros H Hk. apply index_correct1 in H.
  rewrite Nat.add_comm.
  rewrite <- (substring_correct1 s m (String.length p) k Hk).
  rewrite H. reflexivity.
Qed.

Lemma get_lt (s : string) (n : nat) (c : ascii) :
  String.get n s = Some c -> (n < String.length s)%nat.
Proof.
  revert n. induction s as [|b s IH]; intros n H.
  - destruct n; discriminate.
  - destruct n as [|n]; cbn in *; [lia|]. apply IH in H. lia.
Qed.

Lemma substring_zero (n : nat) (s : string) : String.substring n 0 s = "".
Proof.
  revert n. induction s as [|b s IH]; intros [|n]; cbn; auto.
Qed.

(** A search for the quote that starts on a quote stops where it starts,
    and the text cut out between the two positions is empty. *)
Lemma find_then_quote (s p : string) (pos i : Z) (k : nat) :
  Table.find s p pos = Some i ->
  String.get k p = Some (chr 34) ->
  Table.find s (jq "'") (i + Z.of_nat k) = Some (i + Z.of_nat k) /\
  substr s (i + Z.of_nat k) 0 = Ok "".
Proof.
  unfold Table.find. intros H Hk.
  destruct (String.index (Z.to_nat pos) p s) as [m|] eqn:Hm; [|discriminate].
  injection H as <-.
  pose proof (index_get _ _ _ _ k Hm (get_lt _ _ _ Hk)) as Hg.
  rewrite Hk in Hg.
  replace (Z.to_nat (Z.of_nat m + Z.of_nat k)) with (m + k)%nat by lia.
  split.
  - change (jq "'") with (String (chr 34) "").
    rewrite (index_single _ _ _ Hg). f_equal. lia.
  - unfold substr. pose proof (get_lt _ _ _ Hg) as Hlt. unfold size.
    destruct (Z.of_nat m + Z.of_nat k >? Z.of_nat (String.length s)) eqn:E; [lia|].
    replace (Z.to_nat (Z.min 0 _)) with 0%nat by lia.
    rewrite substring_zero. reflexivity.
Qed.

Lemma extract_result_spec (r : Table.VolcengineRecognizer) (json : string) (pos : Z) :
  Table.extract_result r json (Table.find json (jq "'result':'") pos) = Ok (r, [])
  \/ Table.extract_result r json (Table.find json (jq "'result':'") pos)
     = Ok (Table.with_currentResult r "", []).
Proof.
  unfold Table.extract_result.
  destruct (Table.find json (jq "'result':'") pos) as [i|] eqn:Hf; [|left; reflexivity].
  destruct (find_then_quote _ _ _ _ 9%nat Hf eq_refl) as [Hq Hs].
  change (Z.of_nat 9) with 9 in *. cbv zeta. rewrite Hq.
  replace (i + 9 - (i + 9)) with 0 by lia. rewrite Hs. cbn.
  rewrite andb_false_r. right. reflexivity.
Qed.

Lemma parseResponse_cases (r : Table.VolcengineRecognizer) (json : string) :
  exists r' evs,
    Table.parseResponse r json = Ok (r', evs) /\
    (evs = [] \/ evs = [Table.log_api_error ""]) /\
    (r' = r \/ r' = Table.with_currentResult r "").
Proof.
  unfold Table.parseResponse.
  destruct (Table.find json (jq "'code':0") 0) as [c|].
  - destruct (Table.find json (jq "'data'") 0) as [d|].
    + destruct (extract_result_spec r json d) as [-> | ->]; eauto 8.
    + destruct (extract_result_spec r json 0) as [-> | ->]; eauto 8.
  - destruct (Table.find json (jq "'message':'") 0) as [i|] eqn:Hf; [|eauto 8].
    destruct (find_then_quote _ _ _ _ 10%nat Hf eq_refl) as [Hq Hs].
    change (Z.of_nat 10) with 10 in *. cbv zeta. rewrite Hq.
    replace (i + 10 - (i + 10)) with 0 by lia. rewrite Hs. cbn. eauto 8.
Qed.

Lemma same_settings_refl r : same_settings r r.
Proof. unfold same_settings. tauto. Qed.

Lemma same_settings_trans r1 r2 r3 :
  same_settings r1 r2 -> same_settings r2 r3 -> same_settings r1 r3.
Proof. unfold same_settings. intuition congruence. Qed.

Lemma substring_append_next (s : string) (a n m : nat) :
  (a + n + m <= String.length s)%nat ->
  (String.substring a n s ++ String.substring (a + n) m s)%string
  = String.substring a (n + m) s.
Proof.
  revert a n. induction s as [|b s IH]; intros a n H.
  - cbn in H. assert (a = 0 /\ n = 0 /\ m = 0)%nat as (-> & -> & ->) by lia. reflexivity.
  - destruct a as [|a].
    + destruct n as [|n].
      * reflexivity.
      * cbn [String.substring Nat.add String.append]. f_equal.
        change (String.substring n m s) with (String.substring (0 + n) m s).
        rewrite (IH 0%nat n); [reflexivity|]. cbn in H. lia.
    + cbn [String.substring Nat.add]. apply IH. cbn in H. lia.
Qed.

Lemma uploads_app (e1 e2 : list Table.event) :
  uploads (e1 ++ e2) = (uploads e1 ++ uploads e2)%string.
Proof.
  induction e1 as [|e e1 IH]; [reflexivity|].
  destruct e; cbn; rewrite ?IH; try reflexivity.
  symmetry. apply append_assoc.
Qed.

(** The write callback: the chunk is appended to the buffer, the whole chunk
    is reported as consumed, and no callback runs. *)
Lemma write_callback_spec (r : Table.VolcengineRecognizer) (data : string) :
  exists r' evs,
    Table.websocketWriteCallback data (Some r) = Ok (Some r', size data, evs) /\
    same_settings r r' /\
    Table.audioDataSent_ r' = Table.audioDataSent_ r /\
    Table.responseBuffer_ r' = (Table.responseBuffer_ r ++ data)%string /\
    (Table.currentResult_ r' = Table.currentResult_ r \/ Table.currentResult_ r' = "") /\
    filter is_result_callback evs = [] /\
    filter is_error_callback evs = [] /\
    uploads evs = "".
Proof.
  unfold Table.websocketWriteCallback.
  destruct (parseResponse_cases
              (Table.with_responseBuffer r (Table.responseBuffer_ r ++ data)) data)
    as (r' & evs & -> & Hev & Hr).
  exists r', evs. cbn. split; [reflexivity|].
  assert (Hevs : filter is_result_callback evs = [] /\
                 filter is_error_callback evs = [] /\ uploads evs = "")
    by (destruct Hev as [-> | ->]; cbn; auto).
  destruct Hr as [-> | ->]; cbn; unfold same_settings; cbn; tauto.
Qed.

(** The read callback, when no more was sent than the vector holds. *)
Lemma read_callback_spec (r : Table.VolcengineRecognizer) (size_ nmemb : Z) :
  0 <= Table.audioDataSent_ r <= size (Table.audioData_ r) ->
  size (Table.audioData_ r) < 2 ^ 64 ->
  exists n,
    Table.websocketReadCallback size_ nmemb (Some r)
    = Ok (Some (Table.with_audioDataSent r (Table.audioDataSent_ r + n)), n,
          if n >? 0
          then [Table.upload (String.substring (Z.to_nat (Table.audioDataSent_ r))
                                               (Z.to_nat n) (Table.audioData_ r))]
          else []) /\
    0 <= n <= size (Table.audioData_ r) - Table.audioDataSent_ r /\
    n = Z.min (size (Table.audioData_ r) - Table.audioDataSent_ r)
              ((size_ * nmemb) mod 2 ^ 64).
Proof.
  intros Hs Hlt. unfold Table.websocketReadCallback.
  rewrite (Z.mod_small (size (Table.audioData_ r) - Table.audioDataSent_ r)) by lia.
  set (n := Z.min _ _).
  assert (Hn : 0 <= n <= size (Table.audioData_ r) - Table.audioDataSent_ r).
  { subst n. pose proof (Z.mod_pos_bound (size_ * nmemb) (2 ^ 64) ltac:(lia)). lia. }
  exists n. split; [|split; [exact Hn | reflexivity]].
  destruct (n >? 0) eqn:E.
  - destruct (Table.audioDataSent_ r + n <=? size (Table.audioData_ r)) eqn:E2; [|lia].
    rewrite Z.mod_small by lia. reflexivity.
  - assert (n = 0) as -> by lia. rewrite Z.add_0_r.
    destruct r; reflexivity.
Qed.

(** What a whole transfer does to the recognizer. *)
Lemma run_transfer_spec (steps : list Table.transfer_step) :
  forall r : Table.VolcengineRecognizer,
  0 <= Table.audioDataSent_ r <= size (Table.audioData_ r) ->
  size (Table.audioData_ r) < 2 ^ 64 ->
  exists r' evs,
    Table.run_transfer r steps = Ok (r', evs) /\
    same_settings r r' /\
    Table.audioDataSent_ r <= Table.audioDataSent_ r' <= size (Table.audioData_ r) /\
    uploads evs
    = String.substring (Z.to_nat (Table.audioDataSent_ r))
        (Z.to_nat (Table.audioDataSent_ r' - Table.audioDataSent_ r))
        (Table.audioData_ r) /\
    Table.responseBuffer_ r' = (Table.responseBuffer_ r ++ received steps)%string /\
    (Table.currentResult_ r' = Table.currentResult_ r \/ Table.currentResult_ r' = "") /\
    filter is_result_callback evs = [] /\
    filter is_error_callback evs = [].
Proof.
  induction steps as [|step rest IH]; intros r Hs Hlt.
  - exists r, []. cbn. rewrite Z.sub_diag, substring_zero, append_nil_r.
    repeat (split; [first [reflexivity | apply same_settings_refl | lia | now left]|]).
    reflexivity.
  - cbn [Table.run_transfer]. destruct step as [sz nm | data].
    + destruct (read_callback_spec r sz nm Hs Hlt) as (n & -> & Hn & _).
      cbn [bind].
      set (r1 := Table.with_audioDataSent r (Table.audioDataSent_ r + n)).
      destruct (IH r1) as (r' & evs & -> & Hset & Hsent & Hup & Hbuf & Hcur & Hres & Herr);
        [cbn; lia | cbn; lia |].
      cbn in Hsent, Hup, Hbuf, Hcur.
      eexists _, _. cbn [bind]. split; [reflexivity|].
      split; [eapply same_settings_trans; [|exact Hset]; unfold same_settings; cbn; tauto|].
      split; [lia|].
      split.
      { rewrite uploads_app, Hup.
        assert (Hu : uploads (if n >? 0
                         then [Table.upload (String.substring (Z.to_nat (Table.audioDataSent_ r))
                                               (Z.to_nat n) (Table.audioData_ r))]
                         else [])
                = String.substring (Z.to_nat (Table.audioDataSent_ r)) (Z.to_nat n)
                                   (Table.audioData_ r)).
        { destruct (n >? 0) eqn:E; cbn; [apply append_nil_r|].
          assert (n = 0) as -> by lia. cbn. rewrite substring_zero. reflexivity. }
        rewrite Hu.
        replace (Z.to_nat (Table.audioDataSent_ r + n))
          with (Z.to_nat (Table.audioDataSent_ r) + Z.to_nat n)%nat by lia.
        rewrite substring_append_next.
        - f_equal. lia.
        - unfold size in *. lia. }
      split; [exact Hbuf|]. split; [exact Hcur|].
      rewrite !filter_app, Hres, Herr. destruct (n >? 0); cbn; auto.
    + destruct (write_callback_spec r data)
        as (r1 & e1 & -> & Hset1 & Hsent1 & Hbuf1 & Hcur1 & Hres1 & Herr1 & Hup1).
      cbn [bind].
      assert (Haudio : Table.audioData_ r1 = Table.audioData_ r)
        by (unfold same_settings in Hset1; tauto).
      destruct (IH r1) as (r' & evs & -> & Hset & Hsent & Hup & Hbuf & Hcur & Hres & Herr);
        [rewrite Hsent1, Haudio; lia | rewrite Haudio; lia |].
      rewrite Hsent1, Haudio in *.
      eexists _, _. cbn [bind]. split; [reflexivity|].
      split; [eapply same_settings_trans; eassumption|].
      split; [lia|].
      split; [rewrite uploads_app, Hup1, Hup; reflexivity|].
      split; [rewrite Hbuf, Hbuf1; cbn; apply append_assoc|].
      split; [destruct Hcur as [-> | ->]; auto|].
      rewrite !filter_app, Hres, Herr, Hres1, Herr1. auto.
Qed.

Lemma errors_error_if b text :
  (List.length (filter is_error_callback (Table.error_if b text)) <= 1)%nat /\
  (b = false -> Table.error_if b text = []).
Proof. destruct b; cbn; split; auto; discriminate. Qed.

Lemma empty_size (s : string) : empty s = false -> 0 < size s.
Proof. destruct s; [discriminate|]. intros _. rewrite size_String. pose proof (size_nonneg s). lia. Qed.

(** The transfer [recognize] starts, seen from the request it stored. *)
Lemma recognize_transfer (r : Table.VolcengineRecognizer) (audioData : string)
  (onResult onError : bool) (steps : list Table.transfer_step) :
  size audioData < 2 ^ 64 ->
  exists r1 evs,
    Table.run_transfer
      (Table.with_curlHandle (Table.store_request r audioData onResult onError) true)
      steps = Ok (r1, evs) /\
    same_settings
      (Table.with_curlHandle (Table.store_request r audioData onResult onError) true) r1 /\
    0 <= Table.audioDataSent_ r1 <= size audioData /\
    uploads evs = String.substring 0 (Z.to_nat (Table.audioDataSent_ r1)) audioData /\
    Table.responseBuffer_ r1 = received steps /\
    Table.currentResult_ r1 = "" /\
    filter is_result_callback evs = [] /\
    filter is_error_callback evs = [].
Proof.
  intros Hlt.
  destruct (run_transfer_spec steps
              (Table.with_curlHandle (Table.store_request r audioData onResult onError) true))
    as (r1 & evs & Hrun & Hset & Hsent & Hup & Hbuf & Hcur & Hres & Herr).
  - cbn. pose proof (size_nonneg audioData). lia.
  - exact Hlt.
  - cbn in Hsent, Hup, Hbuf, Hcur. rewrite Z.sub_0_r in Hup.
    exists r1, evs. repeat (split; [first [assumption | lia]|]).
    split; [destruct Hcur; assumption|]. split; assumption.
Qed.

(** X19. [parseResponse] of the table recognizer never runs the result
    callback, whatever the answer is: the offset added to the position of
    the result pattern is one short, so the text it cuts out is always
    empty.  The same holds for the message it logs for an API error, and
    [currentResult_] is either left alone or cleared. *)
Theorem table_parse_response_never_reports_text (r : Table.VolcengineRecognizer) (json : string) :
  exists r' evs,
    Table.parseResponse r json = Ok (r', evs) /\
    filter is_result_callback evs = [] /\
    (forall errorMsg, In (Table.log_api_error errorMsg) evs -> errorMsg = "") /\
    (Table.currentResult_ r' = Table.currentResult_ r \/ Table.currentResult_ r' = "").
Proof.
  destruct (parseResponse_cases r json) as (r' & evs & H & Hev & Hr).
  exists r', evs. split; [exact H|].
  split; [destruct Hev as [-> | ->]; reflexivity|].
  split.
  - intros m Hin. destruct Hev as [-> | ->]; cbn in Hin; [tauto|].
    destruct Hin as [Hin|[]]. congruence.
  - destruct Hr as [-> | ->]; cbn; auto.
Qed.

(** X20. However libcurl interleaves its requests for data with the data
    it delivers, a transfer never fails, the bytes the read callback hands
    out are, in order, the part of the audio between the old and the new
    value of [audioDataSent_], which never passes the end of the audio, and
    the response buffer grows by exactly the delivered chunks. *)
Theorem transfer_uploads_audio_in_order (r : Table.VolcengineRecognizer) (steps : list Table.transfer_step) :
  0 <= Table.audioDataSent_ r <= size (Table.audioData_ r) ->
  size (Table.audioData_ r) < 2 ^ 64 ->
  exists r' evs,
    Table.run_transfer r steps = Ok (r', evs) /\
    Table.audioData_ r' = Table.audioData_ r /\
    Table.audioDataSent_ r <= Table.audioDataSent_ r' <= size (Table.audioData_ r) /\
    uploads evs
    = String.substring (Z.to_nat (Table.audioDataSent_ r))
        (Z.to_nat (Table.audioDataSent_ r' - Table.audioDataSent_ r))
        (Table.audioData_ r) /\
    Table.responseBuffer_ r' = (Table.responseBuffer_ r ++ received steps)%string.
Proof.
  intros Hs Hlt.
  destruct (run_transfer_spec steps r Hs Hlt)
    as (r' & evs & Hrun & Hset & Hsent & Hup & Hbuf & _).
  exists r', evs. unfold same_settings in Hset. tauto.
Qed.

(** X21. [recognize] of the table recognizer always returns, never runs
    the result callback, runs the error callback at most once (and never
    when none was given), and what it posts is a prefix of the raw audio. *)
Theorem table_recognize_never_reports_a_result (r : Table.VolcengineRecognizer) (audioData : string)
  (onResult onError : bool) (env : Table.curl_env) :
  size audioData < 2 ^ 64 ->
  exists r' evs,
    Table.recognize r audioData onResult onError env = Ok (r', evs) /\
    filter is_result_callback evs = [] /\
    (List.length (filter is_error_callback evs) <= 1)%nat /\
    (onError = false -> filter is_error_callback evs = []) /\
    exists n, uploads evs = String.substring 0 n audioData.
Proof.
  intros Hlt. unfold Table.recognize.
  destruct (Table.isReady_ r) eqn:Hready; cbn [negb].
  2:{ eexists _, _. split; [reflexivity|]. destruct onError; cbn;
      repeat (split; [first [reflexivity | lia | discriminate | auto]|]);
      exists 0%nat; rewrite substring_zero; reflexivity. }
  destruct (empty audioData) eqn:Hempty.
  { eexists _, _. split; [reflexivity|]. destruct onError; cbn;
      repeat (split; [first [reflexivity | lia | discriminate | auto]|]);
      exists 0%nat; rewrite substring_zero; reflexivity. }
  unfold Table.connectWebSocket.
  destruct (Table.easy_init_ok env) eqn:Hinit; cbn [negb].
  2:{ cbn. eexists _, _. split; [reflexivity|]. destruct onError; cbn;
      repeat (split; [first [reflexivity | lia | discriminate | auto]|]);
      exists 0%nat; rewrite substring_zero; reflexivity. }
  destruct (recognize_transfer r audioData onResult onError (Table.transfer env) Hlt)
    as (r1 & evs & Hrun & Hset & Hsent & Hup & Hbuf & Hcur & Hres & Herr).
  rewrite Hrun. cbn [bind].
  assert (HonE : Table.onError_ r1 = onError) by (unfold same_settings in Hset; cbn in Hset; tauto).
  assert (Hcon : Table.curlHandle_ r1 = true) by (unfold same_settings in Hset; cbn in Hset; tauto).
  destruct (Table.perform_ok env) eqn:Hperf; cbn.
  - unfold Table.sendAudioData. cbn. rewrite Hcon. cbn. eexists _, _. split; [reflexivity|]. cbn.
    rewrite Hres, Herr. cbn. repeat (split; [first [reflexivity | lia | auto]|]).
    eexists. exact Hup.
  - eexists _, _. split; [reflexivity|]. rewrite HonE. cbn.
    rewrite !filter_app, Hres, Herr, uploads_app, Hup.
    destruct onError; cbn; rewrite ?append_nil_r;
      repeat (split; [first [reflexivity | lia | discriminate | auto]|]);
      eexists; reflexivity.
Qed.

Lemma recognize_success (r : Table.VolcengineRecognizer) (audioData : string)
  (onResult onError : bool) (env : Table.curl_env) :
  Table.isReady_ r = true ->
  empty audioData = false ->
  size audioData < 2 ^ 64 ->
  Table.easy_init_ok env = true ->
  Table.perform_ok env = true ->
  exists r' evs,
    Table.recognize r audioData onResult onError env
    = Ok (r', Table.request (c_str (Table.apiEndpoint_ r))
                [c_str ("Authorization: Bearer; " ++ Table.token_ r);
                 "Content-Type: application/json"]
                (size audioData) :: evs) /\
    filter is_error_callback evs = [] /\
    uploads evs = String.substring 0 (Z.to_nat (Table.audioDataSent_ r')) audioData /\
    Table.audioDataSent_ r' <= size audioData /\
    Table.responseBuffer_ r' = received (Table.transfer env) /\
    Table.currentResult_ r' = "" /\
    Table.curlHandle_ r' = true /\
    Table.isConnected_ r' = true /\
    Table.recognitionStarted_ r' = true /\
    Table.onResult_ r' = onResult /\
    Table.onError_ r' = onError.
Proof.
  intros Hready Hempty Hlt Hinit Hperf. unfold Table.recognize.
  rewrite Hready, Hempty. cbn [negb]. unfold Table.connectWebSocket.
  rewrite Hinit, Hperf. cbn [negb].
  destruct (recognize_transfer r audioData onResult onError (Table.transfer env) Hlt)
    as (r1 & evs & Hrun & Hset & Hsent & Hup & Hbuf & Hcur & Hres & Herr).
  rewrite Hrun. cbn [bind].
  unfold same_settings in Hset. cbn in Hset.
  destruct Hset as (_ & _ & _ & Htok & _ & Hend & Hcon & _ & HonR & HonE & _).
  cbn. unfold Table.sendAudioData. cbn. rewrite Hcon. cbn.
  eexists _, evs. split; [reflexivity|]. cbn.
  repeat (split; [first [assumption | lia | reflexivity]|]). assumption.
Qed.

Lemma recognize_failure (r : Table.VolcengineRecognizer) (audioData : string)
  (onResult onError : bool) (env : Table.curl_env) :
  Table.isReady_ r = true ->
  empty audioData = false ->
  size audioData < 2 ^ 64 ->
  Table.easy_init_ok env && Table.perform_ok env = false ->
  exists r' evs,
    Table.recognize r audioData onResult onError env
    = Ok (r', evs ++ Table.error_if onError "Failed to connect to Volcengine API")%list /\
    filter is_error_callback evs = [] /\
    Table.curlHandle_ r' = false /\
    Table.isConnected_ r' = false /\
    Table.recognitionStarted_ r' = false /\
    Table.onResult_ r' = false /\
    Table.onError_ r' = false /\
    Table.audioData_ r' = audioData.
Proof.
  intros Hready Hempty Hlt Hfail. unfold Table.recognize.
  rewrite Hready, Hempty. cbn [negb]. unfold Table.connectWebSocket.
  destruct (Table.easy_init_ok env) eqn:Hinit; cbn [negb].
  2:{ cbn. exists (Table.closeConnection
                 (Table.with_curlHandle (Table.store_request r audioData onResult onError) false)), [].
      cbn. repeat (split; [reflexivity|]). reflexivity. }
  cbn in Hfail. rewrite Hfail. cbn [negb].
  destruct (recognize_transfer r audioData onResult onError (Table.transfer env) Hlt)
    as (r1 & evs & Hrun & Hset & Hsent & Hup & Hbuf & Hcur & Hres & Herr).
  rewrite Hrun. cbn [bind].
  unfold same_settings in Hset. cbn in Hset.
  destruct Hset as (_ & _ & _ & Htok & _ & Hend & Hcon & Haud & HonR & HonE & _).
  cbn. rewrite HonE.
  eexists _, (_ :: evs). split; [reflexivity|]. cbn.
  repeat (split; [first [assumption | reflexivity]|]). assumption.
Qed.

Lemma length_substring_0 (s : string) (n : nat) :
  (n <= String.length s)%nat -> String.length (String.substring 0 n s) = n.
Proof.
  revert n. induction s as [|b s IH]; intros [|n] H; cbn in *; try lia.
  rewrite IH; lia.
Qed.

Lemma alsa_loop_even (reads : list Capture.alsa_read) :
  forall data data',
    Capture.alsa_loop reads data = Returns data' ->
    size data mod 2 = 0 -> size data' mod 2 = 0.
Proof.
  induction reads as [|r rest IH]; intros data data' H Hev.
  - cbn in H. congruence.
  - cbn [Capture.alsa_loop] in H. cbv zeta in H.
    destruct (Capture.snd_pcm_readi r <? 0).
    + destruct (Capture.snd_pcm_recover r <? 0); [congruence | eauto].
    + destruct (Capture.snd_pcm_readi r >? 0); [|eauto].
      set (bytes := (Capture.snd_pcm_readi r
                     * (Capture.AUDIO_BYTES_PER_SAMPLE * Capture.AUDIO_CHANNELS))
                    mod 2 ^ 64) in *.
      destruct (bytes >? size (Capture.frames r)) eqn:E; [discriminate|].
      apply IH in H; [exact H|].
      rewrite size_append. unfold size at 2.
      assert (Hb : 0 <= bytes) by (subst bytes; apply Z.mod_pos_bound; lia).
      rewrite length_substring_0 by (unfold size in E; lia).
      rewrite Z2Nat.id by exact Hb.
      assert (Hbe : bytes mod 2 = 0).
      { subst bytes. change (Capture.AUDIO_BYTES_PER_SAMPLE * Capture.AUDIO_CHANNELS) with 2.
        change (2 ^ 64) with (2 * 2 ^ 63).
        rewrite Z.mul_comm, Zmult_mod_distr_l.
        rewrite Z.mul_comm. apply Z_mod_mult. }
      rewrite Z.add_mod, Hev, Hbe by lia. reflexivity.
Qed.

Lemma pulse_loop_silent (reads : list (Z * string)) (data : string) :
  forallb (fun rb => fst rb <=? 0) reads = true ->
  Capture.pulseAudioReadLoop reads data = Returns data.
Proof.
  induction reads as [|[res buf] rest IH]; intros H; [reflexivity|].
  cbn in H. apply andb_true_iff in H. destruct H as [H1 H2].
  cbn [Capture.pulseAudioReadLoop].
  destruct (res <? 0); [reflexivity|].
  destruct (res >? 0) eqn:E; [lia|]. auto.
Qed.

(** What a successful start leaves. *)
Lemma startRecording_true (a a1 : Capture.AudioCapture) :
  Capture.startRecording a = Returns (true, a1) ->
  Capture.backendType_ a <> Capture.None_ /\
  Capture.readThread_ a = false /\
  a1 = Capture.mk_capture (Capture.backendType_ a) true false
         (Capture.pulseContext_ a) (Capture.alsaDevice_ a) "" true /\
  match Capture.backendType_ a with
  | Capture.PulseAudio => Capture.pulseContext_ a = true
  | Capture.ALSA => Capture.alsaDevice_ a = true
  | Capture.None_ => False
  end.
Proof.
  unfold Capture.startRecording, Capture.startPulseAudioRecording,
    Capture.startALSARecording, Capture.start_thread.
  destruct a as [t rec stopR pc ad data th]. cbn.
  destruct t; cbn.
  - destruct pc; cbn; [|discriminate]. destruct th; [discriminate|].
    intros H. injection H as <-. repeat split; congruence.
  - destruct ad; cbn; [|discriminate]. destruct th; [discriminate|].
    intros H. injection H as <-. repeat split; congruence.
  - discriminate.
Qed.

(** X24. With the ALSA backend, what a recording holds after start and
    stop is a whole number of 16-bit samples, and the read thread has been
    joined. *)
Theorem alsa_recording_has_whole_samples (a a1 a2 : Capture.AudioCapture) (w : Capture.recording) :
  Capture.backendType_ a = Capture.ALSA ->
  Capture.startRecording a = Returns (true, a1) ->
  Capture.stopRecording a1 w = Returns a2 ->
  size (Capture.getRecordedData a2) mod 2 = 0 /\
  Capture.isRecording a2 = false /\
  Capture.readThread_ a2 = false.
Proof.
  intros Hb Hstart Hstop.
  destruct (startRecording_true _ _ Hstart) as (_ & _ & -> & _).
  rewrite Hb in Hstop.
  unfold Capture.stopRecording, Capture.stopALSARecording in Hstop. cbn in Hstop.
  unfold Capture.alsaAudioReadLoop in Hstop.
  destruct (Capture.snd_pcm_prepare w <? 0).
  - cbn in Hstop. injection Hstop as <-. cbn. auto.
  - destruct (Capture.alsa_loop (Capture.alsa_reads w) "") as [data|why] eqn:Hloop;
      cbn in Hstop; [|discriminate].
    injection Hstop as <-. cbn.
    split; [|auto]. eapply alsa_loop_even; [exact Hloop | reflexivity].
Qed.

(** X25. With the PulseAudio backend data is kept only from reads that
    return a positive value: a recording in which every [pa_simple_read]
    returns zero or an error ends with no data at all. *)
Theorem pulse_recording_needs_positive_reads (a a1 : Capture.AudioCapture) (w : Capture.recording) :
  Capture.backendType_ a = Capture.PulseAudio ->
  Capture.startRecording a = Returns (true, a1) ->
  forallb (fun rb => fst rb <=? 0) (Capture.pa_simple_read w) = true ->
  exists a2,
    Capture.stopRecording a1 w = Returns a2 /\
    Capture.getRecordedData a2 = "" /\
    Capture.isRecording a2 = false.
Proof.
  intros Hb Hstart Hreads.
  destruct (startRecording_true _ _ Hstart) as (_ & _ & -> & _).
  rewrite Hb.
  unfold Capture.stopRecording, Capture.stopPulseAudioRecording. cbn.
  rewrite (pulse_loop_silent _ _ Hreads). cbn.
  eexists. split; [reflexivity|]. cbn. auto.
Qed.

(** X26. Starting a recording that is already running ends the process:
    the thread of the first start is still joinable when the second start
    replaces it. *)
Theorem second_start_terminates (a a1 : Capture.AudioCapture) :
  Capture.startRecording a = Returns (true, a1) ->
  Capture.startRecording a1 = Stops terminated.
Proof.
  intros Hstart.
  destruct (startRecording_true _ _ Hstart) as (_ & _ & -> & Hdev).
  unfold Capture.startRecording, Capture.startPulseAudioRecording,
    Capture.startALSARecording, Capture.start_thread. cbn.
  destruct (Capture.backendType_ a); cbn; [rewrite Hdev | rewrite Hdev | tauto];
    reflexivity.
Qed.

(** X27. [init] opens the detected backend twice, once to probe and once
    more to initialise, and succeeds only if both attempts do; whether
    [startRecording] succeeds afterwards depends on the probe alone, so it
    can succeed after a failed [init]. *)
Theorem capture_init_result_does_not_gate_start (d : Capture.devices) :
  fst (Capture.init Capture.new_capture d)
  = (Capture.pulse_probe d && Capture.pulse_init d)
    || (negb (Capture.pulse_probe d) && setup_ok (Capture.alsa_probe d)
        && setup_ok (Capture.alsa_init d)) /\
  exists a,
    Capture.startRecording (snd (Capture.init Capture.new_capture d))
    = Returns (Capture.pulse_probe d || setup_ok (Capture.alsa_probe d), a).
Proof.
  assert (Halsa : forall a s, Capture.initALSA a s
                   = if setup_ok s then (true, Capture.with_alsaDevice a true) else (false, a)).
  { intros a s. unfold setup_ok, Capture.initALSA.
    repeat match goal with |- context [if ?c then _ else _] => destruct c; cbn; try reflexivity end. }
  unfold Capture.init, Capture.detectBackend, Capture.initPulseAudio.
  destruct (Capture.pulse_probe d); cbn.
  - destruct (Capture.pulse_init d); cbn; split; try reflexivity; eexists; reflexivity.
  - rewrite Halsa. destruct (setup_ok (Capture.alsa_probe d)); cbn.
    + rewrite Halsa. destruct (setup_ok (Capture.alsa_init d)); cbn;
        split; try reflexivity; eexists; reflexivity.
    + split; [reflexivity|]. eexists; reflexivity.
Qed.

(** No callback runs during a transfer, whatever libcurl asks for. *)
Lemma run_transfer_no_callbacks (steps : list Table.transfer_step) :
  forall r r' evs,
    Table.run_transfer r steps = Ok (r', evs) ->
    filter is_result_callback evs = [] /\ filter is_error_callback evs = [].
Proof.
  induction steps as [|step rest IH]; intros r r' evs H.
  - cbn in H. injection H as <- <-. auto.
  - cbn [Table.run_transfer] in H. destruct step as [sz nm | data].
    + unfold Table.websocketReadCallback in H.
      set (toSend := Z.min _ _) in H.
      destruct (toSend >? 0).
      * destruct (_ <=? _); [|discriminate]. cbn [bind] in H.
        destruct (Table.run_transfer _ rest) as [[r2 e2]| |] eqn:Hrest; cbn in H;
          try discriminate.
        injection H as <- <-. apply IH in Hrest. cbn. exact Hrest.
      * cbn [bind] in H.
        destruct (Table.run_transfer _ rest) as [[r2 e2]| |] eqn:Hrest; cbn in H;
          try discriminate.
        injection H as <- <-. apply IH in Hrest. exact Hrest.
    + destruct (write_callback_spec r data)
        as (r1 & e1 & Hw & _ & _ & _ & _ & Hres1 & Herr1 & _).
      rewrite Hw in H. cbn [bind] in H.
      destruct (Table.run_transfer r1 rest) as [[r2 e2]| |] eqn:Hrest; cbn in H;
        try discriminate.
      injection H as <- <-. apply IH in Hrest.
      rewrite !filter_app, Hres1, Herr1. exact Hrest.
Qed.

Lemma filter_result_error_if b text :
  filter is_result_callback (Table.error_if b text) = [].
Proof. destruct b; reflexivity. Qed.

Lemma recognize_no_result (r r' : Table.VolcengineRecognizer) (audioData : string)
  (onResult onError : bool) (env : Table.curl_env) (evs : list Table.event) :
  Table.recognize r audioData onResult onError env = Ok (r', evs) ->
  filter is_result_callback evs = [].
Proof.
  unfold Table.recognize.
  destruct (Table.isReady_ r); cbn [negb].
  2:{ intros H. injection H as <- <-. apply filter_result_error_if. }
  destruct (empty audioData).
  { intros H. injection H as <- <-. apply filter_result_error_if. }
  unfold Table.connectWebSocket.
  destruct (Table.easy_init_ok env); cbn [negb].
  2:{ cbn. intros H. injection H as <- <-. apply filter_result_error_if. }
  destruct (Table.run_transfer _ (Table.transfer env)) as [[r1 e1]| |] eqn:Hrun;
    cbn [bind]; try discriminate.
  apply run_transfer_no_callbacks in Hrun. destruct Hrun as [Hres _].
  destruct (Table.perform_ok env); cbn [negb bind].
  - unfold Table.sendStartEvent, Table.sendStopEvent. cbn [negb].
    destruct (Table.sendAudioData _ _); cbn [negb];
      intros H; injection H as <- <-; cbn; rewrite ?filter_app, Hres;
      try apply filter_result_error_if; reflexivity.
  - intros H; injection H as <- <-; cbn. rewrite filter_app, Hres.
    apply filter_result_error_if.
Qed.

Lemma setState_idem m s : Voice.setState (Voice.setState m s) s = Voice.setState m s.
Proof.
  unfold Voice.setState. destruct (Voice.state_eqb (Voice.state_ m) s) eqn:E; cbn.
  - rewrite E. reflexivity.
  - destruct s; reflexivity.
Qed.

Lemma state_setState m s : Voice.state_ (Voice.setState m s) = s.
Proof.
  unfold Voice.setState. destruct (Voice.state_ m) eqn:E, s; cbn; congruence.
Qed.

(** Without a result callback among the events, delivering them commits
    nothing; an error callback sends the manager to Idle. *)
Lemma deliver_no_results (evs : list Table.event) :
  forall m,
    filter is_result_callback evs = [] ->
    Voice.deliver m evs
    = (if existsb is_error_callback evs then Voice.setState m Voice.Idle else m,
       map Voice.recognizer_does evs).
Proof.
  induction evs as [|e rest IH]; intros m H; [reflexivity|].
  cbn [Voice.deliver]. destruct e; cbn in H; try discriminate.
  - unfold Voice.onError. rewrite (IH _ H). cbn.
    destruct (existsb is_error_callback rest); [rewrite setState_idem|]; reflexivity.
  - rewrite (IH _ H). reflexivity.
  - rewrite (IH _ H). reflexivity.
  - rewrite (IH _ H). reflexivity.
Qed.

Lemma no_commit_map evs : filter is_commit (map Voice.recognizer_does evs) = [].
Proof. induction evs; cbn; auto. Qed.

Lemma stopRecording_no_commit m w m' out :
  Voice.stopRecording m w = Returns (m', out) -> filter is_commit out = [].
Proof.
  unfold Voice.stopRecording.
  destruct (Voice.state_eqb (Voice.state_ m) Voice.Recording); cbn [negb].
  2:{ intros H. injection H as <- <-. reflexivity. }
  destruct (Voice.audioCapture_ m) as [a|]; [|discriminate].
  destruct (Capture.stopRecording a (Voice.sound w)) as [a'|]; cbn [fate_bind]; [|discriminate].
  destruct (empty (Capture.getRecordedData a')).
  { intros H. injection H as <- <-. reflexivity. }
  destruct (Voice.recognizer_ _) as [r|]; [|discriminate].
  destruct (Table.recognize r _ true true (Voice.curl w)) as [[r1 evs]| |] eqn:Hrec;
    cbn [of_outcome fate_bind]; try discriminate.
  apply recognize_no_result in Hrec.
  rewrite (deliver_no_results _ _ Hrec).
  intros H. injection H as <- <-. apply no_commit_map.
Qed.

Lemma startRecording_cases m :
  Voice.startRecording m = Returns m \/
  (exists why, Voice.startRecording m = Stops why) \/
  exists a a',
    Voice.state_ m = Voice.Idle /\ Voice.audioCapture_ m = Some a /\
    ((Capture.startRecording a = Returns (true, a') /\
      Voice.startRecording m
      = Returns (Voice.setState (Voice.with_audioCapture m (Some a')) Voice.Recording)) \/
     (Capture.startRecording a = Returns (false, a') /\
      Voice.startRecording m = Returns (Voice.with_audioCapture m (Some a')))).
Proof.
  unfold Voice.startRecording.
  destruct (Voice.state_ m) eqn:Hs; cbn; auto.
  destruct (Voice.audioCapture_ m) as [a|]; [|right; left; eauto].
  destruct (Capture.startRecording a) as [[ok a']|why] eqn:Hc; cbn; [|right; left; eauto].
  right. right. exists a, a'. split; [reflexivity|]. split; [reflexivity|].
  destruct ok; [left | right]; (split; [exact Hc | reflexivity]).
Qed.

Lemma step_no_commit m c w m' out :
  Voice.step m c w = Returns (m', out) -> filter is_commit out = [].
Proof.
  destruct c as [event| | |ic]; cbn [Voice.step].
  - unfold Voice.handleKeyEvent.
    destruct (Voice.config_enabled m); cbn [negb].
    2:{ intros H. injection H as <- <-. reflexivity. }
    match goal with |- context [Voice.handleStateTransition ?x _ _] => set (m1 := x) end.
    unfold Voice.handleStateTransition.
    destruct (Voice.state_ m1).
    + destruct (_ && _).
      * destruct (Voice.startRecording m1); cbn; [|discriminate].
        intros H. injection H as <- <-. reflexivity.
      * intros H. injection H as <- <-. reflexivity.
    + destruct (_ && _); [apply stopRecording_no_commit|].
      intros H. injection H as <- <-. reflexivity.
    + intros H. injection H as <- <-. reflexivity.
    + intros H. injection H as <- <-. reflexivity.
  - destruct (Voice.startRecording m); cbn; [|discriminate].
    intros H. injection H as <- <-. reflexivity.
  - apply stopRecording_no_commit.
  - intros H. injection H as <- <-. reflexivity.
Qed.

(** X28. Whatever keys arrive and however recordings and transfers go, the
    manager driven through key events, [startRecording], [stopRecording] and
    [setInputContext] never commits text to the input context. *)
Theorem manager_never_commits (m m' : Voice.VoiceInputManager)
  (calls : list (Voice.call * Voice.world)) (out : list Voice.output) :
  Voice.run m calls = Returns (m', out) ->
  filter is_commit out = [].
Proof.
  revert m m' out. induction calls as [|[c w] rest IH]; intros m m' out H.
  - cbn in H. injection H as <- <-. reflexivity.
  - cbn [Voice.run] in H.
    destruct (Voice.step m c w) as [[m1 o1]|] eqn:Hstep; cbn in H; [|discriminate].
    destruct (Voice.run m1 rest) as [[m2 o2]|] eqn:Hrun; cbn in H; [|discriminate].
    injection H as <- <-. rewrite filter_app.
    rewrite (step_no_commit _ _ _ _ _ Hstep), (IH _ _ _ Hrun). reflexivity.
Qed.

(** In Processing no call changes the state or is heard outside. *)
Lemma step_in_processing m c w :
  Voice.state_ m = Voice.Processing ->
  exists m', Voice.step m c w = Returns (m', []) /\
             Voice.state_ m' = Voice.Processing.
Proof.
  intros Hs. destruct c as [event| | |ic]; cbn [Voice.step].
  - unfold Voice.handleKeyEvent.
    destruct (Voice.config_enabled m); cbn [negb]; [|eauto].
    match goal with |- context [Voice.handleStateTransition ?x _ _] => set (m1 := x) end.
    assert (H1 : Voice.state_ m1 = Voice.Processing).
    { subst m1. destruct (_ =? _); [exact Hs|]. destruct (_ =? _); exact Hs. }
    unfold Voice.handleStateTransition. rewrite H1. eauto.
  - unfold Voice.startRecording. rewrite Hs. cbn. eauto.
  - unfold Voice.stopRecording. rewrite Hs. cbn. eauto.
  - eauto.
Qed.

Lemma run_in_processing calls :
  forall m, Voice.state_ m = Voice.Processing ->
  exists m', Voice.run m calls = Returns (m', []) /\
             Voice.state_ m' = Voice.Processing.
Proof.
  induction calls as [|[c w] rest IH]; intros m Hs.
  - exists m. auto.
  - cbn [Voice.run]. destruct (step_in_processing m c w Hs) as (m1 & -> & H1).
    cbn. destruct (IH m1 H1) as (m2 & -> & H2). cbn. eauto.
Qed.

(** The key event that ends a recording, up to the call of the recognizer. *)
Lemma release_stops_recording m event w :
  Voice.config_enabled m = true ->
  Voice.state_ m = Voice.Recording ->
  Voice.isRelease event = true ->
  Voice.sym event = Voice.FcitxKey_Shift_L \/ Voice.sym event = Voice.FcitxKey_Shift_R ->
  exists m1,
    Voice.handleKeyEvent m event w = Voice.stopRecording m1 w /\
    Voice.state_ m1 = Voice.Recording /\
    Voice.audioCapture_ m1 = Voice.audioCapture_ m /\
    Voice.recognizer_ m1 = Voice.recognizer_ m /\
    Voice.inputContext_ m1 = Voice.inputContext_ m.
Proof.
  intros Hen Hs Hrel Hsym. unfold Voice.handleKeyEvent. rewrite Hen. cbn [negb].
  match goal with |- context [Voice.handleStateTransition ?x _ _] => set (m1 := x) end.
  assert (H1 : Voice.state_ m1 = Voice.Recording /\
               Voice.audioCapture_ m1 = Voice.audioCapture_ m /\
               Voice.recognizer_ m1 = Voice.recognizer_ m /\
               Voice.inputContext_ m1 = Voice.inputContext_ m).
  { subst m1. destruct (_ =? _); [cbn; auto|]. destruct (_ =? _); cbn; auto. }
  exists m1. split; [|exact H1].
  unfold Voice.handleStateTransition. destruct H1 as (-> & _). rewrite Hrel.
  destruct Hsym as [-> | ->]; reflexivity.
Qed.

(** X29. When releasing a shift key ends a recording that holds data and
    the transfer succeeds, the manager is left in Processing, and no later
    key event or call of [startRecording], [stopRecording] or
    [setInputContext] changes that or has any visible effect. *)
Theorem manager_stays_in_processing (m : Voice.VoiceInputManager) (event : Voice.KeyEvent)
  (w : Voice.world) (a a' : Capture.AudioCapture) (r : Table.VolcengineRecognizer) :
  Voice.config_enabled m = true ->
  Voice.state_ m = Voice.Recording ->
  Voice.isRelease event = true ->
  Voice.sym event = Voice.FcitxKey_Shift_L \/ Voice.sym event = Voice.FcitxKey_Shift_R ->
  Voice.audioCapture_ m = Some a ->
  Capture.stopRecording a (Voice.sound w) = Returns a' ->
  empty (Capture.getRecordedData a') = false ->
  size (Capture.getRecordedData a') < 2 ^ 64 ->
  Voice.recognizer_ m = Some r ->
  Table.isReady_ r = true ->
  Table.easy_init_ok (Voice.curl w) = true ->
  Table.perform_ok (Voice.curl w) = true ->
  exists m1 out,
    Voice.handleKeyEvent m event w = Returns (m1, out) /\
    Voice.state_ m1 = Voice.Processing /\
    filter is_commit out = [] /\
    forall calls, exists m2,
      Voice.run m1 calls = Returns (m2, []) /\
      Voice.state_ m2 = Voice.Processing.
Proof.
  intros Hen Hs Hrel Hsym Hcap Hstop Hdata Hlt Hrec Hready Hinit Hperf.
  destruct (release_stops_recording m event w Hen Hs Hrel Hsym)
    as (m0 & -> & Hs0 & Hcap0 & Hrec0 & _).
  unfold Voice.stopRecording. rewrite Hs0, Hcap0, Hcap. cbn [Voice.state_eqb negb].
  rewrite Hstop. cbn [fate_bind]. rewrite Hdata.
  replace (Voice.recognizer_ (Voice.setState (Voice.with_audioCapture m0 (Some a')) Voice.Processing))
    with (Some r)
    by (unfold Voice.setState; cbn; rewrite Hs0; cbn; congruence).
  destruct (recognize_success r (Capture.getRecordedData a') true true (Voice.curl w)
              Hready Hdata Hlt Hinit Hperf)
    as (r1 & evs & Hrecog & Herr & _).
  rewrite Hrecog. cbn [of_outcome fate_bind].
  pose proof (recognize_no_result _ _ _ _ _ _ _ Hrecog) as Hres.
  rewrite (deliver_no_results _ _ Hres).
  assert (Hex : existsb is_error_callback
                  (Table.request (c_str (Table.apiEndpoint_ r))
                     [c_str ("Authorization: Bearer; " ++ Table.token_ r);
                      "Content-Type: application/json"]
                     (size (Capture.getRecordedData a')) :: evs) = false).
  { cbn. clear -Herr. induction evs as [|e evs IH]; [reflexivity|].
    cbn in *. destruct (is_error_callback e); [discriminate|]. auto. }
  rewrite Hex.
  eexists _, _. split; [reflexivity|].
  assert (Hp : Voice.state_ (Voice.with_recognizer
                 (Voice.setState (Voice.with_audioCapture m0 (Some a')) Voice.Processing)
                 (Some r1)) = Voice.Processing)
    by (cbn; apply state_setState).
  split; [exact Hp|]. split; [apply no_commit_map|].
  intros calls. apply run_in_processing. exact Hp.
Qed.

(** X30. A key event moves the manager into Recording only from Idle, when
    voice input is enabled, on a key press (not a release) after which both
    shift keys are held, and when the capture started; nothing is visible
    outside. *)
Theorem recording_starts_on_press_with_both_shifts (m m' : Voice.VoiceInputManager) (event : Voice.KeyEvent)
  (w : Voice.world) (out : list Voice.output) :
  Voice.handleKeyEvent m event w = Returns (m', out) ->
  Voice.state_eqb (Voice.state_ m) Voice.Recording = false ->
  Voice.state_ m' = Voice.Recording ->
  Voice.state_ m = Voice.Idle /\
  Voice.config_enabled m = true /\
  Voice.isRelease event = false /\
  Voice.leftShiftPressed_ m' = true /\
  Voice.rightShiftPressed_ m' = true /\
  out = [] /\
  exists a a',
    Voice.audioCapture_ m = Some a /\
    Capture.startRecording a = Returns (true, a') /\
    Voice.audioCapture_ m' = Some a'.
Proof.
  intros H Hb.
  assert (Hn : Voice.state_ m <> Voice.Recording)
    by (intros E; rewrite E in Hb; discriminate).
  clear Hb. revert H Hn.
  unfold Voice.handleKeyEvent.
  destruct (Voice.config_enabled m) eqn:Hen; cbn [negb].
  2:{ intros H Hn Hr. injection H as <- <-. congruence. }
  match goal with |- context [Voice.handleStateTransition ?x _ _] => set (m1 := x) end.
  assert (H1 : Voice.state_ m1 = Voice.state_ m /\
               Voice.audioCapture_ m1 = Voice.audioCapture_ m).
  { subst m1. destruct (_ =? _); [cbn; auto|]. destruct (_ =? _); cbn; auto. }
  destruct H1 as [Hst Hcap].
  unfold Voice.handleStateTransition. rewrite Hst.
  destruct (Voice.state_ m) eqn:Hs.
  - unfold Voice.isDualShiftPressed.
    destruct (Voice.leftShiftPressed_ m1) eqn:HL; cbn [andb].
    2:{ intros H _ Hr. injection H as <- <-. congruence. }
    destruct (Voice.rightShiftPressed_ m1) eqn:HR; cbn [andb].
    2:{ intros H _ Hr. injection H as <- <-. congruence. }
    destruct (Voice.isRelease event) eqn:Hrel; cbn [negb].
    { intros H _ Hr. injection H as <- <-. congruence. }
    destruct (startRecording_cases m1) as [Heq | [[why Heq] | (a & a' & _ & Ha & [[Hc Heq] | [Hc Heq]])]];
      rewrite Heq; cbn [fate_bind]; try discriminate.
    + intros H _ Hr. injection H as <- <-. congruence.
    + intros H _ Hr. injection H as <- <-.
      repeat (split; [first [reflexivity
                            | unfold Voice.setState; cbn; rewrite Hst; cbn; assumption]|]).
      exists a, a'. split; [congruence|]. split; [exact Hc|].
      unfold Voice.setState; cbn; rewrite Hst; reflexivity.
    + intros H _ Hr. injection H as <- <-. cbn in Hr. congruence.
  - congruence.
  - intros H _ Hr. injection H as <- <-. congruence.
  - intros H _ Hr. injection H as <- <-. rewrite state_setState in Hr. discriminate.
Qed.

(** X22. A request whose transfer succeeds starts with the HTTP request
    (endpoint, bearer token, content type and the size of the audio), runs
    no error callback, leaves the recognized text empty, and does not close
    anything: the handle stays open and both callbacks stay stored. *)
Theorem successful_request_keeps_the_connection
  (r : Table.VolcengineRecognizer) (audioData : string)
  (onResult onError : bool) (env : Table.curl_env) :
  Table.isReady_ r = true ->
  empty audioData = false ->
  size audioData < 2 ^ 64 ->
  Table.easy_init_ok env = true ->
  Table.perform_ok env = true ->
  exists r' evs,
    Table.recognize r audioData onResult onError env
    = Ok (r', Table.request (c_str (Table.apiEndpoint_ r))
                [c_str ("Authorization: Bearer; " ++ Table.token_ r);
                 "Content-Type: application/json"]
                (size audioData) :: evs) /\
    filter is_error_callback evs = [] /\
    uploads evs = String.substring 0 (Z.to_nat (Table.audioDataSent_ r')) audioData /\
    Table.audioDataSent_ r' <= size audioData /\
    Table.responseBuffer_ r' = received (Table.transfer env) /\
    Table.currentResult_ r' = "" /\
    Table.curlHandle_ r' = true /\
    Table.isConnected_ r' = true /\
    Table.recognitionStarted_ r' = true /\
    Table.onResult_ r' = onResult /\
    Table.onError_ r' = onError.
Proof. apply recognize_success. Qed.

Lemma successful_request_keeps_the_connection_witness :
  exists r' evs,
    Table.recognize table_ready "abcdefghij" true true table_curl
    = Ok (r', Table.request (c_str (Table.apiEndpoint_ table_ready))
                [c_str ("Authorization: Bearer; " ++ Table.token_ table_ready);
                 "Content-Type: application/json"]
                (size "abcdefghij") :: evs) /\
    filter is_error_callback evs = [] /\
    uploads evs
    = String.substring 0 (Z.to_nat (Table.audioDataSent_ r')) "abcdefghij" /\
    Table.audioDataSent_ r' <= size "abcdefghij" /\
    Table.responseBuffer_ r' = received (Table.transfer table_curl) /\
    Table.currentResult_ r' = "" /\
    Table.curlHandle_ r' = true /\
    Table.isConnected_ r' = true /\
    Table.recognitionStarted_ r' = true /\
    Table.onResult_ r' = true /\
    Table.onError_ r' = true.
Proof.
  apply (successful_request_keeps_the_connection
           table_ready "abcdefghij" true true table_curl);
    vm_compute; reflexivity.
Defined.

(** X23. A request whose transfer fails, or for which no handle could be
    made, ends with the error callback (if one was given) saying that the
    connection failed, and leaves the recognizer closed: no handle, not
    connected, both callbacks dropped, the audio still stored. *)
Theorem failed_request_reports_once_and_closes
  (r : Table.VolcengineRecognizer) (audioData : string)
  (onResult onError : bool) (env : Table.curl_env) :
  Table.isReady_ r = true ->
  empty audioData = false ->
  size audioData < 2 ^ 64 ->
  Table.easy_init_ok env && Table.perform_ok env = false ->
  exists r' evs,
    Table.recognize r audioData onResult onError env
    = Ok (r', evs ++ Table.error_if onError "Failed to connect to Volcengine API")%list /\
    filter is_error_callback evs = [] /\
    Table.curlHandle_ r' = false /\
    Table.isConnected_ r' = false /\
    Table.recognitionStarted_ r' = false /\
    Table.onResult_ r' = false /\
    Table.onError_ r' = false /\
    Table.audioData_ r' = audioData.
Proof. apply recognize_failure. Qed.

Lemma failed_request_reports_once_and_closes_witness :
  exists r' evs,
    Table.recognize table_ready "abcdefghij" true true table_curl_down
    = Ok (r', evs ++ Table.error_if true "Failed to connect to Volcengine API")%list /\
    filter is_error_callback evs = [] /\
    Table.curlHandle_ r' = false /\
    Table.isConnected_ r' = false /\
    Table.recognitionStarted_ r' = false /\
    Table.onResult_ r' = false /\
    Table.onError_ r' = false /\
    Table.audioData_ r' = "abcdefghij".
Proof.
  apply (failed_request_reports_once_and_closes
           table_ready "abcdefghij" true true table_curl_down);
    vm_compute; reflexivity.
Defined.

Lemma transfer_uploads_audio_in_order_witness :
  exists r' evs,
    Table.run_transfer stored_request (Table.transfer table_curl) = Ok (r', evs) /\
    Table.audioData_ r' = Table.audioData_ stored_request /\
    Table.audioDataSent_ stored_request <= Table.audioDataSent_ r'
      <= size (Table.audioData_ stored_request) /\
    uploads evs
    = String.substring (Z.to_nat (Table.audioDataSent_ stored_request))
        (Z.to_nat (Table.audioDataSent_ r' - Table.audioDataSent_ stored_request))
        (Table.audioData_ stored_request) /\
    Table.responseBuffer_ r'
    = (Table.responseBuffer_ stored_request ++ received (Table.transfer table_curl))%string.
Proof.
  apply (transfer_uploads_audio_in_order stored_request (Table.transfer table_curl)).
  - vm_compute. split; discriminate.
  - vm_compute. reflexivity.
Defined.

Lemma table_recognize_never_reports_a_result_witness :
  exists r' evs,
    Table.recognize table_ready "abcdefghij" true true table_curl = Ok (r', evs) /\
    filter is_result_callback evs = [] /\
    (List.length (filter is_error_callback evs) <= 1)%nat /\
    (true = false -> filter is_error_callback evs = []) /\
    exists n, uploads evs = String.substring 0 n "abcdefghij".
Proof.
  apply (table_recognize_never_reports_a_result
           table_ready "abcdefghij" true true table_curl).
  vm_compute. reflexivity.
Defined.

Lemma alsa_recording_has_whole_samples_witness :
  size (Capture.getRecordedData
          (Capture.mk_capture Capture.ALSA false true false true "abcdij" false))
    mod 2 = 0 /\
  Capture.isRecording
    (Capture.mk_capture Capture.ALSA false true false true "abcdij" false) = false /\
  Capture.readThread_
    (Capture.mk_capture Capture.ALSA false true false true "abcdij" false) = false.
Proof.
  apply (alsa_recording_has_whole_samples alsa_capture
           (Capture.mk_capture Capture.ALSA true false false true "" true)
           (Capture.mk_capture Capture.ALSA false true false true "abcdij" false)
           alsa_session);
    vm_compute; reflexivity.
Defined.

Lemma pulse_recording_needs_positive_reads_witness :
  exists a2,
    Capture.stopRecording
      (Capture.mk_capture Capture.PulseAudio true false true false "" true)
      pulse_session = Returns a2 /\
    Capture.getRecordedData a2 = "" /\
    Capture.isRecording a2 = false.
Proof.
  apply (pulse_recording_needs_positive_reads pulse_capture
           (Capture.mk_capture Capture.PulseAudio true false true false "" true)
           pulse_session);
    vm_compute; reflexivity.
Defined.

Lemma second_start_terminates_witness :
  Capture.startRecording
    (Capture.mk_capture Capture.ALSA true false false true "" true)
  = Stops terminated.
Proof.
  apply (second_start_terminates alsa_capture). vm_compute. reflexivity.
Defined.

Lemma manager_never_commits_witness :
  filter is_commit
    [Voice.recognizer_does
       (Table.request "wss://openspeech.bytedance.com/api/v2/asr"
          ["Authorization: Bearer; token"; "Content-Type: application/json"] 6);
     Voice.recognizer_does (Table.upload "abcd");
     Voice.recognizer_does (Table.upload "ij")] = [].
Proof.
  eapply (manager_never_commits ready_manager _ voice_calls).
  vm_compute. reflexivity.
Defined.

Lemma manager_stays_in_processing_witness :
  exists m1 out,
    Voice.handleKeyEvent recording_manager release_left voice_world
    = Returns (m1, out) /\
    Voice.state_ m1 = Voice.Processing /\
    filter is_commit out = [] /\
    forall calls, exists m2,
      Voice.run m1 calls = Returns (m2, []) /\
      Voice.state_ m2 = Voice.Processing.
Proof.
  apply (manager_stays_in_processing recording_manager release_left voice_world
           (Capture.mk_capture Capture.ALSA true false false true "" true)
           (Capture.mk_capture Capture.ALSA false true false true "abcdij" false)
           table_ready);
    try (vm_compute; reflexivity).
  left. reflexivity.
Defined.

Lemma recording_starts_on_press_with_both_shifts_witness :
  Voice.state_ half_pressed_manager = Voice.Idle /\
  Voice.config_enabled half_pressed_manager = true /\
  Voice.isRelease press_right = false /\
  Voice.leftShiftPressed_ recording_manager = true /\
  Voice.rightShiftPressed_ recording_manager = true /\
  @nil Voice.output = [] /\
  exists a a',
    Voice.audioCapture_ half_pressed_manager = Some a /\
    Capture.startRecording a = Returns (true, a') /\
    Voice.audioCapture_ recording_manager = Some a'.
Proof.
  apply (recording_starts_on_press_with_both_shifts
           half_pressed_manager recording_manager press_right voice_world []);
    vm_compute; reflexivity.
Defined.
